(** * Adaptive company benchmarking tool: prompt construction and feedback loop

    A shallow embedding of the Python sources

      - [descriptions.py]               (module [Descriptions])
      - [feedback_processor.py]         (module [FeedbackProcessor])
      - [ai/prompt_builder.py]          (module [PromptBuilder])
      - [scrapers/signal_extractor.py]  (module [SignalExtractor])
      - [retry_failed.py]               (module [RetryFailed])

    together with the properties the specification states about them.

    Conventions of the embedding.

    - A Python [str] is a Rocq [string], character by character: the
      texts are those whose code points lie below 256, and a character
      is its code point.  On these, [Py.isspace] and [Py.lower_char] are
      Python's [str.isspace] and [str.lower]: besides the ASCII
      whitespace, NEL (133) and the no-break space (160) are whitespace,
      and the capital letters from 192 to 222 have a small letter 32
      places further, as those from A to Z have.  The fixed prompt
      literals contain a few decorative glyphs; they are kept as the
      bytes of the source file and play no part in any property below.
    - A spreadsheet cell is an [option string]: [None] is the empty cell
      that pandas reads as NaN.
    - Files are explicit state: a file that does not exist is [None] for
      a text file, and the empty list for a JSON store (that is what
      [load_json_file] answers for it).
    - [datetime.now()] is a clock handed to the run; the k-th call of a
      run reads [clock k]. *)

From Stdlib Require Import String Ascii List Bool Arith Lia.
From Stdlib Require Import DecimalString.
Import ListNotations.
Open Scope string_scope.
Open Scope list_scope.
Open Scope nat_scope.

(** String concatenation, the [+] of Python on [str]. *)
Infix "^^" := String.append (at level 60, right associativity).

(* ===================================================================== *)
(** * Python string primitives *)
(* ===================================================================== *)

Module Py.

(** [str.isspace] on one character: TAB, LF, VT, FF, CR, the four
    separators FS GS RS US, the blank, NEL and the no-break space. *)
Definition isspace (c : ascii) : bool :=
  let n := nat_of_ascii c in
  ((9 <=? n) && (n <=? 13)) || ((28 <=? n) && (n <=? 32))
  || (n =? 133) || (n =? 160).

(** [str.lower] on one character: A to Z, and the capital letters from
    192 to 222, the multiplication sign (215) left out. *)
Definition lower_char (c : ascii) : ascii :=
  let n := nat_of_ascii c in
  if ((65 <=? n) && (n <=? 90))
     || ((192 <=? n) && (n <=? 222) && negb (n =? 215))
  then ascii_of_nat (n + 32) else c.

(** [s.lower()] *)
Fixpoint lower (s : string) : string :=
  match s with
  | EmptyString => EmptyString
  | String c s' => String (lower_char c) (lower s')
  end.

Definition is_empty (s : string) : bool :=
  match s with EmptyString => true | _ => false end.

(** Truth value of a string in a condition: non-empty. *)
Definition truthy (s : string) : bool := negb (is_empty s).

(** [s.split()] with no separator: the scan keeps the token being read
    in [cur]; whitespace closes a token, runs of whitespace yield no
    empty token. *)
Fixpoint split_from (cur : string) (s : string) : list string :=
  match s with
  | EmptyString => if is_empty cur then [] else [cur]
  | String c s' =>
      if isspace c
      then (if is_empty cur then split_from "" s' else cur :: split_from "" s')
      else split_from (cur ^^ String c "") s'
  end.

Definition split (s : string) : list string := split_from "" s.

Fixpoint lstrip (s : string) : string :=
  match s with
  | EmptyString => EmptyString
  | String c s' => if isspace c then lstrip s' else s
  end.

Fixpoint rstrip (s : string) : string :=
  match s with
  | EmptyString => EmptyString
  | String c s' =>
      match rstrip s' with
      | EmptyString => if isspace c then EmptyString else String c EmptyString
      | r => String c r
      end
  end.

(** [s.strip()] *)
Definition strip (s : string) : string := rstrip (lstrip s).

(** [s[:n]] *)
Fixpoint slice_to (n : nat) (s : string) : string :=
  match n, s with
  | S k, String c s' => String c (slice_to k s')
  | _, _ => EmptyString
  end.

(** [sep.join(l)] *)
Definition join (sep : string) (l : list string) : string :=
  String.concat sep l.

(** [needle in s] for strings. *)
Fixpoint contains (needle s : string) : bool :=
  String.prefix needle s ||
  match s with
  | EmptyString => false
  | String _ s' => contains needle s'
  end.

(** [x in l] for a list or a set of strings. *)
Definition mem (x : string) (l : list string) : bool :=
  existsb (String.eqb x) l.

(** [str(n)] for a natural number. *)
Definition str_of_nat (n : nat) : string :=
  NilEmpty.string_of_uint (Nat.to_uint n).

(** [a == b] on cells: NaN is different from everything, itself included. *)
Definition cell_eqb (a b : option string) : bool :=
  match a, b with
  | Some x, Some y => String.eqb x y
  | _, _ => false
  end.

End Py.

(* ===================================================================== *)
(** * ai/prompt_builder.py *)
(* ===================================================================== *)

Module PromptBuilder.

(** The newline and the double quote of the literals. *)
Definition nl : string := String "010"%char EmptyString.
Definition dquote : string := String "034"%char EmptyString.

(** A literal given by the bytes it has in the source file. *)
Definition bytes (l : list nat) : string :=
  fold_right (fun n s => String (ascii_of_nat n) s) EmptyString l.

(** The dict returned by [scrape_website_text]. *)
Record WebsiteData := mkWebsiteData {
  text_content : string;
  nav_links : list string;
  meta_description : string;
  error : option string
}.

(** The dict returned by [extract_ui_signals]; a key that is absent
    reads as its falsy value through [.get]. *)
Record UISignals := mkUISignals {
  has_shopping_cart : bool;
  has_job_board : bool;
  detected_elements : list string;
  custom_check_result : string
}.

(** An entry of the training examples, read with [.get]: [None] is an
    absent key. *)
Record Example := mkExample {
  ex_benchmark_context : option string;
  ex_html_snippet : option string;
  ex_content_snippet : option string;
  ex_human_description : option string;
  ex_description : option string
}.

(** An entry of the mistake patterns; an absent key reads as [''] . *)
Record MistakePattern := mkMistakePattern {
  pattern : string;
  wrong_conclusion : string;
  correct_conclusion : string
}.

Definition get (field : option string) (default : string) : string :=
  match field with Some v => v | None => default end.

Definition examples_header : string :=
  "REFERENCE EXAMPLES (Match this writing style and analysis depth):" ^^ nl.

Definition mistakes_header : string :=
  nl ^^ bytes [195; 162; 197; 161; 194; 160; 195; 175; 194; 184]
     ^^ " COMMON MISTAKES TO AVOID:" ^^ nl.

(** The text one example adds; [i] is its number. *)
Definition example_entry (i : nat) (ex : Example) : string :=
  nl ^^ "--- Example " ^^ Py.str_of_nat i ^^ " ---" ^^ nl
  ^^ "Instructions Used: " ^^ get (ex_benchmark_context ex) "N/A" ^^ nl
  ^^ "Website Snippet: " ^^ dquote
  ^^ Py.slice_to 150
       (get (ex_html_snippet ex) (get (ex_content_snippet ex) ""))
  ^^ "..." ^^ dquote ^^ nl
  ^^ "Correct Output: "
  ^^ get (ex_human_description ex) (get (ex_description ex) "") ^^ nl
  ^^ "--- End Example " ^^ Py.str_of_nat i ^^ " ---" ^^ nl.

(** [for i, ex in enumerate(training_examples, i0): section += ...] *)
Fixpoint examples_loop (i : nat) (examples : list Example) (section : string)
  : string :=
  match examples with
  | [] => section
  | ex :: rest => examples_loop (S i) rest (section ^^ example_entry i ex)
  end.

Definition build_examples_section (training_examples : list Example) : string :=
  match training_examples with
  | [] => ""
  | _ => examples_loop 1 training_examples examples_header
  end.

Definition mistake_entry (p : MistakePattern) : string :=
  nl ^^ "- Pattern: " ^^ dquote ^^ pattern p ^^ dquote ^^ nl
  ^^ "  WRONG conclusion: " ^^ wrong_conclusion p ^^ nl
  ^^ "  CORRECT conclusion: " ^^ correct_conclusion p ^^ nl.

Fixpoint mistakes_loop (patterns : list MistakePattern) (section : string)
  : string :=
  match patterns with
  | [] => section
  | p :: rest => mistakes_loop rest (section ^^ mistake_entry p)
  end.

Definition build_mistakes_section (mistake_patterns : list MistakePattern)
  : string :=
  match mistake_patterns with
  | [] => ""
  | _ => mistakes_loop mistake_patterns mistakes_header
  end.

Definition relevant_keywords : list string :=
  ["r&d"; "research"; "product"; "service"; "about";
   "shop"; "store"; "career"; "contact"; "solution";
   "manufacture"; "develop"; "wholesale"; "retail"].

(** [any(kw in link.lower() for kw in relevant_keywords)] *)
Definition is_relevant (link : string) : bool :=
  existsb (fun kw => Py.contains kw (Py.lower link)) relevant_keywords.

(** The list [sections] that [build_signals_section] collects. *)
Definition signal_sections (website_data : WebsiteData)
                           (ui_signals : option UISignals) : list string :=
  (match nav_links website_data with
   | [] => []
   | nav_links =>
       let filtered_links := filter is_relevant (firstn 30 nav_links) in
       match filtered_links with
       | [] => []
       | _ => ["NAVIGATION LINKS DETECTED: "
               ^^ Py.join ", " (firstn 15 filtered_links)]
       end
   end)
  ++ (if Py.truthy (meta_description website_data)
      then ["META DESCRIPTION: " ^^ meta_description website_data]
      else [])
  ++ (match ui_signals with
      | None => []
      | Some ui =>
          (if has_shopping_cart ui
           then [bytes [195; 162; 197; 161; 194; 161]
                 ^^ " RETAIL INDICATOR: Shopping cart/e-commerce elements detected"]
           else [])
          ++ (if has_job_board ui
              then [bytes [195; 176; 197; 184; 226; 128; 156; 226; 128; 185]
                    ^^ " CAREERS SECTION: Job board/hiring page detected"]
              else [])
          ++ (match detected_elements ui with
              | [] => []
              | elements => ["UI ELEMENTS: " ^^ Py.join ", " (firstn 5 elements)]
              end)
      end).

(** [build_signals_section(website_data, ui_signals)] *)
Definition build_signals_section (website_data : WebsiteData)
                                 (ui_signals : option UISignals) : string :=
  Py.join nl (signal_sections website_data ui_signals).

Definition build_visual_section (visual_check : string)
                                (ui_signals : option UISignals) : string :=
  if Py.truthy (Py.strip visual_check)
  then nl ^^ "VISUAL CHECK REQUESTED:" ^^ nl ^^ visual_check ^^ nl
       ^^ (match ui_signals with
           | Some ui =>
               if Py.truthy (custom_check_result ui)
               then "Detection Result: " ^^ custom_check_result ui ^^ nl
               else ""
           | None => ""
           end)
  else "".

(** The final template, with its four computed sections. *)
Definition assemble (instructions visual_section examples_section
                     mistakes_section signals_section text : string) : string :=
  "ROLE:" ^^ nl
  ^^ "You are an expert business analyst specializing in company benchmarking studies."
  ^^ nl ^^ nl
  ^^ "THE MISSION (Instructions for this benchmark):" ^^ nl
  ^^ instructions ^^ nl
  ^^ visual_section ^^ nl
  ^^ examples_section ^^ nl
  ^^ mistakes_section ^^ nl
  ^^ "--------------------------------------------------" ^^ nl
  ^^ nl
  ^^ "CURRENT TASK:" ^^ nl
  ^^ "Analyze the website content below and strictly follow 'The Mission'."
  ^^ nl ^^ nl
  ^^ signals_section ^^ nl
  ^^ nl
  ^^ "WEBSITE TEXT CONTENT:" ^^ nl
  ^^ text ^^ nl
  ^^ nl
  ^^ "OUTPUT:" ^^ nl
  ^^ "Provide your analysis following the mission instructions exactly." ^^ nl.

(** [build_prompt(website_data, instructions, visual_check,
                  training_examples, mistake_patterns, ui_signals)] *)
Definition build_prompt (website_data : WebsiteData) (instructions : string)
                        (visual_check : string)
                        (training_examples : list Example)
                        (mistake_patterns : list MistakePattern)
                        (ui_signals : option UISignals) : string :=
  let examples_section := build_examples_section training_examples in
  let mistakes_section := build_mistakes_section mistake_patterns in
  let signals_section := build_signals_section website_data ui_signals in
  let visual_section := build_visual_section visual_check ui_signals in
  assemble instructions visual_section examples_section mistakes_section
           signals_section (text_content website_data).

(** [str.replace(' ', '_')] *)
Fixpoint replace_blank (s : string) : string :=
  match s with
  | EmptyString => EmptyString
  | String c s' =>
      String (if Ascii.eqb c " "%char then "_"%char else c) (replace_blank s')
  end.

(** The path [load_training_examples] reads the benchmark's examples
    from ([os.path.join] with the separator [/]). *)
Definition specific_file (benchmark_name : string) : string :=
  "learning" ^^ "/" ^^ "training_"
  ^^ replace_blank (Py.lower benchmark_name) ^^ ".json".

End PromptBuilder.

(* ===================================================================== *)
(** * scrapers/signal_extractor.py *)
(* ===================================================================== *)

Module SignalExtractor.

Import PromptBuilder.

(** The parsed page: a tag has a name, its attributes as written in the
    markup, and its children; the other nodes are texts. *)
#[warnings="-register-all"]
Inductive Node :=
| Tag (name : string) (attrs : list (string * string)) (children : list Node)
| Text (s : string).

(** The page itself is the list of its top-level nodes. *)
Definition Soup := list Node.

(** A node followed by everything below it, in document order. *)
Fixpoint descendants_of (n : Node) : list Node :=
  n :: match n with
       | Tag _ _ children =>
           (fix below (l : list Node) : list Node :=
              match l with
              | [] => []
              | c :: cs => descendants_of c ++ below cs
              end) children
       | Text _ => []
       end.

Definition descendants (soup : Soup) : list Node :=
  flat_map descendants_of soup.

Fixpoint attr (key : string) (attrs : list (string * string)) : option string :=
  match attrs with
  | [] => None
  | (k, v) :: rest => if String.eqb k key then Some v else attr key rest
  end.

(** [lambda x: x and pattern in x.lower() if x else False] *)
Definition mentions (pattern : string) (x : option string) : bool :=
  match x with
  | Some v => Py.truthy v && Py.contains pattern (Py.lower v)
  | None => false
  end.

(** [pattern.replace('-', ' ')] *)
Fixpoint replace_hyphen (s : string) : string :=
  match s with
  | EmptyString => EmptyString
  | String c s' =>
      String (if Ascii.eqb c "-"%char then " "%char else c) (replace_hyphen s')
  end.

(** ** The searches of the parsing library

    [find_all] walks the descendants of the page and keeps those that
    pass every filter given.  An attribute filter is handed the value of
    the attribute, [None] when the tag has none.  [class] has several
    values: the filter is tried on each of them, then on all of them
    joined by a blank. *)

Definition class_passes (f : option string -> bool) (n : Node) : bool :=
  match n with
  | Tag _ attrs _ =>
      match attr "class" attrs with
      | Some v =>
          let values := Py.split v in
          existsb (fun value => f (Some value)) values
          || f (Some (Py.join " " values))
      | None => f None
      end
  | Text _ => false
  end.

Definition attr_passes (key : string) (f : option string -> bool) (n : Node)
  : bool :=
  match n with
  | Tag _ attrs _ => f (attr key attrs)
  | Text _ => false
  end.

Definition name_in (names : list string) (n : Node) : bool :=
  match n with
  | Tag name _ _ => Py.mem name names
  | Text _ => false
  end.

Definition string_passes (f : option string -> bool) (n : Node) : bool :=
  match n with
  | Tag _ _ _ => false
  | Text s => f (Some s)
  end.

Definition find_all (soup : Soup) (keep : Node -> bool) : list Node :=
  filter keep (descendants soup).

(** A result set in a condition: true when it is not empty. *)
Definition found (l : list Node) : bool :=
  match l with [] => false | _ => true end.

Definition cart_patterns : list string :=
  ["cart"; "basket"; "shopping-cart"; "shopping_cart";
   "add-to-cart"; "addtocart"; "buy-now"; "checkout";
   "shop"; "store"; "e-commerce"; "ecommerce"].

Definition job_patterns : list string :=
  ["careers"; "jobs"; "vacancies"; "hiring"; "join-us"; "join-our-team"].

(** [result["has_shopping_cart"] = True;
     result["detected_elements"].append(note)] *)
Definition note_cart (result : UISignals) (note : string) : UISignals :=
  {| has_shopping_cart := true;
     has_job_board := has_job_board result;
     detected_elements := detected_elements result ++ [note];
     custom_check_result := custom_check_result result |}.

Definition note_job (result : UISignals) (note : string) : UISignals :=
  {| has_shopping_cart := has_shopping_cart result;
     has_job_board := true;
     detected_elements := detected_elements result ++ [note];
     custom_check_result := custom_check_result result |}.

(** The loop over [cart_patterns]; a [break] ends the recursion. *)
Fixpoint cart_loop (soup : Soup) (patterns : list string) (result : UISignals)
  : UISignals :=
  match patterns with
  | [] => result
  | pattern :: rest =>
      if found (find_all soup (class_passes (mentions pattern)))
      then note_cart result ("cart-indicator: " ^^ pattern)
      else if found (find_all soup (attr_passes "id" (mentions pattern)))
      then note_cart result ("cart-id: " ^^ pattern)
      else if found (find_all soup
                       (fun n => name_in ["i"; "span"; "svg"] n
                                 && class_passes (mentions pattern) n))
      then note_cart result ("cart-icon: " ^^ pattern)
      else cart_loop soup rest result
  end.

(** The loop over [job_patterns]. *)
Fixpoint job_loop (soup : Soup) (patterns : list string) (result : UISignals)
  : UISignals :=
  match patterns with
  | [] => result
  | pattern :: rest =>
      if found (find_all soup
                  (fun n => name_in ["a"] n
                            && attr_passes "href" (mentions pattern) n))
      then note_job result ("job-board: " ^^ pattern)
      else if found (find_all soup
                       (string_passes (mentions (replace_hyphen pattern))))
      then note_job result ("job-mention: " ^^ pattern)
      else job_loop soup rest result
  end.

Section WithSerializer.

(** [str(tag)], the markup of a tag as the parsing library prints it. *)
Variable str_of_tag : Node -> string.

(** [process_custom_visual_check(soup, instruction)] *)
Definition process_custom_visual_check (soup : Soup) (instruction : string)
  : string :=
  let instruction_lower := Py.lower instruction in
  let findings1 :=
    if Py.contains "shopping cart" instruction_lower
       || Py.contains "cart icon" instruction_lower
    then if found (find_all soup (class_passes (mentions "cart")))
         then ["Shopping cart element detected"]
         else ["No shopping cart element found"]
    else [] in
  let findings2 :=
    if Py.contains "contact form" instruction_lower
    then let forms := find_all soup (name_in ["form"]) in
         let contact_forms :=
           filter (fun f => Py.contains "contact" (Py.lower (str_of_tag f))
                            || Py.contains "message" (Py.lower (str_of_tag f)))
                  forms in
         if found contact_forms
         then findings1 ++ ["Contact form detected"]
         else findings1 ++ ["No contact form found"]
    else findings1 in
  let findings3 :=
    if Py.contains "product" instruction_lower
       && Py.contains "page" instruction_lower
    then if found (find_all soup (class_passes (mentions "product")))
         then findings2 ++ ["Product pages detected"]
         else findings2 ++ ["No product page indicators found"]
    else findings2 in
  match findings3 with
  | [] => "Custom check performed, no specific findings"
  | _ => Py.join "; " findings3
  end.

(** [extract_ui_signals(soup, visual_check)] *)
Definition extract_ui_signals (soup : Soup) (visual_check : string)
  : UISignals :=
  let result := {| has_shopping_cart := false;
                   has_job_board := false;
                   detected_elements := [];
                   custom_check_result := "" |} in
  let result := cart_loop soup cart_patterns result in
  let result := job_loop soup job_patterns result in
  if Py.truthy (Py.strip visual_check)
  then {| has_shopping_cart := has_shopping_cart result;
          has_job_board := has_job_board result;
          detected_elements := detected_elements result;
          custom_check_result :=
            process_custom_visual_check soup visual_check |}
  else result.

End WithSerializer.

End SignalExtractor.

(* ===================================================================== *)
(** * descriptions.py *)
(* ===================================================================== *)

Module Descriptions.

(** ** The search for [VISUAL_CHECK:\s*(.+?)(?:\n|$)] (case ignored)

    The matcher follows the pattern left to right with the backtracking
    order of [re]; each function answers the captured group and the
    number of characters the match consumes from where it starts. *)

Definition is_newline (c : ascii) : bool := Ascii.eqb c "010"%char.

(** [(.+?)(?:\n|$)]: at least one character other than a newline, as few
    as possible, then a newline (consumed) or the end of the text. *)
Fixpoint lazy_dots (s : string) : option (string * nat) :=
  match s with
  | EmptyString => None
  | String c s' =>
      if is_newline c then None
      else match s' with
           | EmptyString => Some (String c "", 1)
           | String c' _ =>
               if is_newline c' then Some (String c "", 2)
               else match lazy_dots s' with
                    | Some (g, n) => Some (String c g, S n)
                    | None => None
                    end
           end
  end.

(** [\s*] followed by the rest of the pattern: greedy, giving back one
    whitespace character at a time when the rest fails. *)
Fixpoint ws_star (s : string) : option (string * nat) :=
  match s with
  | EmptyString => lazy_dots s
  | String c s' =>
      if Py.isspace c
      then match ws_star s' with
           | Some (g, n) => Some (g, S n)
           | None => lazy_dots s
           end
      else lazy_dots s
  end.

(** The literal part of the pattern, letters compared without case:
    among the code points below 256 a letter of the pattern matches its
    capital and its small form, and nothing else. *)
Fixpoint literal_ic (lit : string) (s : string)
                    (k : string -> option (string * nat))
  : option (string * nat) :=
  match lit with
  | EmptyString => k s
  | String p lit' =>
      match s with
      | EmptyString => None
      | String c s' =>
          if Ascii.eqb (Py.lower_char c) (Py.lower_char p)
          then match literal_ic lit' s' k with
               | Some (g, n) => Some (g, S n)
               | None => None
               end
          else None
      end
  end.

(** A match of the whole pattern starting at the head of [s]. *)
Definition match_here (s : string) : option (string * nat) :=
  literal_ic "VISUAL_CHECK:" s ws_star.

(** [re.search]: the group of the leftmost match. *)
Fixpoint re_search (s : string) : option string :=
  match match_here s with
  | Some (g, _) => Some g
  | None =>
      match s with
      | EmptyString => None
      | String _ s' => re_search s'
      end
  end.

(** [re.sub(pattern, '', s)]: every match, leftmost first and without
    overlap, is removed.  [skip] counts the characters of the current
    match still to be dropped. *)
Fixpoint re_sub_from (skip : nat) (s : string) : string :=
  match s with
  | EmptyString => EmptyString
  | String c s' =>
      match skip with
      | S k => re_sub_from k s'
      | O =>
          match match_here s with
          | Some (_, n) => re_sub_from (Nat.pred n) s'
          | None => String c (re_sub_from 0 s')
          end
      end
  end.

Definition re_sub (s : string) : string := re_sub_from 0 s.

(** [load_instructions(filepath)]; the argument is the content of the
    file, [None] when it does not exist. *)
Definition load_instructions (file : option string) : string * string :=
  match file with
  | None => ("", "")
  | Some content =>
      match re_search content with
      | Some g => (Py.strip (re_sub content), Py.strip g)
      | None => (Py.strip content, "")
      end
  end.

Definition stop_words : list string :=
  ["we"; "are"; "the"; "a"; "an"; "for"; "of"; "to"; "in"; "on"; "is";
   "please"; "write"; "analyzing"; "looking"; "describe"; "description"].

(** The condition of the comprehension:
    [w not in stop_words and len(w) > 2]. *)
Definition is_key_word (w : string) : bool :=
  negb (Py.mem w stop_words) && (2 <? String.length w).

(** [[w for w in words if cond(w)]], as the loop it stands for. *)
Fixpoint comprehension (cond : string -> bool) (words : list string)
  : list string :=
  match words with
  | [] => []
  | w :: ws => if cond w then w :: comprehension cond ws
               else comprehension cond ws
  end.

Definition key_words_of (text : string) : list string :=
  let words := firstn 20 (Py.split (Py.lower text)) in
  comprehension is_key_word words.

(** [extract_benchmark_name(instructions)] *)
Definition extract_benchmark_name (instructions : string) : string :=
  let key_words := key_words_of instructions in
  match key_words with
  | [] => "general"
  | _ => Py.join "_" (firstn 3 key_words)
  end.

(** ** The generative model

    [model] is [None] when no API key is configured.  Otherwise
    [generate_content] answers a text, or raises an exception that
    prints as the given message. *)
Inductive Response :=
| Generated (text : string)
| Failure (message : string).

Definition Model := string -> Response.

(** What a call of [generate_ai_description] does besides answering. *)
Inductive Event :=
| BuiltPrompt (prompt : string)
| CalledModel (prompt : string).

Definition website_failure : string := "The Company's website does not work".

(** [website_data.get('error')] in a condition. *)
Definition has_error (website_data : PromptBuilder.WebsiteData) : bool :=
  match PromptBuilder.error website_data with
  | Some e => Py.truthy e
  | None => false
  end.

(** [generate_ai_description(website_data, ui_signals, instructions,
    visual_check, training_examples, mistake_patterns)]: the description
    and the trace of what was done to obtain it. *)
Definition generate_ai_description
    (model : option Model)
    (website_data : PromptBuilder.WebsiteData)
    (ui_signals : option PromptBuilder.UISignals)
    (instructions visual_check : string)
    (training_examples : list PromptBuilder.Example)
    (mistake_patterns : list PromptBuilder.MistakePattern)
  : string * list Event :=
  match model with
  | None => (website_failure, [])
  | Some m =>
      if has_error website_data then (website_failure, [])
      else
        let prompt :=
          PromptBuilder.build_prompt website_data instructions visual_check
            training_examples mistake_patterns ui_signals in
        match m prompt with
        | Generated text =>
            (Py.strip text, [BuiltPrompt prompt; CalledModel prompt])
        | Failure e =>
            ("AI Generation Error: " ^^ e,
             [BuiltPrompt prompt; CalledModel prompt])
        end
  end.

End Descriptions.

(* ===================================================================== *)
(** * feedback_processor.py *)
(* ===================================================================== *)

Module FeedbackProcessor.

(** One row of the output table, cell by cell.  [Html_Snippet] is what
    [row.get('Html_Snippet', '')] reads: [None] for a cell that is empty,
    and [Some ""] in every row of a table that has no such column. *)
Record Row := mkRow {
  URL : option string;
  AI_Description : option string;
  Your_Correction : option string;
  Html_Snippet : option string
}.

(** A training example, as the dict written to the training store.  The
    url and the snippet are stored as the cells they were read from: a
    cell that was empty is written as NaN and read back as NaN, [None]
    here.  Such a url compares unequal to every url. *)
Record TrainingRecord := mkTrainingRecord {
  benchmark_context : string;
  url : option string;
  html_snippet : option string;
  ai_description : string;
  human_description : string;
  timestamp : string
}.

(** [{**training_record, "discrepancy": ...}] *)
Record FeedbackRecord := mkFeedbackRecord {
  record_fields : TrainingRecord;
  discrepancy : string
}.

(** The files the processor reads and writes.  [output_file] is [None]
    when the table is missing, unreadable or lacks a required column;
    [training_files] maps a path to the list its JSON file holds. *)
Record Files := mkFiles {
  output_file : option (list Row);
  instructions_file : option string;
  training_files : string -> list TrainingRecord;
  feedback_log_file : list FeedbackRecord
}.

Definition stop_words : list string :=
  ["we"; "are"; "the"; "a"; "an"; "for"; "of"; "to"; "in"; "on"; "is";
   "please"; "write"; "analyzing"; "looking"; "describe"; "description"].

Definition is_key_word (w : string) : bool :=
  negb (Py.mem w stop_words) && (2 <? String.length w).

(** [extract_benchmark_name_from_file(instructions_file)]; the argument
    is the content of the file, [None] when it does not exist. *)
Definition extract_benchmark_name_from_file (file : option string) : string :=
  match file with
  | None => "general"
  | Some text =>
      let content := Py.lower text in
      let words := firstn 20 (Py.split content) in
      let key_words := Descriptions.comprehension is_key_word words in
      match key_words with
      | [] => "general"
      | _ => Py.join "_" (firstn 3 key_words)
      end
  end.

(** [df['Your_Correction'].notna() & (df['Your_Correction'] != '')] *)
Definition has_correction (row : Row) : bool :=
  match Your_Correction row with
  | Some s => negb (String.eqb s "")
  | None => false
  end.

(** The variables the loop of step 6 updates; [ticks] counts the calls
    of [datetime.now()] made so far. *)
Record LoopState := mkLoopState {
  training_data : list TrainingRecord;
  feedback_log : list FeedbackRecord;
  new_examples : nat;
  ticks : nat
}.

(** The [any(...)] of the duplicate check. *)
Definition is_duplicate (u : option string) (context : string)
                        (data : list TrainingRecord) : bool :=
  existsb (fun t => Py.cell_eqb (url t) u
                    && String.eqb (benchmark_context t) context) data.

Definition discrepancy_of (ai_desc human_desc : string) : string :=
  "AI said: '" ^^ Py.slice_to 100 ai_desc ^^ "...' vs Human said: '"
  ^^ Py.slice_to 100 human_desc ^^ "...'".

(** One iteration of the loop over the corrections.  [None] is the
    exception raised by [.strip()] on a cell that holds no text. *)
Definition process_row (clock : nat -> string) (instructions : string)
                       (st : LoopState) (row : Row) : option LoopState :=
  match AI_Description row, Your_Correction row with
  | Some ai_desc, Some human_desc =>
      if String.eqb (Py.strip ai_desc) (Py.strip human_desc)
      then Some st
      else
        let training_record :=
          {| benchmark_context := Py.slice_to 200 instructions;
             url := URL row;
             html_snippet := Html_Snippet row;
             ai_description := ai_desc;
             human_description := human_desc;
             timestamp := clock (ticks st) |} in
        let fresh :=
          negb (is_duplicate (URL row) (benchmark_context training_record)
                             (training_data st)) in
        let feedback_record :=
          {| record_fields := training_record;
             discrepancy := discrepancy_of ai_desc human_desc |} in
        Some {| training_data :=
                  if fresh then training_data st ++ [training_record]
                  else training_data st;
                feedback_log := feedback_log st ++ [feedback_record];
                new_examples :=
                  if fresh then new_examples st + 1 else new_examples st;
                ticks := S (ticks st) |}
  | _, _ => None
  end.

Fixpoint process_rows (clock : nat -> string) (instructions : string)
                      (st : LoopState) (rows : list Row) : option LoopState :=
  match rows with
  | [] => Some st
  | row :: rest =>
      match process_row clock instructions st row with
      | Some st' => process_rows clock instructions st' rest
      | None => None
      end
  end.

Definition training_file_of (benchmark_name : string) : string :=
  "learning/training_" ^^ benchmark_name ^^ ".json".

(** [save_json_file(training_file, training_data)] *)
Definition save_training (path : string) (data : list TrainingRecord)
                         (files : string -> list TrainingRecord)
  : string -> list TrainingRecord :=
  fun p => if String.eqb p path then data else files p.

(** Step 4 of [process_feedback]: the instructions, trimmed, or [""]
    when the file does not exist. *)
Definition read_instructions (file : option string) : string :=
  match file with
  | Some text => Py.strip text
  | None => ""
  end.

(** How a run of [process_feedback] ends. *)
Inductive Outcome :=
| Returned            (* an early [return]: nothing to process *)
| Raised              (* an exception left the loop; nothing was saved *)
| Saved (added : nat) (* both stores written; [added] is the printed count *).

(** [process_feedback()]: the files after the run, and how it ended. *)
Definition process_feedback (clock : nat -> string) (fs : Files)
  : Files * Outcome :=
  match output_file fs with
  | None => (fs, Returned)
  | Some df =>
      let corrections := filter has_correction df in
      match corrections with
      | [] => (fs, Returned)
      | _ =>
          let benchmark_name :=
            extract_benchmark_name_from_file (instructions_file fs) in
          let instructions := read_instructions (instructions_file fs) in
          let training_file := training_file_of benchmark_name in
          let st0 := {| training_data := training_files fs training_file;
                        feedback_log := feedback_log_file fs;
                        new_examples := 0;
                        ticks := 0 |} in
          match process_rows clock instructions st0 corrections with
          | None => (fs, Raised)
          | Some st =>
              ({| output_file := output_file fs;
                  instructions_file := instructions_file fs;
                  training_files :=
                    save_training training_file (training_data st)
                                  (training_files fs);
                  feedback_log_file := feedback_log st |},
               Saved (new_examples st))
          end
      end
  end.

(** The training store and the feedback log of the current instructions,
    as the next run will load them. *)
Definition training_store (fs : Files) : list TrainingRecord :=
  training_files fs
    (training_file_of (extract_benchmark_name_from_file (instructions_file fs))).

Definition current_context (fs : Files) : string :=
  Py.slice_to 200 (read_instructions (instructions_file fs)).

End FeedbackProcessor.

(* ===================================================================== *)
(** * retry_failed.py *)
(* ===================================================================== *)

Module RetryFailed.

(** [df['AI_Description'] == "The Company's website does not work"], for
    one cell of the column. *)
Definition error_mask (cell : option string) : bool :=
  Py.cell_eqb cell (Some "The Company's website does not work").

(** [df[error_mask].index.tolist()]: the positions of the failed rows;
    [i] is the position of the head of the column. *)
Fixpoint failed_from (i : nat) (column : list (option string)) : list nat :=
  match column with
  | [] => []
  | cell :: rest =>
      if error_mask cell then i :: failed_from (S i) rest
      else failed_from (S i) rest
  end.

Definition failed_indices (column : list (option string)) : list nat :=
  failed_from 0 column.

End RetryFailed.

(* ===================================================================== *)
(** * The specification's vocabulary *)
(* ===================================================================== *)

Module Spec.

(** ** Text, in the words of the specification

    The specification speaks of whitespace, of trimming, of lowercase
    and of the first characters of a text.  What these mean for the
    characters a text can hold is written out here, as tables over the
    code points and operations on the list of the characters. *)

(** The code points that are whitespace: TAB, LF, VT, FF, CR, the
    separators FS, GS, RS and US, the blank, NEL and the no-break
    space. *)
Definition whitespace_codes : list nat :=
  [9; 10; 11; 12; 13; 28; 29; 30; 31; 32; 133; 160].

Definition is_whitespace (c : ascii) : bool :=
  existsb (Nat.eqb (nat_of_ascii c)) whitespace_codes.

(** The capital letters, each with its small letter. *)
Definition small_letters : list (nat * nat) :=
  [(65, 97); (66, 98); (67, 99); (68, 100); (69, 101); (70, 102);
   (71, 103); (72, 104); (73, 105); (74, 106); (75, 107); (76, 108);
   (77, 109); (78, 110); (79, 111); (80, 112); (81, 113); (82, 114);
   (83, 115); (84, 116); (85, 117); (86, 118); (87, 119); (88, 120);
   (89, 121); (90, 122); (192, 224); (193, 225); (194, 226); (195, 227);
   (196, 228); (197, 229); (198, 230); (199, 231); (200, 232);
   (201, 233); (202, 234); (203, 235); (204, 236); (205, 237);
   (206, 238); (207, 239); (208, 240); (209, 241); (210, 242);
   (211, 243); (212, 244); (213, 245); (214, 246); (216, 248);
   (217, 249); (218, 250); (219, 251); (220, 252); (221, 253); (222, 254)].

Definition lowercase_char (c : ascii) : ascii :=
  match find (fun p => fst p =? nat_of_ascii c) small_letters with
  | Some (_, small) => ascii_of_nat small
  | None => c
  end.

(** The text with every capital letter replaced by its small letter. *)
Fixpoint lowercase (s : string) : string :=
  match s with
  | EmptyString => EmptyString
  | String c s' => String (lowercase_char c) (lowercase s')
  end.

(** The characters left once the leading whitespace is dropped. *)
Fixpoint drop_whitespace (l : list ascii) : list ascii :=
  match l with
  | [] => []
  | c :: l' => if is_whitespace c then drop_whitespace l' else l
  end.

(** The text without the whitespace at its two ends. *)
Definition trim (s : string) : string :=
  string_of_list_ascii
    (rev (drop_whitespace (rev (drop_whitespace (list_ascii_of_string s))))).

(** The first [n] characters of a text, all of it when it is shorter. *)
Definition first_chars (n : nat) (s : string) : string :=
  string_of_list_ascii (firstn n (list_ascii_of_string s)).

(** ** Benchmark identity, in the words of the specification *)

(** The whitespace-separated tokens of a text: its maximal runs of
    characters that are not whitespace, from left to right. *)
Fixpoint tokens (s : string) : list string :=
  match s with
  | EmptyString => []
  | String c s' =>
      if is_whitespace c then tokens s'
      else match s' with
           | EmptyString => [String c ""]
           | String c' _ =>
               if is_whitespace c' then String c "" :: tokens s'
               else match tokens s' with
                    | w :: ws => String c w :: ws
                    | [] => [String c ""]
                    end
           end
  end.

Definition stop_word_set : list string :=
  ["a"; "an"; "analyzing"; "are"; "describe"; "description"; "for"; "in";
   "is"; "looking"; "of"; "on"; "please"; "the"; "to"; "we"; "write"].

(** A token is dropped when it is a stop word or has at most two
    characters. *)
Definition dropped (w : string) : bool :=
  (if in_dec string_dec w stop_word_set then true else false)
  || (String.length w <=? 2).

(** The tokens that survive among the first twenty of the lowercased
    text. *)
Definition survivors (text : string) : list string :=
  filter (fun w => negb (dropped w)) (firstn 20 (tokens (lowercase text))).

Definition sentinel : string := "general".

(** The identity of a text: the first three survivors joined by [_],
    the sentinel when nothing survives. *)
Definition identity (text : string) : string :=
  match firstn 3 (survivors text) with
  | [] => sentinel
  | [t1] => t1
  | [t1; t2] => t1 ^^ "_" ^^ t2
  | t1 :: t2 :: t3 :: _ => t1 ^^ "_" ^^ t2 ^^ "_" ^^ t3
  end.

(** [l1] is drawn from [l2] in the original order. *)
Inductive drawn_from {A : Type} : list A -> list A -> Prop :=
| drawn_nil : forall l, drawn_from [] l
| drawn_keep : forall x l1 l2, drawn_from l1 l2 -> drawn_from (x :: l1) (x :: l2)
| drawn_skip : forall x l1 l2, drawn_from l1 l2 -> drawn_from l1 (x :: l2).

(** ** The training store *)

(** The benchmark context of a run: the first 200 characters of the
    instructions. *)
Definition context_of (instructions : string) : string :=
  first_chars 200 instructions.

(** The same, read off the instructions file: the instructions are the
    content of the file, trimmed; without a file they are empty. *)
Definition context_of_file (file : option string) : string :=
  match file with
  | Some content => context_of (trim content)
  | None => ""
  end.

(** The training store of the benchmark an instructions file names. *)
Definition store_path (file : option string) : string :=
  "learning/training_"
  ^^ (match file with
      | Some content => identity content
      | None => sentinel
      end)
  ^^ ".json".

Definition store_of (fs : FeedbackProcessor.Files)
  : list FeedbackProcessor.TrainingRecord :=
  FeedbackProcessor.training_files fs
    (store_path (FeedbackProcessor.instructions_file fs)).

(** A cell holds the url [u]. *)
Definition url_is (u : string) (cell : option string) : bool :=
  match cell with
  | Some x => String.eqb x u
  | None => false
  end.

(** The records of a store filed under a (url, benchmark context) pair. *)
Definition filed_under (u context : string)
                       (data : list FeedbackProcessor.TrainingRecord)
  : list FeedbackProcessor.TrainingRecord :=
  filter (fun t =>
            url_is u (FeedbackProcessor.url t)
            && String.eqb (FeedbackProcessor.benchmark_context t) context)
         data.

(** A row holds a description and a correction whose trimmed texts
    differ. *)
Definition differs (row : FeedbackProcessor.Row) : bool :=
  match FeedbackProcessor.AI_Description row,
        FeedbackProcessor.Your_Correction row with
  | Some ai_desc, Some human_desc =>
      negb (String.eqb (trim ai_desc) (trim human_desc))
  | _, _ => false
  end.

(** The same, for the url [u]. *)
Definition differing_for (u : string) (row : FeedbackProcessor.Row) : bool :=
  url_is u (FeedbackProcessor.URL row) && differs row.

(** A row of the table that carries a correction: the cell is neither
    empty nor the empty text. *)
Definition is_correction (row : FeedbackProcessor.Row) : bool :=
  match FeedbackProcessor.Your_Correction row with
  | Some "" => false
  | Some _ => true
  | None => false
  end.

(** A row of the table that is a differing correction for [u]. *)
Definition correction_for (u : string) (row : FeedbackProcessor.Row) : bool :=
  is_correction row && differing_for u row.

(** Every correction of the table stands beside a description; on a
    correction without one the run stops with an exception. *)
Definition described (df : list FeedbackProcessor.Row) : bool :=
  forallb (fun row =>
             negb (is_correction row)
             || match FeedbackProcessor.AI_Description row with
                | Some _ => true
                | None => false
                end)
          df.

(** The entries of a feedback log filed under a (url, context) pair. *)
Definition logged_under (u context : string)
                        (log : list FeedbackProcessor.FeedbackRecord)
  : list FeedbackProcessor.FeedbackRecord :=
  filter (fun e =>
            let t := FeedbackProcessor.record_fields e in
            url_is u (FeedbackProcessor.url t)
            && String.eqb (FeedbackProcessor.benchmark_context t) context)
         log.

(** The table of a run replaced by another one. *)
Definition with_table (fs : FeedbackProcessor.Files)
                      (df : list FeedbackProcessor.Row)
  : FeedbackProcessor.Files :=
  {| FeedbackProcessor.output_file := Some df;
     FeedbackProcessor.instructions_file :=
       FeedbackProcessor.instructions_file fs;
     FeedbackProcessor.training_files := FeedbackProcessor.training_files fs;
     FeedbackProcessor.feedback_log_file :=
       FeedbackProcessor.feedback_log_file fs |}.

(** How many records of a store are filed under a pair. *)
Definition count (u context : string)
                 (data : list FeedbackProcessor.TrainingRecord) : nat :=
  List.length (filed_under u context data).

(** Filing a pair that may be filed already: an absent pair gets one
    record, a present one keeps what it has. *)
Definition bump (n : nat) : nat := if n =? 0 then 1 else n.

(** ** The prompt *)

(** A text without a newline. *)
Fixpoint single_line (s : string) : bool :=
  match s with
  | EmptyString => true
  | String c s' => negb (Descriptions.is_newline c) && single_line s'
  end.

(** The two headers of the list-backed sections, as the specification
    names them. *)
Definition section_headers : list string :=
  ["REFERENCE EXAMPLES"; "COMMON MISTAKES"].

(** The navigation line of the signals section for the given links. *)
Definition navigation_line (links : list string) : string :=
  "NAVIGATION LINKS DETECTED: " ^^ Py.join ", " links.

(** The website data with its navigation links taken away. *)
Definition without_links (wd : PromptBuilder.WebsiteData)
  : PromptBuilder.WebsiteData :=
  {| PromptBuilder.text_content := PromptBuilder.text_content wd;
     PromptBuilder.nav_links := [];
     PromptBuilder.meta_description := PromptBuilder.meta_description wd;
     PromptBuilder.error := PromptBuilder.error wd |}.

(** ** The signals *)

(** A detected-element note left by the search for a shopping cart. *)
Definition is_cart_note (note : string) : bool := String.prefix "cart-" note.

(** The first pattern of an ordered list that passes a test: where a
    search that stops at its first match stops. *)
Fixpoint first_match (test : string -> bool) (patterns : list string)
  : option string :=
  match patterns with
  | [] => None
  | p :: rest => if test p then Some p else first_match test rest
  end.

(** The three tests of one turn of the cart loop: some class, some id
    or some icon of the page mentions the pattern. *)
Definition cart_test (soup : SignalExtractor.Soup) (pattern : string) : bool :=
  SignalExtractor.found
    (SignalExtractor.find_all soup
       (SignalExtractor.class_passes (SignalExtractor.mentions pattern)))
  || SignalExtractor.found
       (SignalExtractor.find_all soup
          (SignalExtractor.attr_passes "id" (SignalExtractor.mentions pattern)))
  || SignalExtractor.found
       (SignalExtractor.find_all soup
          (fun n =>
             SignalExtractor.name_in ["i"; "span"; "svg"] n
             && SignalExtractor.class_passes
                  (SignalExtractor.mentions pattern) n)).

End Spec.

(* ===================================================================== *)
(** * Concrete inputs used by the examples *)
(* ===================================================================== *)

Module Inputs.

Definition retail_instructions : string :=
  "We are analyzing retail e-commerce companies for market research".

(** Instructions with accented capitals, a no-break space between two
    words and a word of two letters:
    [U-umlaut]BER Retail[NBSP]Shops [e-acute][e-acute] now. *)
Definition accented_instructions : string :=
  PromptBuilder.bytes
    [220; 66; 69; 82; 32; 82; 101; 116; 97; 105; 108; 160; 83; 104; 111;
     112; 115; 32; 233; 233; 32; 110; 111; 119].

(** Two corrected rows of one company. *)
Definition acme_row_1 : FeedbackProcessor.Row :=
  FeedbackProcessor.mkRow (Some "acme.com") (Some "Acme sells anvils.")
                          (Some "Acme manufactures anvils.")
                          (Some "Anvils since 1920").

Definition acme_row_2 : FeedbackProcessor.Row :=
  FeedbackProcessor.mkRow (Some "acme.com") (Some "Acme sells anvils.")
                          (Some "Acme is an anvil wholesaler.")
                          (Some "Anvils since 1920").

(** A row whose correction repeats the description, up to a blank in
    front of the one and a no-break space behind the other. *)
Definition echo_row : FeedbackProcessor.Row :=
  FeedbackProcessor.mkRow
    (Some "echo.org")
    (Some ("Echo hosts podcasts." ^^ PromptBuilder.bytes [160]))
    (Some " Echo hosts podcasts.") None.

Definition noon : nat -> string := fun _ => "2024-05-01T12:00:00".

Definition fresh_files (instructions : string)
                       (df : list FeedbackProcessor.Row)
  : FeedbackProcessor.Files :=
  {| FeedbackProcessor.output_file := Some df;
     FeedbackProcessor.instructions_file := Some instructions;
     FeedbackProcessor.training_files := fun _ => [];
     FeedbackProcessor.feedback_log_file := [] |}.

(** An instructions file that opens with a visual-check directive. *)
Definition directive_file : string :=
  "VISUAL_CHECK: shopping cart icon" ^^ PromptBuilder.nl
  ^^ "Analyze retail companies".

(** A site with nothing scraped but its navigation links. *)
Definition site_with_links (links : list string) : PromptBuilder.WebsiteData :=
  {| PromptBuilder.text_content := "";
     PromptBuilder.nav_links := links;
     PromptBuilder.meta_description := "";
     PromptBuilder.error := None |}.

(** Forty links; the only three that hold a relevance keyword come
    after the thirtieth. *)
Definition late_links : list string :=
  repeat "Home" 30 ++ ["About us"; "Shop"; "Contact"] ++ repeat "Blog" 7.

(** Forty links; the three that hold a relevance keyword are among the
    first thirty. *)
Definition early_links : list string :=
  ["Home"; "About us"; "Blog"; "Shop"; "Contact"] ++ repeat "Press" 35.

(** A page whose only hint of a shop is the class of a button. *)
Definition button_page : SignalExtractor.Soup :=
  [SignalExtractor.Tag "html" []
     [SignalExtractor.Tag "body" []
        [SignalExtractor.Tag "h1" [] [SignalExtractor.Text "Anvils"];
         SignalExtractor.Tag "button" [("class", "add-to-cart-btn")]
           [SignalExtractor.Text "Buy"]]]].

(** A serializer that prints nothing, for pages without forms. *)
Definition silent : SignalExtractor.Node -> string := fun _ => "".

(** A corrected row whose url cell is empty. *)
Definition nameless_row : FeedbackProcessor.Row :=
  FeedbackProcessor.mkRow None (Some "Sells anvils.")
                          (Some "Manufactures anvils.") None.

(** A correction on a row that holds no description. *)
Definition undescribed_row : FeedbackProcessor.Row :=
  FeedbackProcessor.mkRow (Some "void.io") None
                          (Some "Void sells nothing.") None.

(** A record of the training store for [acme.com], under the context of
    the instructions [Analyze retail companies]. *)
Definition acme_record (human_description : string)
  : FeedbackProcessor.TrainingRecord :=
  {| FeedbackProcessor.benchmark_context := "Analyze retail companies";
     FeedbackProcessor.url := Some "acme.com";
     FeedbackProcessor.html_snippet := Some "Anvils since 1920";
     FeedbackProcessor.ai_description := "Acme sells anvils.";
     FeedbackProcessor.human_description := human_description;
     FeedbackProcessor.timestamp := "2024-04-30T09:00:00" |}.

(** Files whose training store already files [acme.com] twice. *)
Definition twice_filed_files (df : list FeedbackProcessor.Row)
  : FeedbackProcessor.Files :=
  {| FeedbackProcessor.output_file := Some df;
     FeedbackProcessor.instructions_file := Some "Analyze retail companies";
     FeedbackProcessor.training_files :=
       fun path =>
         if String.eqb path "learning/training_analyze_retail_companies.json"
         then [acme_record "Acme forges anvils.";
               acme_record "Acme casts anvils."]
         else [];
     FeedbackProcessor.feedback_log_file := [] |}.

End Inputs.

(* ===================================================================== *)
(** * More string primitives *)
(* ===================================================================== *)

Module PyMore.

(** [s.startswith(p)] *)
Definition startswith (p s : string) : bool := String.prefix p s.

(** [s.replace(old, new)] for a non-empty [old]: every occurrence, from
    the left and without overlap.  [skip] counts the characters of the
    occurrence just replaced that are still to be passed over. *)
Fixpoint replace_from (skip : nat) (old new s : string) : string :=
  match s with
  | EmptyString => EmptyString
  | String c s' =>
      match skip with
      | S k => replace_from k old new s'
      | O =>
          if String.prefix old s
          then new ^^ replace_from (Nat.pred (String.length old)) old new s'
          else String c (replace_from 0 old new s')
      end
  end.

Definition replace (old new s : string) : string := replace_from 0 old new s.

End PyMore.

(* ===================================================================== *)
(** * scrapers/text_scraper.py *)
(* ===================================================================== *)

Module TextScraper.

Import PromptBuilder SignalExtractor.

(** The two texts [scrape_website_text] leaves in [error]; [e] is the
    last exception, printed. *)
Definition no_url_error : string := "No URL provided".

Definition scraping_error (e : string) : string := "Scraping Error: " ^^ e.

(** The result for a url cell that is empty. *)
Definition no_url_result : WebsiteData :=
  {| text_content := ""; nav_links := []; meta_description := "";
     error := Some no_url_error |}.

(** The result when every attempt has raised. *)
Definition failed_result (e : string) : WebsiteData :=
  {| text_content := ""; nav_links := []; meta_description := "";
     error := Some (scraping_error e) |}.

(** [urls_to_try], for a url that is a non-empty text. *)
Definition urls_to_try (original_url : string) : list string :=
  let url :=
    if PyMore.startswith "http://" original_url
       || PyMore.startswith "https://" original_url
    then original_url
    else "https://" ^^ original_url in
  [url]
  ++ (if PyMore.startswith "https://" url
      then [PyMore.replace "https://" "http://" url]
      else [])
  ++ (if negb (Py.contains "www." url)
      then [PyMore.replace "://" "://www." url]
      else []).

(** What lies below a node, the node itself left out: where
    [tag.find_all] searches. *)
Definition below (n : Node) : list Node := tl (descendants_of n).

(** The pieces of [tag.get_text(strip=True)]: the texts below the tag,
    each trimmed, the empty ones dropped. *)
Fixpoint stripped_strings (nodes : list Node) : list string :=
  match nodes with
  | [] => []
  | Text s :: rest =>
      if Py.is_empty (Py.strip s) then stripped_strings rest
      else Py.strip s :: stripped_strings rest
  | Tag _ _ _ :: rest => stripped_strings rest
  end.

(** [tag.get_text(strip=True)] *)
Definition get_text_strip (n : Node) : string :=
  Py.join "" (stripped_strings (below n)).

(** The loop over the links of one navigation element. *)
Fixpoint nav_links_loop (links : list Node) (nav_links : list string)
  : list string :=
  match links with
  | [] => nav_links
  | link :: rest =>
      let link_text := get_text_strip link in
      if Py.truthy link_text && (String.length link_text <? 50)
      then nav_links_loop rest (nav_links ++ [link_text])
      else nav_links_loop rest nav_links
  end.

(** The loop over the links of one menu: a text already collected is
    not collected again. *)
Fixpoint menu_links_loop (links : list Node) (nav_links : list string)
  : list string :=
  match links with
  | [] => nav_links
  | link :: rest =>
      let link_text := get_text_strip link in
      if Py.truthy link_text && (String.length link_text <? 50)
         && negb (Py.mem link_text nav_links)
      then menu_links_loop rest (nav_links ++ [link_text])
      else menu_links_loop rest nav_links
  end.

Definition anchors_below (n : Node) : list Node :=
  filter (name_in ["a"]) (below n).

Fixpoint over_elements (loop : list Node -> list string -> list string)
                       (elements : list Node) (nav_links : list string)
  : list string :=
  match elements with
  | [] => nav_links
  | element :: rest =>
      over_elements loop rest (loop (anchors_below element) nav_links)
  end.

Definition menu_classes : list string := ["menu"; "nav"; "navigation"; "navbar"].

Fixpoint over_menu_classes (soup : Soup) (classes : list string)
                           (nav_links : list string) : list string :=
  match classes with
  | [] => nav_links
  | cls :: rest =>
      let menus := find_all soup (class_passes (mentions cls)) in
      over_menu_classes soup rest
        (over_elements menu_links_loop menus nav_links)
  end.

(** [extract_nav_links(soup)] *)
Definition extract_nav_links (soup : Soup) : list string :=
  let nav_elements := find_all soup (name_in ["nav"; "header"]) in
  let nav_links := over_elements nav_links_loop nav_elements [] in
  over_menu_classes soup menu_classes nav_links.

End TextScraper.

(* ===================================================================== *)
(** * scrapers/text_scraper.py: the text kept for the model *)
(* ===================================================================== *)

Module TextCleaning.

(** [TEXT_LIMIT] of [config.py]. *)
Definition TEXT_LIMIT : nat := 6 * 1000.

(** The characters at which [str.splitlines] cuts: LF, VT, FF, CR, the
    separators FS, GS, RS, and NEL.  CR followed by LF is one cut. *)
Definition is_line_break (c : ascii) : bool :=
  let n := nat_of_ascii c in
  ((10 <=? n) && (n <=? 13)) || ((28 <=? n) && (n <=? 30)) || (n =? 133).

(** [s.splitlines()]; [cur] is the line being read. *)
Fixpoint splitlines_from (cur : string) (s : string) : list string :=
  match s with
  | EmptyString => if Py.is_empty cur then [] else [cur]
  | String c s' =>
      if is_line_break c
      then match s' with
           | EmptyString => [cur]
           | String c' s'' =>
               if Ascii.eqb c "013"%char && Ascii.eqb c' "010"%char
               then cur :: splitlines_from "" s''
               else cur :: splitlines_from "" s'
           end
      else splitlines_from (cur ^^ String c "") s'
  end.

Definition splitlines (s : string) : list string := splitlines_from "" s.

(** [s.split(sep)] for a non-empty [sep]: the pieces between the
    occurrences of [sep], the empty ones included.  [cur] is the piece
    being read, [skip] the characters of the separator still to pass. *)
Fixpoint split_on_from (skip : nat) (sep cur s : string) : list string :=
  match s with
  | EmptyString => [cur]
  | String c s' =>
      match skip with
      | S k => split_on_from k sep cur s'
      | O =>
          if String.prefix sep s
          then cur :: split_on_from (Nat.pred (String.length sep)) sep "" s'
          else split_on_from 0 sep (cur ^^ String c "") s'
      end
  end.

Definition split_on (sep s : string) : list string :=
  split_on_from 0 sep "" s.

(** The cleaning of the text of the page, [text] being what
    [soup.get_text(separator=' ')] answered. *)
Definition clean_text (text : string) : string :=
  let lines := map Py.strip (splitlines text) in
  let chunks :=
    flat_map (fun line => map Py.strip (split_on "  " line)) lines in
  Py.join " " (filter Py.truthy chunks).

(** What is stored in [result["text_content"]]. *)
Definition text_content_of (text : string) : string :=
  Py.slice_to TEXT_LIMIT (clean_text text).

(** ** Vocabulary *)

Definition is_blank (c : ascii) : bool := Ascii.eqb c " "%char.

(** Two blanks in a row somewhere in the text. *)
Fixpoint double_blank (s : string) : bool :=
  match s with
  | String c1 (String c2 _ as s') =>
      (is_blank c1 && is_blank c2) || double_blank s'
  | _ => false
  end.

Definition starts_blank (s : string) : bool :=
  match s with
  | String c _ => is_blank c
  | EmptyString => false
  end.

Fixpoint ends_blank (s : string) : bool :=
  match s with
  | EmptyString => false
  | String c EmptyString => is_blank c
  | String _ s' => ends_blank s'
  end.

(** Every character of the text passes the test. *)
Fixpoint all_chars (p : ascii -> bool) (s : string) : bool :=
  match s with
  | EmptyString => true
  | String c s' => p c && all_chars p s'
  end.

(** A chunk as the cleaning joins them: no two blanks in a row, no
    blank at either end. *)
Definition tidy (s : string) : Prop :=
  double_blank s = false /\ starts_blank s = false /\ ends_blank s = false.

End TextCleaning.

(* ===================================================================== *)
(** * ai/prompt_builder.py: the stores read by a generation run *)
(* ===================================================================== *)

Module TrainingLoader.

Import PromptBuilder.






End TrainingLoader.

(* ===================================================================== *)
(** * descriptions.py: one row of the main loop *)
(* ===================================================================== *)

Module MainLoop.

Import PromptBuilder Descriptions.

(** [{"has_shopping_cart": False, "has_job_board": False}] *)
Definition default_ui_signals : UISignals :=
  {| has_shopping_cart := false; has_job_board := false;
     detected_elements := []; custom_check_result := "" |}.

(** What the loop appends to its four columns for one row. *)
Record RowResult := mkRowResult {
  analysis : string;
  html_snippet_cell : string;
  nav_links_cell : string;
  ui_signals_used : UISignals;
  events : list Event
}.

(** Step 6 of [main] for one row.  [website_data] is what the scraper
    answered for the url; [fetched] is what the second fetch and
    [extract_ui_signals] gave, [None] when that attempt raised.
    [training_examples] are the loaded examples as [build_prompt] goes
    through them, the snippet of each a text
    ([TrainingLoader.readable]). *)
Definition process_company
    (model : option Model) (website_data : WebsiteData)
    (fetched : option UISignals) (instructions visual_check : string)
    (training_examples : list Example)
    (mistake_patterns : list MistakePattern) : RowResult :=
  let ui_signals :=
    if Py.truthy visual_check && negb (has_error website_data)
    then match fetched with
         | Some ui => ui
         | None => default_ui_signals
         end
    else default_ui_signals in
  let answer :=
    if negb (has_error website_data)
    then generate_ai_description model website_data (Some ui_signals)
           instructions visual_check training_examples mistake_patterns
    else (match error website_data with Some e => e | None => "" end, []) in
  {| analysis := fst answer;
     html_snippet_cell := Py.slice_to 500 (text_content website_data);
     nav_links_cell := Py.join ", " (firstn 10 (nav_links website_data));
     ui_signals_used := ui_signals;
     events := snd answer |}.

End MainLoop.

(* ===================================================================== *)
(** * fix_errors.py *)
(* ===================================================================== *)

Module FixErrors.

(** [df['AI_Description'].str.contains('Error', na=False)], for one
    cell. *)
Definition mask (cell : option string) : bool :=
  match cell with
  | Some s => Py.contains "Error" s
  | None => false
  end.

(** The column after [df.loc[mask, 'AI_Description'] = ...]. *)
Definition fix_errors (column : list (option string)) : list (option string) :=
  map (fun cell =>
         if mask cell then Some "The Company's website does not work"
         else cell)
      column.

(** The count the script prints. *)
Definition fixed_count (column : list (option string)) : nat :=
  List.length (filter mask column).

End FixErrors.

(* ===================================================================== *)
(** * retry_failed.py: the retry loop *)
(* ===================================================================== *)

Module RetryLoop.

Import PromptBuilder Descriptions.

(** One row of the analysis table, with the columns the retry reads and
    writes. *)
Record OutRow := mkOutRow {
  out_URL : option string;
  out_AI_Description : option string;
  out_Html_Snippet : option string;
  out_Nav_Links : option string
}.

(** [df.loc[idx, ...] = ...]: the row at [idx] replaced. *)
Fixpoint set_row (idx : nat) (row : OutRow) (df : list OutRow) : list OutRow :=
  match df, idx with
  | [], _ => []
  | _ :: rest, O => row :: rest
  | r :: rest, S k => r :: set_row k row rest
  end.

Section WithServices.

(** The scraper and the model, as they answer at the [i]-th turn of the
    loop. *)
Variable scrape : nat -> option string -> WebsiteData.
Variable model : nat -> Model.

Variables instructions visual_check : string.
Variable training_examples : list Example.
Variable mistake_patterns : list MistakePattern.

(** The loop over [failed_indices]; [i] numbers the turns and [fixed]
    counts the rows rewritten.  [training_examples] are the loaded
    examples as [build_prompt] goes through them
    ([TrainingLoader.readable]). *)
Fixpoint retry_loop (i : nat) (failed_indices : list nat)
                    (df : list OutRow) (fixed : nat) : list OutRow * nat :=
  match failed_indices with
  | [] => (df, fixed)
  | idx :: rest =>
      match nth_error df idx with
      | None => retry_loop (S i) rest df fixed
      | Some row =>
          let website_data := scrape i (out_URL row) in
          if has_error website_data
          then retry_loop (S i) rest df fixed
          else
            let prompt :=
              build_prompt website_data instructions visual_check
                training_examples mistake_patterns
                (Some MainLoop.default_ui_signals) in
            match model i prompt with
            | Generated text =>
                let row' :=
                  {| out_URL := out_URL row;
                     out_AI_Description := Some (Py.strip text);
                     out_Html_Snippet :=
                       Some (Py.slice_to 500 (text_content website_data));
                     out_Nav_Links :=
                       Some (Py.join ", "
                               (firstn 10 (nav_links website_data))) |} in
                retry_loop (S i) rest (set_row idx row' df) (S fixed)
            | Failure _ => retry_loop (S i) rest df fixed
            end
      end
  end.

(** [retry_failed(input_file)]: the table written back and the count of
    fixed rows; [None] when no row had failed and nothing is written. *)
Definition retry_failed (df : list OutRow) : list OutRow * option nat :=
  let failed_indices :=
    RetryFailed.failed_indices (map out_AI_Description df) in
  match failed_indices with
  | [] => (df, None)
  | _ =>
      let (df', fixed) := retry_loop 0 failed_indices df 0 in
      (df', Some fixed)
  end.

End WithServices.

End RetryLoop.

(* ===================================================================== *)
(** * Vocabulary for the behaviour of the runs *)
(* ===================================================================== *)

Module Behaviour.

Import FeedbackProcessor.

(** A row the loop of the feedback processor acts upon: a description
    and a correction whose trimmed texts differ. *)
Definition differs (row : Row) : bool :=
  match AI_Description row, Your_Correction row with
  | Some ai_desc, Some human_desc =>
      negb (String.eqb (Py.strip ai_desc) (Py.strip human_desc))
  | _, _ => false
  end.

(** A row that makes the loop raise: a cell without text. *)
Definition raises (row : Row) : bool :=
  match AI_Description row, Your_Correction row with
  | Some _, Some _ => false
  | _, _ => true
  end.

Definition has_url (row : Row) : bool :=
  match URL row with Some _ => true | None => false end.

(** What a log entry or a record says of the row it came from. *)
Definition told (t : TrainingRecord)
  : option string * option string * string * string :=
  (url t, html_snippet t, ai_description t, human_description t).

Definition told_by_row (row : Row)
  : option string * option string * string * string :=
  (URL row, Html_Snippet row,
   match AI_Description row with Some s => s | None => "" end,
   match Your_Correction row with Some s => s | None => "" end).

(** A text that neither starts nor ends with whitespace. *)
Definition trimmed (s : string) : Prop := Py.strip s = s.

(** No whitespace anywhere in the text. *)
Fixpoint no_space (s : string) : bool :=
  match s with
  | EmptyString => true
  | String c s' => negb (Py.isspace c) && no_space s'
  end.

(** A candidate url carries a scheme. *)
Definition has_scheme (url : string) : bool :=
  PyMore.startswith "http://" url || PyMore.startswith "https://" url.

(** A note left by the search for a job board. *)
Definition is_job_note (note : string) : bool := String.prefix "job-" note.

(** The two tests of one turn of the job loop. *)
Definition job_test (soup : SignalExtractor.Soup) (pattern : string) : bool :=
  SignalExtractor.found
    (SignalExtractor.find_all soup
       (fun n =>
          SignalExtractor.name_in ["a"] n
          && SignalExtractor.attr_passes "href"
               (SignalExtractor.mentions pattern) n))
  || SignalExtractor.found
       (SignalExtractor.find_all soup
          (SignalExtractor.string_passes
             (SignalExtractor.mentions
                (SignalExtractor.replace_hyphen pattern)))).

(** A table of the retry made of description cells only. *)
Definition descriptions_of (df : list RetryLoop.OutRow)
  : list (option string) :=
  map RetryLoop.out_AI_Description df.

(** A text that lowercasing and the replacement of blanks leave alone. *)
Definition plain (s : string) : Prop :=
  Py.lower s = s /\ PromptBuilder.replace_blank s = s.

(** The entries of the examples, numbered from [i], one after the
    other. *)
Fixpoint example_entries (i : nat) (examples : list PromptBuilder.Example)
  : string :=
  match examples with
  | [] => ""
  | ex :: rest =>
      PromptBuilder.example_entry i ex ^^ example_entries (S i) rest
  end.

Fixpoint mistake_entries (patterns : list PromptBuilder.MistakePattern)
  : string :=
  match patterns with
  | [] => ""
  | p :: rest => PromptBuilder.mistake_entry p ^^ mistake_entries rest
  end.

(** What a collected link text satisfies. *)
Definition kept (t : string) : Prop := t <> "" /\ String.length t < 50.

(** The texts of the links below the given elements that a collecting
    loop accepts for their length, in the order of the page. *)
Definition link_texts (elements : list SignalExtractor.Node) : list string :=
  filter (fun t => Py.truthy t && (String.length t <? 50))
         (map TextScraper.get_text_strip
              (flat_map TextScraper.anchors_below elements)).

(** The link texts of the [nav] and [header] elements of a page. *)
Definition nav_texts (soup : SignalExtractor.Soup) : list string :=
  link_texts
    (SignalExtractor.find_all soup (SignalExtractor.name_in ["nav"; "header"])).

(** The link texts of the elements found through the menu classes, class
    after class. *)
Definition menu_texts (soup : SignalExtractor.Soup) : list string :=
  link_texts
    (flat_map
       (fun cls =>
          SignalExtractor.find_all soup
            (SignalExtractor.class_passes (SignalExtractor.mentions cls)))
       TextScraper.menu_classes).

(** The texts of [found] that are not in [seen], each at its first
    occurrence only. *)
Fixpoint first_occurrences (seen found : list string) : list string :=
  match found with
  | [] => []
  | t :: rest =>
      if Py.mem t seen then first_occurrences seen rest
      else t :: first_occurrences (seen ++ [t]) rest
  end.



End Behaviour.

(* ===================================================================== *)
(** * Facts about the string primitives *)
(* ===================================================================== *)

Module PyFacts.

Import Py.

Lemma append_nil_r (s : string) : s ^^ "" = s.
Proof. induction s as [|c s IH]; simpl; [reflexivity | now rewrite IH]. Qed.

Lemma append_assoc (a b c : string) : (a ^^ b) ^^ c = a ^^ b ^^ c.
Proof. induction a as [|x a IH]; simpl; [reflexivity | now rewrite IH]. Qed.

Lemma append_snoc_not_empty (s : string) (c : ascii) :
  is_empty (s ^^ String c "") = false.
Proof. destruct s; reflexivity. Qed.

Lemma length_append (a b : string) :
  String.length (a ^^ b) = String.length a + String.length b.
Proof. induction a as [|x a IH]; simpl; [reflexivity | now rewrite IH]. Qed.

(** ** The primitives and the words of the specification *)

(** [str.isspace] holds of the whitespace of the specification. *)
Lemma isspace_spec (c : ascii) : isspace c = Spec.is_whitespace c.
Proof. destruct c as [[] [] [] [] [] [] [] []]; reflexivity. Qed.

(** [str.lower] gives each capital letter its small letter. *)
Lemma lower_char_spec (c : ascii) : lower_char c = Spec.lowercase_char c.
Proof. destruct c as [[] [] [] [] [] [] [] []]; reflexivity. Qed.

Lemma lower_spec (s : string) : lower s = Spec.lowercase s.
Proof.
  induction s as [|c s IH]; [reflexivity|].
  cbn [lower Spec.lowercase]. now rewrite lower_char_spec, IH.
Qed.

Lemma mem_in_dec (w : string) (l : list string) :
  mem w l = if in_dec string_dec w l then true else false.
Proof.
  unfold mem. destruct (in_dec string_dec w l) as [Hin | Hout].
  - apply existsb_exists. exists w. split; [exact Hin|].
    apply String.eqb_refl.
  - destruct (existsb (String.eqb w) l) eqn:H; [|reflexivity].
    apply existsb_exists in H. destruct H as (x & Hin & Hx).
    apply String.eqb_eq in Hx. subst x. now elim Hout.
Qed.

Lemma list_of_lstrip (s : string) :
  list_ascii_of_string (lstrip s)
  = Spec.drop_whitespace (list_ascii_of_string s).
Proof.
  induction s as [|c s IH]; [reflexivity|].
  cbn [lstrip list_ascii_of_string Spec.drop_whitespace].
  rewrite <- isspace_spec. destruct (isspace c); [exact IH | reflexivity].
Qed.

Lemma drop_whitespace_app (a b : list ascii) :
  Spec.drop_whitespace (a ++ b)
  = match Spec.drop_whitespace a with
    | [] => Spec.drop_whitespace b
    | r => r ++ b
    end.
Proof.
  induction a as [|c a IH]; [reflexivity|].
  cbn [app Spec.drop_whitespace].
  destruct (Spec.is_whitespace c); [exact IH | reflexivity].
Qed.

Lemma list_of_rstrip (s : string) :
  list_ascii_of_string (rstrip s)
  = rev (Spec.drop_whitespace (rev (list_ascii_of_string s))).
Proof.
  induction s as [|c s IH]; [reflexivity|].
  cbn [rstrip list_ascii_of_string rev]. rewrite drop_whitespace_app.
  destruct (rstrip s) as [|c2 r2].
  - cbn [list_ascii_of_string] in IH.
    destruct (Spec.drop_whitespace (rev (list_ascii_of_string s)))
      as [|x l].
    + cbn [Spec.drop_whitespace]. rewrite <- isspace_spec.
      destruct (isspace c); reflexivity.
    + cbn [rev] in IH. destruct (rev l); discriminate.
  - destruct (Spec.drop_whitespace (rev (list_ascii_of_string s)))
      as [|x l].
    + discriminate.
    + rewrite rev_app_distr. cbn [rev app list_ascii_of_string].
      cbn [rev] in IH. now rewrite <- IH.
Qed.

(** [s.strip()] is the trimmed text. *)
Lemma strip_trim (s : string) : strip s = Spec.trim s.
Proof.
  unfold strip, Spec.trim.
  rewrite <- list_of_lstrip, <- list_of_rstrip.
  now rewrite string_of_list_ascii_of_string.
Qed.

(** [s[:n]] is the first [n] characters of the text. *)
Lemma slice_to_first_chars (n : nat) (s : string) :
  slice_to n s = Spec.first_chars n s.
Proof.
  unfold Spec.first_chars. revert s.
  induction n as [|n IH]; intros [|c s]; try reflexivity.
  cbn [slice_to list_ascii_of_string firstn string_of_list_ascii].
  now rewrite IH.
Qed.

(** One step of the tokens of a text. *)
Lemma tokens_unfold (c : ascii) (s : string) :
  Spec.tokens (String c s)
  = if isspace c then Spec.tokens s
    else match s with
         | EmptyString => [String c ""]
         | String c' _ =>
             if isspace c' then String c "" :: Spec.tokens s
             else match Spec.tokens s with
                  | w :: ws => String c w :: ws
                  | [] => [String c ""]
                  end
         end.
Proof.
  rewrite !isspace_spec.
  destruct s as [|c' s']; [reflexivity|].
  rewrite isspace_spec. reflexivity.
Qed.

(** The tokens of a text that starts with a character of a token. *)
Lemma tokens_head (c : ascii) (s : string) :
  isspace c = false ->
  exists w ws, Spec.tokens (String c s) = String c w :: ws.
Proof.
  intros Hc. rewrite tokens_unfold, Hc.
  destruct s as [|c' s'].
  - now exists "", [].
  - destruct (isspace c').
    + now exists "", (Spec.tokens (String c' s')).
    + destruct (Spec.tokens (String c' s')) as [|w ws].
      * now exists "", [].
      * now exists w, ws.
Qed.

(** The scan of [split], resumed with a token [cur] under way, against
    the tokens of the rest of the text. *)
Lemma split_from_tokens (s cur : string) :
  split_from cur s =
  match s with
  | EmptyString => if is_empty cur then [] else [cur]
  | String c _ =>
      if isspace c
      then (if is_empty cur then [] else [cur]) ++ Spec.tokens s
      else match Spec.tokens s with
           | w :: ws => (cur ^^ w) :: ws
           | [] => []
           end
  end.
Proof.
  revert cur. induction s as [|c s IH]; intros cur; [reflexivity|].
  cbn [split_from]. destruct (isspace c) eqn:Hc.
  - assert (Hs : split_from "" s = Spec.tokens s).
    { rewrite IH. destruct s as [|c' s']; [reflexivity|].
      destruct (isspace c'); [reflexivity|].
      destruct (Spec.tokens (String c' s')); reflexivity. }
    rewrite Hs, tokens_unfold, Hc.
    destruct (is_empty cur); reflexivity.
  - rewrite IH, tokens_unfold, Hc.
    destruct s as [|c' s'].
    + rewrite append_snoc_not_empty. reflexivity.
    + destruct (isspace c') eqn:Hc'.
      * rewrite append_snoc_not_empty. reflexivity.
      * destruct (tokens_head c' s' Hc') as (w & ws & Hw).
        rewrite Hw. rewrite append_assoc. reflexivity.
Qed.

(** [s.split()] answers the whitespace-separated tokens of [s]. *)
Lemma split_tokens (s : string) : split s = Spec.tokens s.
Proof.
  unfold split. rewrite split_from_tokens.
  destruct s as [|c s']; [reflexivity|].
  destruct (isspace c); [reflexivity|].
  destruct (Spec.tokens (String c s')); reflexivity.
Qed.

Lemma comprehension_filter (cond : string -> bool) (l : list string) :
  Descriptions.comprehension cond l = filter cond l.
Proof.
  induction l as [|w l IH]; simpl; [reflexivity|].
  now rewrite IH.
Qed.

End PyFacts.

(* ===================================================================== *)
(** * The benchmark identity *)
(* ===================================================================== *)

Module IdentityProofs.

Import Py PyFacts.

Section DrawnFrom.

Context {A : Type}.

Lemma drawn_from_refl (l : list A) : Spec.drawn_from l l.
Proof. induction l; constructor; assumption. Qed.

Lemma drawn_from_trans (l1 l2 l3 : list A) :
  Spec.drawn_from l1 l2 -> Spec.drawn_from l2 l3 -> Spec.drawn_from l1 l3.
Proof.
  intros H12 H23. revert l1 H12.
  induction H23 as [l | x l2 l3 _ IH | x l2 l3 _ IH]; intros l1 H12.
  - inversion H12; subst. constructor.
  - inversion H12; subst.
    + constructor.
    + apply Spec.drawn_keep. now apply IH.
    + apply Spec.drawn_skip. now apply IH.
  - apply Spec.drawn_skip. now apply IH.
Qed.

Lemma drawn_from_firstn (n : nat) (l : list A) :
  Spec.drawn_from (firstn n l) l.
Proof.
  revert n. induction l as [|x l IH]; intros [|n]; simpl; try constructor.
  apply IH.
Qed.

Lemma drawn_from_filter (f : A -> bool) (l : list A) :
  Spec.drawn_from (filter f l) l.
Proof.
  induction l as [|x l IH]; simpl; [constructor|].
  destruct (f x); constructor; assumption.
Qed.

End DrawnFrom.

(** The stop words of the two sources and of the specification are the
    same set. *)
Lemma stop_words_same (w : string) :
  mem w Descriptions.stop_words = mem w Spec.stop_word_set.
Proof.
  unfold mem. apply eq_true_iff_eq. rewrite !existsb_exists.
  split; intros (x & Hin & Hx); exists x; (split; [|exact Hx]);
    simpl in Hin |- *; intuition.
Qed.

Lemma is_key_word_spec (w : string) :
  Descriptions.is_key_word w = negb (Spec.dropped w).
Proof.
  unfold Descriptions.is_key_word, Spec.dropped.
  rewrite <- mem_in_dec, stop_words_same, negb_orb, Nat.ltb_antisym.
  reflexivity.
Qed.

Lemma key_words_survivors (text : string) :
  Descriptions.key_words_of text = Spec.survivors text.
Proof.
  unfold Descriptions.key_words_of, Spec.survivors.
  rewrite comprehension_filter, split_tokens, lower_spec.
  apply filter_ext. intros w. apply is_key_word_spec.
Qed.

Lemma survivor_long (text w : string) :
  In w (Spec.survivors text) -> 2 < String.length w.
Proof.
  unfold Spec.survivors. rewrite filter_In. intros [_ H].
  unfold Spec.dropped in H. rewrite negb_orb in H.
  apply andb_true_iff in H. destruct H as [_ H].
  rewrite negb_true_iff in H. apply Nat.leb_gt in H. exact H.
Qed.

Lemma extract_benchmark_name_identity (text : string) :
  Descriptions.extract_benchmark_name text = Spec.identity text.
Proof.
  unfold Descriptions.extract_benchmark_name, Spec.identity.
  rewrite key_words_survivors.
  destruct (Spec.survivors text) as [|t1 [|t2 [|t3 rest]]]; reflexivity.
Qed.

Lemma identity_not_empty (text : string) : Spec.identity text <> "".
Proof.
  unfold Spec.identity.
  pose proof (survivor_long text) as Hlong.
  destruct (Spec.survivors text) as [|t1 rest]; [discriminate|].
  specialize (Hlong t1 (or_introl eq_refl)).
  destruct t1 as [|c t1]; [simpl in Hlong; lia|].
  destruct rest as [|t2 [|t3 rest]]; discriminate.
Qed.

(** C5.  [extract_benchmark_name] computes the identity of the
    specification: lowercase, split on whitespace, first twenty tokens,
    stop words and tokens of at most two characters dropped, first three
    survivors joined by [_].  With at least three survivors the result is
    three tokens of the lowercased input, in their original order, joined
    by [_]; with none it is the sentinel [general]; it is never empty,
    and it depends on the text only through its first twenty lowercased
    tokens. *)
Theorem C5_benchmark_identity (text : string) :
  Descriptions.extract_benchmark_name text = Spec.identity text
  /\ (3 <= List.length (Spec.survivors text) ->
      exists t1 t2 t3,
        firstn 3 (Spec.survivors text) = [t1; t2; t3]
        /\ Descriptions.extract_benchmark_name text = t1 ^^ "_" ^^ t2 ^^ "_" ^^ t3
        /\ Spec.drawn_from [t1; t2; t3] (Spec.tokens (Spec.lowercase text)))
  /\ (Spec.survivors text = [] ->
      Descriptions.extract_benchmark_name text = Spec.sentinel)
  /\ Descriptions.extract_benchmark_name text <> ""
  /\ (forall text',
        firstn 20 (Spec.tokens (Spec.lowercase text'))
        = firstn 20 (Spec.tokens (Spec.lowercase text)) ->
        Descriptions.extract_benchmark_name text'
        = Descriptions.extract_benchmark_name text).
Proof.
  rewrite extract_benchmark_name_identity.
  split; [reflexivity|]. split; [|split; [|split]].
  - intros Hlen.
    assert (Hdrawn : Spec.drawn_from (firstn 3 (Spec.survivors text))
                                     (Spec.tokens (Spec.lowercase text))).
    { eapply drawn_from_trans; [apply drawn_from_firstn|].
      unfold Spec.survivors.
      eapply drawn_from_trans; [apply drawn_from_filter|].
      apply drawn_from_firstn. }
    unfold Spec.identity.
    destruct (Spec.survivors text) as [|t1 [|t2 [|t3 rest]]];
      simpl in Hlen; try lia.
    exists t1, t2, t3. simpl in Hdrawn |- *. auto.
  - intros Hnone. unfold Spec.identity. rewrite Hnone. reflexivity.
  - apply identity_not_empty.
  - intros text' Hsame. rewrite extract_benchmark_name_identity.
    unfold Spec.identity, Spec.survivors. rewrite Hsame. reflexivity.
Qed.

(** The identity of instructions with accented capitals and a no-break
    space: [u-umlaut]ber_retail_shops, three tokens of the lowercased
    text. *)
Lemma C5_benchmark_identity_witness :
  Descriptions.extract_benchmark_name Inputs.accented_instructions
  = PromptBuilder.bytes
      [252; 98; 101; 114; 95; 114; 101; 116; 97; 105; 108; 95; 115; 104;
       111; 112; 115]
  /\ exists t1 t2 t3,
       firstn 3 (Spec.survivors Inputs.accented_instructions) = [t1; t2; t3]
       /\ Descriptions.extract_benchmark_name Inputs.accented_instructions
          = t1 ^^ "_" ^^ t2 ^^ "_" ^^ t3
       /\ Spec.drawn_from [t1; t2; t3]
            (Spec.tokens (Spec.lowercase Inputs.accented_instructions)).
Proof.
  destruct (C5_benchmark_identity Inputs.accented_instructions)
    as (Hidentity & Hthree & _).
  split.
  - rewrite Hidentity. vm_compute. reflexivity.
  - apply Hthree. vm_compute. lia.
Defined.

(** C6, as the specification words it, fails: the identity of the retail
    instructions is not [analyzing_retail_e]. *)
Lemma C6_retail_identity_counterexample :
  Descriptions.extract_benchmark_name Inputs.retail_instructions
  <> "analyzing_retail_e".
Proof. vm_compute. discriminate. Qed.

(** C6, amended.  [analyzing] is a stop word and tokens are kept whole:
    the identity of the retail instructions is
    [retail_e-commerce_companies]. *)
Theorem C6_retail_identity :
  Descriptions.extract_benchmark_name Inputs.retail_instructions
  = "retail_e-commerce_companies".
Proof. vm_compute. reflexivity. Qed.

(** ** The identity across the two kinds of run *)

Lemma isspace_lower_char (c : ascii) : isspace (lower_char c) = isspace c.
Proof. destruct c as [[] [] [] [] [] [] [] []]; reflexivity. Qed.

Lemma lower_lstrip (s : string) : lower (lstrip s) = lstrip (lower s).
Proof.
  induction s as [|c s IH]; [reflexivity|].
  cbn [lstrip lower]. rewrite isspace_lower_char.
  destruct (isspace c); [exact IH | reflexivity].
Qed.

Lemma lower_rstrip (s : string) : lower (rstrip s) = rstrip (lower s).
Proof.
  induction s as [|c s IH]; [reflexivity|].
  cbn [rstrip lower]. rewrite <- IH, isspace_lower_char.
  destruct (rstrip s); [destruct (isspace c)|]; reflexivity.
Qed.

Lemma tokens_lstrip (s : string) : Spec.tokens (lstrip s) = Spec.tokens s.
Proof.
  induction s as [|c s IH]; [reflexivity|].
  cbn [lstrip]. destruct (isspace c) eqn:Hc; [|reflexivity].
  rewrite IH, tokens_unfold. now rewrite Hc.
Qed.

Lemma tokens_step (c c' : ascii) (s : string) :
  Spec.tokens (String c (String c' s))
  = if isspace c then Spec.tokens (String c' s)
    else if isspace c' then String c "" :: Spec.tokens (String c' s)
         else match Spec.tokens (String c' s) with
              | w :: ws => String c w :: ws
              | [] => [String c ""]
              end.
Proof. rewrite tokens_unfold. reflexivity. Qed.

Lemma rstrip_head (s r : string) (c : ascii) :
  rstrip s = String c r -> exists s', s = String c s'.
Proof.
  destruct s as [|c0 s0]; [discriminate|]. cbn [rstrip].
  destruct (rstrip s0); [destruct (isspace c0)|];
    intros [= <- _]; now exists s0.
Qed.

Lemma tokens_rstrip (s : string) : Spec.tokens (rstrip s) = Spec.tokens s.
Proof.
  induction s as [|c s IH]; [reflexivity|].
  cbn [rstrip]. destruct (rstrip s) as [|c2 r2] eqn:Hr.
  - change (Spec.tokens "") with (@nil string) in IH.
    destruct s as [|c' s'].
    + destruct (isspace c) eqn:Hc; rewrite ?tokens_unfold, ?Hc;
        reflexivity.
    + rewrite tokens_step, <- IH.
      destruct (isspace c) eqn:Hc; [reflexivity|].
      rewrite tokens_unfold, Hc.
      destruct (isspace c'); reflexivity.
  - destruct (rstrip_head _ _ _ Hr) as (s' & ->).
    now rewrite !tokens_step, IH.
Qed.

Lemma tokens_lower_strip (s : string) :
  Spec.tokens (lower (strip s)) = Spec.tokens (lower s).
Proof.
  unfold strip.
  now rewrite lower_rstrip, lower_lstrip, tokens_rstrip, tokens_lstrip.
Qed.

(** The feedback run reads the identity off the file as it is. *)
Lemma extract_benchmark_name_from_file_raw (content : string) :
  FeedbackProcessor.extract_benchmark_name_from_file (Some content)
  = Descriptions.extract_benchmark_name content.
Proof. reflexivity. Qed.


(** C2 fails on an instructions file that opens with a visual-check
    directive: the generation run drops the directive before deriving
    the identity, the feedback run does not.  The record that the
    feedback run saves is then out of reach of the generation run. *)
Theorem C2_identity_diverges :
  let file := Some Inputs.directive_file in
  let generation :=
    Descriptions.extract_benchmark_name
      (fst (Descriptions.load_instructions file)) in
  let feedback := FeedbackProcessor.extract_benchmark_name_from_file file in
  let fs := Inputs.fresh_files Inputs.directive_file [Inputs.acme_row_1] in
  let fs' := fst (FeedbackProcessor.process_feedback Inputs.noon fs) in
  generation = "analyze_retail_companies"
  /\ feedback = "visual_check:_shopping_cart"
  /\ List.length
       (FeedbackProcessor.training_files fs'
          (FeedbackProcessor.training_file_of feedback)) = 1
  /\ FeedbackProcessor.training_files fs'
       (PromptBuilder.specific_file generation) = [].
Proof. vm_compute. repeat split. Qed.

End IdentityProofs.

(* ===================================================================== *)
(** * The feedback loop *)
(* ===================================================================== *)

Module FeedbackProofs.

Import Py FeedbackProcessor.

Lemma cell_eqb_some (c : option string) (u : string) :
  cell_eqb c (Some u) = true -> c = Some u.
Proof.
  destruct c as [x|]; simpl; [|discriminate].
  intros H. apply String.eqb_eq in H. now subst.
Qed.

Lemma cell_eqb_refl (u : string) : cell_eqb (Some u) (Some u) = true.
Proof. simpl. apply String.eqb_refl. Qed.

Lemma url_is_cell (u : string) (c : option string) :
  Spec.url_is u c = cell_eqb c (Some u).
Proof. destruct c; reflexivity. Qed.


Lemma url_is_refl (u : string) : Spec.url_is u (Some u) = true.
Proof. apply String.eqb_refl. Qed.

(** The corrections of the table are the rows the processor keeps. *)
Lemma is_correction_has (row : Row) :
  Spec.is_correction row = has_correction row.
Proof.
  unfold Spec.is_correction, has_correction.
  destruct (Your_Correction row) as [[|c s]|]; reflexivity.
Qed.

(** The context the processor stamps is the context of the
    specification. *)
Lemma context_of_slice (instructions : string) :
  slice_to 200 instructions = Spec.context_of instructions.
Proof. apply PyFacts.slice_to_first_chars. Qed.

Lemma context_of_file_read (file : option string) :
  Spec.context_of (read_instructions file) = Spec.context_of_file file.
Proof.
  destruct file as [content|]; [|reflexivity].
  cbn [read_instructions Spec.context_of_file].
  now rewrite PyFacts.strip_trim.
Qed.

(** The store the processor loads and saves is the store of the
    benchmark the instructions file names. *)
Lemma store_path_training_file (file : option string) :
  training_file_of (extract_benchmark_name_from_file file)
  = Spec.store_path file.
Proof.
  unfold Spec.store_path, training_file_of.
  destruct file as [content|]; [|reflexivity].
  rewrite IdentityProofs.extract_benchmark_name_from_file_raw.
  now rewrite IdentityProofs.extract_benchmark_name_identity.
Qed.

Lemma training_store_store_of (fs : Files) :
  training_store fs = Spec.store_of fs.
Proof.
  unfold training_store, Spec.store_of.
  now rewrite store_path_training_file.
Qed.

Lemma count_app (u context : string) (a b : list TrainingRecord) :
  Spec.count u context (a ++ b) = Spec.count u context a + Spec.count u context b.
Proof.
  unfold Spec.count, Spec.filed_under. now rewrite filter_app, length_app.
Qed.

Section Loop.

Variable clock : nat -> string.
Variable instructions : string.
Variable u : string.


Lemma is_duplicate_count (data : list TrainingRecord) :
  is_duplicate (Some u) (Spec.context_of instructions) data
  = negb (Spec.count u (Spec.context_of instructions) data =? 0).
Proof.
  unfold is_duplicate, Spec.count, Spec.filed_under.
  induction data as [|t data IH]; cbn [existsb filter]; [reflexivity|].
  rewrite url_is_cell.
  destruct (cell_eqb (url t) (Some u)
            && String.eqb (benchmark_context t) (Spec.context_of instructions));
    cbn [orb List.length Nat.eqb negb]; [reflexivity | exact IH].
Qed.

(** What one iteration does to the store and to the log. *)
Lemma process_row_effect (st st' : LoopState) (row : Row) :
  process_row clock instructions st row = Some st' ->
  Spec.count u (Spec.context_of instructions) (training_data st')
  = (if Spec.differing_for u row
     then Spec.bump (Spec.count u (Spec.context_of instructions) (training_data st))
     else Spec.count u (Spec.context_of instructions) (training_data st))
  /\ (exists added, training_data st' = training_data st ++ added)
  /\ (exists logged,
        feedback_log st' = feedback_log st ++ logged
        /\ List.length (Spec.logged_under u (Spec.context_of instructions) logged)
           = (if Spec.differing_for u row then 1 else 0)).
Proof.
  unfold process_row, Spec.differing_for, Spec.differs.
  rewrite context_of_slice, url_is_cell.
  destruct (AI_Description row) as [ai_desc|]; [|discriminate].
  destruct (Your_Correction row) as [human_desc|]; [|discriminate].
  rewrite <- !PyFacts.strip_trim.
  destruct (String.eqb (strip ai_desc) (strip human_desc)).
  - intros [= <-]. rewrite andb_false_r.
    split; [reflexivity|]. split.
    + exists []. now rewrite app_nil_r.
    + exists []. now rewrite app_nil_r.
  - intros [= <-]. cbn [training_data feedback_log benchmark_context negb].
    rewrite andb_true_r.
    destruct (cell_eqb (URL row) (Some u)) eqn:Hu.
    + apply cell_eqb_some in Hu. rewrite Hu.
      rewrite is_duplicate_count, negb_involutive. unfold Spec.bump.
      split; [|split].
      * destruct (Spec.count u (Spec.context_of instructions) (training_data st) =? 0)
          eqn:Hz; [|reflexivity].
        apply Nat.eqb_eq in Hz. rewrite count_app, Hz.
        unfold Spec.count, Spec.filed_under. cbn [filter url benchmark_context].
        rewrite url_is_refl, String.eqb_refl. reflexivity.
      * destruct (Spec.count u (Spec.context_of instructions) (training_data st) =? 0);
          [eexists; reflexivity | exists []; now rewrite app_nil_r].
      * eexists. split; [reflexivity|].
        unfold Spec.logged_under.
        cbn [filter record_fields url benchmark_context].
        rewrite url_is_refl, String.eqb_refl. reflexivity.
    + split; [|split].
      * destruct (negb (is_duplicate (URL row) (Spec.context_of instructions)
                                     (training_data st)));
          [|reflexivity].
        rewrite count_app. unfold Spec.count at 2, Spec.filed_under.
        cbn [filter url benchmark_context]. rewrite url_is_cell, Hu.
        simpl. lia.
      * destruct (negb (is_duplicate (URL row) (Spec.context_of instructions)
                                     (training_data st)));
          [eexists; reflexivity | exists []; now rewrite app_nil_r].
      * eexists. split; [reflexivity|].
        unfold Spec.logged_under.
        cbn [filter record_fields url benchmark_context].
        rewrite url_is_cell, Hu. reflexivity.
Qed.

Lemma bump_bump (n : nat) : Spec.bump (Spec.bump n) = Spec.bump n.
Proof. unfold Spec.bump. destruct n; reflexivity. Qed.

(** The loop: the pair is filed once as soon as one row differs for it,
    the store only grows, and the log receives one entry for each row
    that differs. *)
Lemma process_rows_effect (rows : list Row) (st st' : LoopState) :
  process_rows clock instructions st rows = Some st' ->
  Spec.count u (Spec.context_of instructions) (training_data st')
  = (match filter (Spec.differing_for u) rows with
     | [] => Spec.count u (Spec.context_of instructions) (training_data st)
     | _ => Spec.bump (Spec.count u (Spec.context_of instructions) (training_data st))
     end)
  /\ (exists added, training_data st' = training_data st ++ added)
  /\ (exists logged,
        feedback_log st' = feedback_log st ++ logged
        /\ List.length (Spec.logged_under u (Spec.context_of instructions) logged)
           = List.length (filter (Spec.differing_for u) rows)).
Proof.
  revert st. induction rows as [|row rows IH]; intros st; cbn [process_rows].
  - intros [= <-]. split; [reflexivity|]. split.
    + exists []. now rewrite app_nil_r.
    + exists []. now rewrite app_nil_r.
  - destruct (process_row clock instructions st row) as [st1|] eqn:Hrow;
      [|discriminate].
    intros Hrest.
    destruct (process_row_effect _ _ _ Hrow)
      as (Hc1 & (added1 & Ha1) & (logged1 & Hl1 & Hn1)).
    destruct (IH _ Hrest) as (Hc2 & (added2 & Ha2) & (logged2 & Hl2 & Hn2)).
    split; [|split].
    + rewrite Hc2, Hc1. cbn [filter].
      destruct (Spec.differing_for u row).
      * destruct (filter (Spec.differing_for u) rows);
          [reflexivity | apply bump_bump].
      * reflexivity.
    + exists (added1 ++ added2). rewrite Ha2, Ha1. now rewrite app_assoc.
    + exists (logged1 ++ logged2). split.
      * rewrite Hl2, Hl1. now rewrite app_assoc.
      * unfold Spec.logged_under in *. rewrite filter_app, length_app.
        rewrite Hn1, Hn2. cbn [filter].
        destruct (Spec.differing_for u row); reflexivity.
Qed.

(** Every record the loop adds carries the context of the run. *)
Lemma process_rows_added (rows : list Row) (st st' : LoopState) :
  process_rows clock instructions st rows = Some st' ->
  exists added,
    training_data st' = training_data st ++ added
    /\ Forall (fun t => benchmark_context t = Spec.context_of instructions)
              added.
Proof.
  revert st. induction rows as [|row rows IH]; intros st; cbn [process_rows].
  - intros [= <-]. exists []. rewrite app_nil_r. auto.
  - destruct (process_row clock instructions st row) as [st1|] eqn:Hrow;
      [|discriminate].
    intros Hrest. destruct (IH _ Hrest) as (added2 & Ha2 & Hall2).
    assert (Hone : exists added1,
               training_data st1 = training_data st ++ added1
               /\ Forall (fun t => benchmark_context t
                                   = Spec.context_of instructions) added1).
    { unfold process_row in Hrow. rewrite context_of_slice in Hrow.
      destruct (AI_Description row); [|discriminate].
      destruct (Your_Correction row); [|discriminate].
      destruct (String.eqb _ _).
      - injection Hrow as <-. exists []. rewrite app_nil_r. auto.
      - injection Hrow as <-. cbn [training_data].
        destruct (negb _).
        + eexists. split; [reflexivity|]. repeat constructor.
        + exists []. rewrite app_nil_r. auto. }
    destruct Hone as (added1 & Ha1 & Hall1).
    exists (added1 ++ added2). split.
    + rewrite Ha2, Ha1. now rewrite app_assoc.
    + apply Forall_app. now split.
Qed.

End Loop.

Lemma filter_andb {A : Type} (f g : A -> bool) (l : list A) :
  filter (fun x => f x && g x) l = filter g (filter f l).
Proof.
  induction l as [|x l IH]; simpl; [reflexivity|].
  destruct (f x); simpl; [|exact IH].
  destruct (g x); now rewrite IH.
Qed.

Lemma process_rows_app (clock : nat -> string) (instructions : string)
      (l1 l2 : list Row) (st : LoopState) :
  process_rows clock instructions st (l1 ++ l2)
  = match process_rows clock instructions st l1 with
    | Some st1 => process_rows clock instructions st1 l2
    | None => None
    end.
Proof.
  revert st. induction l1 as [|row l1 IH]; intros st; simpl; [reflexivity|].
  destruct (process_row clock instructions st row); [apply IH | reflexivity].
Qed.

(** A row whose trimmed correction repeats the trimmed description
    leaves the variables of the loop as they are. *)
Lemma process_row_identical (clock : nat -> string) (instructions : string)
      (st : LoopState) (row : Row) (ai_desc human_desc : string) :
  AI_Description row = Some ai_desc ->
  Your_Correction row = Some human_desc ->
  strip human_desc = strip ai_desc ->
  process_row clock instructions st row = Some st.
Proof.
  intros Hai Hhuman Hsame. unfold process_row.
  rewrite Hai, Hhuman, Hsame, String.eqb_refl. reflexivity.
Qed.

Lemma training_store_saved (table : option (list Row))
      (instructions : option string) (files : string -> list TrainingRecord)
      (data : list TrainingRecord) (log : list FeedbackRecord) :
  training_store
    {| output_file := table;
       instructions_file := instructions;
       training_files :=
         save_training
           (training_file_of (extract_benchmark_name_from_file instructions))
           data files;
       feedback_log_file := log |} = data.
Proof.
  unfold training_store, save_training.
  cbn [instructions_file training_files].
  now rewrite String.eqb_refl.
Qed.

(** Whether the loop raises depends on the rows alone. *)
Lemma process_rows_raises (clock : nat -> string) (instructions : string)
      (rows : list Row) (st : LoopState) :
  process_rows clock instructions st rows = None
  <-> exists row, In row rows
        /\ (AI_Description row = None \/ Your_Correction row = None).
Proof.
  revert st. induction rows as [|row rows IH]; intros st; cbn [process_rows].
  - split; [discriminate | intros (r & [] & _)].
  - destruct (process_row clock instructions st row) as [st1|] eqn:Hrow.
    + rewrite IH. split; intros (r & Hin & Hr).
      * exists r. split; [now right | exact Hr].
      * destruct Hin as [<- | Hin]; [|now exists r].
        unfold process_row in Hrow.
        destruct Hr as [Hr | Hr]; rewrite Hr in Hrow;
          [|destruct (AI_Description row)]; discriminate.
    + split; [intros _ | reflexivity].
      exists row. split; [now left|].
      unfold process_row in Hrow.
      destruct (AI_Description row); [|now left].
      destruct (Your_Correction row); [|now right].
      destruct (String.eqb _ _); discriminate.
Qed.

(** A table whose corrections all stand beside a description does not
    make the loop raise. *)
Lemma described_completes (clock : nat -> string) (instructions : string)
      (df : list Row) (st : LoopState) :
  Spec.described df = true ->
  process_rows clock instructions st (filter has_correction df) <> None.
Proof.
  intros Hdesc Hnone. apply process_rows_raises in Hnone.
  destruct Hnone as (row & Hin & Hrow).
  apply filter_In in Hin. destruct Hin as [Hin Hcorr].
  unfold Spec.described in Hdesc. rewrite forallb_forall in Hdesc.
  specialize (Hdesc row Hin). rewrite is_correction_has, Hcorr in Hdesc.
  cbn [negb orb] in Hdesc.
  destruct Hrow as [Hrow | Hrow].
  - rewrite Hrow in Hdesc. discriminate.
  - unfold has_correction in Hcorr. rewrite Hrow in Hcorr. discriminate.
Qed.

Lemma corrections_for (u : string) (df : list Row) :
  filter (Spec.correction_for u) df
  = filter (Spec.differing_for u) (filter has_correction df).
Proof.
  rewrite <- filter_andb. apply filter_ext. intros row.
  unfold Spec.correction_for. now rewrite is_correction_has.
Qed.

(** A run over a table whose corrections all stand beside a
    description: the table and the instructions stay, the pair of [u] is
    filed once as soon as the table holds a correction for it, and the
    log receives one entry for each such correction. *)
Lemma run_effect (clock : nat -> string) (fs : Files) (u : string)
      (df : list Row) :
  output_file fs = Some df ->
  Spec.described df = true ->
  let fs' := fst (process_feedback clock fs) in
  let context := Spec.context_of_file (instructions_file fs) in
  output_file fs' = output_file fs
  /\ instructions_file fs' = instructions_file fs
  /\ Spec.count u context (Spec.store_of fs')
     = (match filter (Spec.correction_for u) df with
        | [] => Spec.count u context (Spec.store_of fs)
        | _ => Spec.bump (Spec.count u context (Spec.store_of fs))
        end)
  /\ (exists logged,
         feedback_log_file fs' = feedback_log_file fs ++ logged
         /\ List.length (Spec.logged_under u context logged)
            = List.length (filter (Spec.correction_for u) df)).
Proof.
  intros Hdf Hdesc. cbv zeta.
  rewrite <- context_of_file_read, <- !training_store_store_of.
  rewrite corrections_for.
  pose proof (described_completes clock
                (read_instructions (instructions_file fs)) df
                {| training_data := training_store fs;
                   feedback_log := feedback_log_file fs;
                   new_examples := 0; ticks := 0 |} Hdesc) as Hcompletes.
  unfold process_feedback. rewrite Hdf.
  fold (training_store fs).
  destruct (filter has_correction df) as [|row rows] eqn:Hcorr.
  - cbn [fst filter List.length].
    split; [exact Hdf|]. split; [reflexivity|]. split; [reflexivity|].
    exists []. now rewrite app_nil_r.
  - match goal with
    | |- context [process_rows ?c ?i ?s ?l] =>
        destruct (process_rows c i s l) as [st|] eqn:Hrows
    end; [|now elim Hcompletes].
    cbn [fst].
    apply (process_rows_effect clock _ u) in Hrows.
    cbn [training_data feedback_log] in Hrows.
    destruct Hrows as (Hcount & _ & Hlog).
    split; [reflexivity|]. split; [reflexivity|].
    rewrite training_store_saved.
    split; [exact Hcount | exact Hlog].
Qed.

(** C4.  Whatever the stores and the table, a run of [process_feedback]
    leaves every training store and the feedback log with what they held
    before, in the same order, possibly followed by new records: nothing
    is changed or removed. *)
Theorem C4_stores_only_grow (clock : nat -> string) (fs : Files) :
  let fs' := fst (process_feedback clock fs) in
  (forall path, exists added,
      training_files fs' path = training_files fs path ++ added)
  /\ (exists logged,
         feedback_log_file fs' = feedback_log_file fs ++ logged).
Proof.
  assert (Hsame : (forall path, exists added,
                      training_files fs path = training_files fs path ++ added)
                  /\ (exists logged,
                         feedback_log_file fs = feedback_log_file fs ++ logged)).
  { split; [intros path|]; exists []; now rewrite app_nil_r. }
  unfold process_feedback.
  destruct (output_file fs) as [df|]; [|exact Hsame].
  destruct (filter has_correction df) as [|row rows]; [exact Hsame|].
  match goal with
  | |- context [process_rows ?c ?i ?s ?l] =>
      destruct (process_rows c i s l) as [st|] eqn:Hrows
  end; [|exact Hsame].
  apply (process_rows_effect clock _ "") in Hrows.
  cbn [training_data feedback_log] in Hrows.
  destruct Hrows as (_ & (added & Hadded) & (logged & Hlogged & _)).
  cbn [fst training_files feedback_log_file]. split.
  - intros path. unfold save_training.
    destruct (String.eqb path _) eqn:Hpath.
    + apply String.eqb_eq in Hpath. subst path. now exists added.
    + exists []. now rewrite app_nil_r.
  - now exists logged.
Qed.

(** The stores a run leaves, read off the loop over the corrections. *)
Lemma process_feedback_stores (clock : nat -> string) (fs : Files)
      (df : list Row) :
  output_file fs = Some df ->
  let fs' := fst (process_feedback clock fs) in
  match process_rows clock (read_instructions (instructions_file fs))
          {| training_data := training_store fs;
             feedback_log := feedback_log_file fs;
             new_examples := 0;
             ticks := 0 |}
          (filter has_correction df) with
  | Some st =>
      (forall path,
          training_files fs' path
          = if String.eqb path
                 (training_file_of
                    (extract_benchmark_name_from_file (instructions_file fs)))
            then training_data st
            else training_files fs path)
      /\ feedback_log_file fs' = feedback_log st
  | None =>
      (forall path, training_files fs' path = training_files fs path)
      /\ feedback_log_file fs' = feedback_log_file fs
  end.
Proof.
  intros Hdf. unfold process_feedback, training_store.
  destruct (output_file fs) as [df0|]; [|discriminate].
  injection Hdf as ->.
  destruct (filter has_correction df) as [|row rows].
  - cbn [process_rows fst training_data feedback_log]. split; [|reflexivity].
    intros path. destruct (String.eqb path _) eqn:Hpath; [|reflexivity].
    apply String.eqb_eq in Hpath. now subst path.
  - match goal with
    | |- context [process_rows ?c ?i ?s ?l] =>
        destruct (process_rows c i s l) as [st|]
    end; cbn [fst training_files feedback_log_file];
      split; reflexivity.
Qed.

Lemma count_other_context (u context : string) (added : list TrainingRecord) :
  Forall (fun t => benchmark_context t <> context) added ->
  Spec.count u context added = 0.
Proof.
  unfold Spec.count, Spec.filed_under.
  induction 1 as [|t added Ht _ IH]; [reflexivity|].
  cbn [filter].
  destruct (String.eqb (benchmark_context t) context) eqn:Heq.
  - apply String.eqb_eq in Heq. now elim Ht.
  - now rewrite andb_false_r.
Qed.

(** The training stores that [process_feedback] writes file every
    (url, context) pair at most once, provided those it found did:
    starting from no store at all, no pair is ever filed twice. *)
Lemma filed_at_most_once_preserved (clock : nat -> string) (fs : Files) :
  (forall path u context,
      Spec.count u context (training_files fs path) <= 1) ->
  forall path u context,
    Spec.count u context
      (training_files (fst (process_feedback clock fs)) path) <= 1.
Proof.
  intros Hbefore path u context.
  destruct (output_file fs) as [df|] eqn:Hdf.
  2:{ unfold process_feedback. rewrite Hdf. apply Hbefore. }
  pose proof (process_feedback_stores clock fs df Hdf) as Hstores.
  cbv zeta in Hstores.
  destruct (process_rows _ _ _ _) as [st|] eqn:Hrows.
  2:{ destruct Hstores as [Hfiles _]. rewrite Hfiles. apply Hbefore. }
  destruct Hstores as [Hfiles _]. rewrite Hfiles.
  destruct (String.eqb path _); [|apply Hbefore].
  destruct (string_dec context
              (Spec.context_of (read_instructions (instructions_file fs))))
    as [-> | Hother].
  - apply (process_rows_effect clock _ u) in Hrows.
    destruct Hrows as (Hcount & _). cbn [training_data] in Hcount.
    rewrite Hcount. specialize (Hbefore
      (training_file_of (extract_benchmark_name_from_file (instructions_file fs)))
      u (Spec.context_of (read_instructions (instructions_file fs)))).
    fold (training_store fs) in Hbefore.
    destruct (filter _ _); [exact Hbefore|].
    unfold Spec.bump. destruct (Spec.count _ _ _ =? 0); [lia | exact Hbefore].
  - apply process_rows_added in Hrows.
    destruct Hrows as (added & Hadded & Hall). cbn [training_data] in Hadded.
    rewrite Hadded, count_app, (count_other_context u context added).
    + rewrite Nat.add_0_r. apply Hbefore.
    + eapply Forall_impl; [|exact Hall].
      intros t Ht. cbn beta in Ht. rewrite Ht. congruence.
Qed.


(** C3.  A row whose correction, once trimmed, is exactly the trimmed
    description is passed over: the iteration leaves the training data,
    the log and the count as they are, and the run leaves the very
    stores it would have left had the row not been in the table. *)
Theorem C3_identical_correction_skipped
        (clock : nat -> string) (fs : Files)
        (before after : list Row) (row : Row) (ai_desc human_desc : string) :
  output_file fs = Some (before ++ row :: after) ->
  AI_Description row = Some ai_desc ->
  Your_Correction row = Some human_desc ->
  Spec.trim human_desc = Spec.trim ai_desc ->
  (forall instructions st,
      process_row clock instructions st row = Some st)
  /\ (let with_row := fst (process_feedback clock fs) in
      let without_row :=
        fst (process_feedback clock (Spec.with_table fs (before ++ after))) in
      (forall path,
          training_files with_row path = training_files without_row path)
      /\ feedback_log_file with_row = feedback_log_file without_row).
Proof.
  intros Hdf Hai Hhuman Hsame. rewrite <- !PyFacts.strip_trim in Hsame.
  assert (Hskip : forall instructions st,
             process_row clock instructions st row = Some st)
    by (intros; eapply process_row_identical; eassumption).
  split; [exact Hskip|].
  pose proof (process_feedback_stores clock fs _ Hdf) as Hwith.
  pose proof (process_feedback_stores clock
                (Spec.with_table fs (before ++ after)) _ eq_refl) as Hwithout.
  cbv zeta in Hwith, Hwithout |- *.
  unfold training_store in Hwith, Hwithout.
  cbn [Spec.with_table instructions_file training_files feedback_log_file]
    in Hwithout.
  assert (Hrows : forall st,
             process_rows clock (read_instructions (instructions_file fs)) st
               (filter has_correction (before ++ row :: after))
             = process_rows clock (read_instructions (instructions_file fs)) st
                 (filter has_correction (before ++ after))).
  { intros st. rewrite !filter_app, !process_rows_app. cbn [filter].
    destruct (process_rows _ _ st (filter has_correction before)) as [st1|];
      [|reflexivity].
    destruct (has_correction row); [|reflexivity].
    cbn [process_rows]. now rewrite Hskip. }
  rewrite Hrows in Hwith.
  match type of Hwith with
  | match ?p with _ => _ end => destruct p as [st|]
  end;
    destruct Hwith as [Hfiles1 Hlog1]; destruct Hwithout as [Hfiles2 Hlog2];
    (split; [intros path; now rewrite Hfiles1, Hfiles2
            | now rewrite Hlog1, Hlog2]).
Qed.

(** The row whose correction echoes the description, up to a blank in
    front and a no-break space behind, is passed over. *)
Lemma C3_identical_correction_skipped_witness :
  let fs := Inputs.fresh_files "Analyze retail companies"
              [Inputs.acme_row_1; Inputs.echo_row] in
  feedback_log_file (fst (process_feedback Inputs.noon fs))
  = feedback_log_file
      (fst (process_feedback Inputs.noon
              (Spec.with_table fs [Inputs.acme_row_1]))).
Proof.
  intros fs.
  apply (C3_identical_correction_skipped Inputs.noon fs
           [Inputs.acme_row_1] [] Inputs.echo_row
           ("Echo hosts podcasts." ^^ PromptBuilder.bytes [160])
           " Echo hosts podcasts.");
    reflexivity.
Defined.

(** C1, as the specification words it, fails in two ways.  A training
    store that already files the pair twice keeps both records, since
    nothing is ever removed from it.  And when a later correction of
    the table stands beside no description, the run stops with an
    exception: the two corrections are neither filed nor logged. *)
Lemma C1_filed_once_logged_twice_counterexample :
  let df := [Inputs.acme_row_1; Inputs.acme_row_2] in
  let context := Spec.context_of_file (Some "Analyze retail companies") in
  (let fs := Inputs.twice_filed_files df in
   let fs' := fst (process_feedback Inputs.noon fs) in
   List.length (filter (Spec.correction_for "acme.com") df) = 2
   /\ List.length
        (Spec.filed_under "acme.com" context (Spec.store_of fs')) = 2)
  /\
  (let df3 := df ++ [Inputs.undescribed_row] in
   let fs := Inputs.fresh_files "Analyze retail companies" df3 in
   let fs' := fst (process_feedback Inputs.noon fs) in
   List.length (filter (Spec.correction_for "acme.com") df3) = 2
   /\ Spec.filed_under "acme.com" context (Spec.store_of fs') = []
   /\ feedback_log_file fs' = feedback_log_file fs).
Proof. vm_compute. repeat split. Qed.

(** C1, amended.  Two corrections for one url under one benchmark
    context (the first 200 characters of the trimmed instructions), each
    differing from its description once trimmed, are handled by one run
    over both or by two successive runs over the same instructions, one
    each; every correction of the tables stands beside a description,
    so that the runs end by saving.  Then two entries for the pair are
    appended to the feedback log, and the training store of the
    benchmark holds one record for the pair if it held none, and
    otherwise the records it held: exactly one whenever it held at most
    one before. *)
Theorem C1_filed_once_logged_twice
        (clock1 clock2 : nat -> string) (fs : Files) (u : string)
        (df df2 : list Row) :
  output_file fs = Some df ->
  Spec.described df = true ->
  let context := Spec.context_of_file (instructions_file fs) in
  let held := Spec.count u context (Spec.store_of fs) in
  (List.length (filter (Spec.correction_for u) df) = 2 ->
   let fs' := fst (process_feedback clock1 fs) in
   Spec.count u context (Spec.store_of fs') = Spec.bump held
   /\ (held <= 1 ->
       List.length (Spec.filed_under u context (Spec.store_of fs')) = 1)
   /\ exists logged,
        feedback_log_file fs' = feedback_log_file fs ++ logged
        /\ List.length (Spec.logged_under u context logged) = 2)
  /\
  (List.length (filter (Spec.correction_for u) df) = 1 ->
   List.length (filter (Spec.correction_for u) df2) = 1 ->
   Spec.described df2 = true ->
   let fs1 := fst (process_feedback clock1 fs) in
   let fs2 := fst (process_feedback clock2 (Spec.with_table fs1 df2)) in
   instructions_file fs1 = instructions_file fs
   /\ Spec.count u context (Spec.store_of fs2) = Spec.bump held
   /\ (held <= 1 ->
       List.length (Spec.filed_under u context (Spec.store_of fs2)) = 1)
   /\ exists logged,
        feedback_log_file fs2 = feedback_log_file fs ++ logged
        /\ List.length (Spec.logged_under u context logged) = 2).
Proof.
  intros Hdf Hdesc. cbv zeta.
  assert (Hone_record : forall n, n <= 1 -> Spec.bump n = 1).
  { intros [|[|n]] Hn; [reflexivity | reflexivity | lia]. }
  split.
  - intros Htwo.
    destruct (run_effect clock1 fs u df Hdf Hdesc) as (_ & _ & Hc & Hl).
    assert (Hcount : Spec.count u (Spec.context_of_file (instructions_file fs))
                       (Spec.store_of (fst (process_feedback clock1 fs)))
                     = Spec.bump
                         (Spec.count u
                            (Spec.context_of_file (instructions_file fs))
                            (Spec.store_of fs))).
    { rewrite Hc. destruct (filter (Spec.correction_for u) df);
        [discriminate | reflexivity]. }
    split; [exact Hcount|]. split; [|now rewrite <- Htwo].
    intros Hheld.
    fold (Spec.count u (Spec.context_of_file (instructions_file fs))
            (Spec.store_of (fst (process_feedback clock1 fs)))).
    rewrite Hcount. now apply Hone_record.
  - intros Hone Hone2 Hdesc2.
    set (fs1 := fst (process_feedback clock1 fs)).
    destruct (run_effect clock1 fs u df Hdf Hdesc)
      as (_ & Hinstr & Hc1 & (logged1 & Hl1 & Hn1)).
    fold fs1 in Hinstr, Hc1, Hl1.
    destruct (run_effect clock2 (Spec.with_table fs1 df2) u df2 eq_refl Hdesc2)
      as (_ & _ & Hc2 & (logged2 & Hl2 & Hn2)).
    set (fs2 := fst (process_feedback clock2 (Spec.with_table fs1 df2)))
      in Hc2, Hl2 |- *.
    assert (Hstore : Spec.store_of (Spec.with_table fs1 df2)
                     = Spec.store_of fs1) by reflexivity.
    assert (Hfile : instructions_file (Spec.with_table fs1 df2)
                    = instructions_file fs) by exact Hinstr.
    rewrite Hstore, Hfile in Hc2. rewrite Hfile in Hn2.
    assert (Hcount : Spec.count u (Spec.context_of_file (instructions_file fs))
                       (Spec.store_of fs2)
                     = Spec.bump
                         (Spec.count u
                            (Spec.context_of_file (instructions_file fs))
                            (Spec.store_of fs))).
    { rewrite Hc2, Hc1.
      destruct (filter (Spec.correction_for u) df); [discriminate|].
      destruct (filter (Spec.correction_for u) df2); [discriminate|].
      apply bump_bump. }
    split; [exact Hinstr|]. split; [exact Hcount|]. split.
    + intros Hheld.
      fold (Spec.count u (Spec.context_of_file (instructions_file fs))
              (Spec.store_of fs2)).
      rewrite Hcount. now apply Hone_record.
    + exists (logged1 ++ logged2). split.
      * rewrite Hl2. cbn [Spec.with_table feedback_log_file].
        rewrite Hl1. now rewrite app_assoc.
      * unfold Spec.logged_under in *.
        rewrite filter_app, length_app, Hn1, Hn2, Hone, Hone2. reflexivity.
Qed.

(** Both ways of handling two corrections for [acme.com], from empty
    stores: one run over both rows, and two runs over one row each. *)
Lemma C1_filed_once_logged_twice_witness :
  let both := Inputs.fresh_files "Analyze retail companies"
                [Inputs.acme_row_1; Inputs.acme_row_2] in
  let first := Inputs.fresh_files "Analyze retail companies"
                 [Inputs.acme_row_1] in
  let second := Spec.with_table (fst (process_feedback Inputs.noon first))
                  [Inputs.acme_row_2] in
  let context := Spec.context_of_file (Some "Analyze retail companies") in
  List.length (Spec.filed_under "acme.com" context
                 (Spec.store_of (fst (process_feedback Inputs.noon both)))) = 1
  /\ List.length (Spec.filed_under "acme.com" context
                    (Spec.store_of (fst (process_feedback Inputs.noon second))))
     = 1.
Proof.
  intros both first second context. split.
  - destruct (C1_filed_once_logged_twice Inputs.noon Inputs.noon both
                "acme.com" [Inputs.acme_row_1; Inputs.acme_row_2] []
                eq_refl eq_refl) as [Hrun _].
    destruct (Hrun eq_refl) as (_ & Hfiled & _).
    apply Hfiled. vm_compute. lia.
  - destruct (C1_filed_once_logged_twice Inputs.noon Inputs.noon first
                "acme.com" [Inputs.acme_row_1] [Inputs.acme_row_2]
                eq_refl eq_refl) as [_ Hruns].
    destruct (Hruns eq_refl eq_refl eq_refl) as (_ & _ & Hfiled & _).
    apply Hfiled. vm_compute. lia.
Defined.

End FeedbackProofs.
(* ===================================================================== *)
(** * The prompt composer *)
(* ===================================================================== *)

Module PromptProofs.

Import Py PromptBuilder.

(** ** Searching a text across a newline *)

Section AcrossNewline.

Variable needle : string.
Hypothesis needle_single_line : Spec.single_line needle = true.

Lemma prefix_before_newline (a b : string) :
  String.prefix needle (a ^^ nl ^^ b) = String.prefix needle a.
Proof.
  revert a needle_single_line.
  induction needle as [|c rest IH]; intros a Hline.
  - destruct a; reflexivity.
  - cbn [Spec.single_line] in Hline. apply andb_true_iff in Hline.
    destruct Hline as [Hc Hrest].
    destruct a as [|x a]; cbn.
    + destruct (ascii_dec c "010") as [->|]; [discriminate | reflexivity].
    + destruct (ascii_dec c x); [apply IH; exact Hrest | reflexivity].
Qed.

Lemma contains_across_newline (a b : string) :
  contains needle (a ^^ nl ^^ b) = contains needle a || contains needle b.
Proof.
  induction a as [|x a IH].
  - change ("" ^^ nl ^^ b) with (String "010" b).
    cbn [contains].
    change (String "010" b) with ("" ^^ nl ^^ b).
    rewrite prefix_before_newline. now rewrite orb_false_r.
  - change (String x a ^^ nl ^^ b) with (String x (a ^^ nl ^^ b)).
    cbn [contains]. rewrite IH.
    change (String x (a ^^ nl ^^ b)) with (String x a ^^ nl ^^ b).
    rewrite prefix_before_newline. now rewrite orb_assoc.
Qed.

Lemma contains_after_newline (b : string) :
  contains needle (nl ^^ b) = contains needle "" || contains needle b.
Proof. apply (contains_across_newline "" b). Qed.

Lemma contains_before_newline (a : string) :
  contains needle (a ^^ nl) = contains needle a || contains needle "".
Proof.
  rewrite <- (PyFacts.append_nil_r nl) at 1.
  apply (contains_across_newline a "").
Qed.

(** The prompt built with no example and no mistake pattern holds the
    needle only where a fixed line of the template or one of the four
    spliced texts holds it. *)
Lemma absent_from_bare_prompt (website_data : WebsiteData)
      (instructions visual_check : string) (ui_signals : option UISignals) :
  contains needle (assemble "" "" "" "" "" "") = false ->
  contains needle instructions = false ->
  contains needle (build_visual_section visual_check ui_signals) = false ->
  contains needle (build_signals_section website_data ui_signals) = false ->
  contains needle (text_content website_data) = false ->
  contains needle
    (build_prompt website_data instructions visual_check [] [] ui_signals)
  = false.
Proof.
  intros Hfixed Hinstructions Hvisual Hsignals Htext.
  unfold build_prompt, assemble in *.
  cbn [build_examples_section build_mistakes_section].
  repeat first [ rewrite contains_across_newline in Hfixed
               | rewrite contains_after_newline in Hfixed
               | rewrite contains_before_newline in Hfixed ].
  repeat first [ rewrite contains_across_newline
               | rewrite contains_after_newline
               | rewrite contains_before_newline ].
  rewrite Hinstructions, Hvisual, Hsignals, Htext.
  repeat (apply orb_false_iff in Hfixed; destruct Hfixed as [? Hfixed]).
  repeat match goal with
         | H : contains needle _ = false |- _ => rewrite H; clear H
         end.
  reflexivity.
Qed.

End AcrossNewline.

(** C7, as the specification words it, fails: instructions that speak
    of reference examples put the header text in a prompt built with no
    example and no mistake pattern. *)
Lemma C7_headers_counterexample :
  contains "REFERENCE EXAMPLES"
    (build_prompt (Inputs.site_with_links [])
       "List the REFERENCE EXAMPLES each company shows" "" [] [] None)
  = true.
Proof. vm_compute. reflexivity. Qed.

(** C7, amended.  With no training example and no mistake pattern both
    list-backed sections are the empty string, and the prompt holds
    neither header text unless the instructions, the visual-check
    section, the signals section or the website text holds it. *)
Theorem C7_empty_lists_no_headers
        (website_data : WebsiteData) (instructions visual_check : string)
        (ui_signals : option UISignals) (header : string) :
  In header Spec.section_headers ->
  contains header instructions = false ->
  contains header (build_visual_section visual_check ui_signals) = false ->
  contains header (build_signals_section website_data ui_signals) = false ->
  contains header (text_content website_data) = false ->
  build_examples_section [] = ""
  /\ build_mistakes_section [] = ""
  /\ contains header
       (build_prompt website_data instructions visual_check [] [] ui_signals)
     = false.
Proof.
  intros Hheader Hinstructions Hvisual Hsignals Htext.
  split; [reflexivity|]. split; [reflexivity|].
  apply absent_from_bare_prompt; try assumption;
    destruct Hheader as [<- | [<- | []]]; vm_compute; reflexivity.
Qed.

(** A prompt for a site without signals, built from plain instructions. *)
Lemma C7_empty_lists_no_headers_witness :
  contains "COMMON MISTAKES"
    (build_prompt (Inputs.site_with_links []) "Analyze retail companies" ""
       [] [] None)
  = false.
Proof.
  apply (C7_empty_lists_no_headers (Inputs.site_with_links [])
           "Analyze retail companies" "" None "COMMON MISTAKES");
    [right; left; reflexivity | reflexivity ..].
Defined.

(** ** The navigation line *)

(** C8, as the specification words it, fails: of forty links, the three
    that hold a relevance keyword come after the thirtieth, and the
    signals section is empty. *)
Lemma C8_navigation_counterexample :
  List.length Inputs.late_links = 40
  /\ filter is_relevant Inputs.late_links = ["About us"; "Shop"; "Contact"]
  /\ build_signals_section (Inputs.site_with_links Inputs.late_links) None
     = "".
Proof. vm_compute. repeat split. Qed.

(** The signals section: the navigation line, when one of the first
    thirty links is relevant, then the lines that do not come from the
    links. *)
Lemma signal_sections_navigation (website_data : WebsiteData)
      (ui_signals : option UISignals) :
  signal_sections website_data ui_signals
  = (match filter is_relevant (firstn 30 (nav_links website_data)) with
     | [] => []
     | filtered_links => [Spec.navigation_line (firstn 15 filtered_links)]
     end)
    ++ signal_sections (Spec.without_links website_data) ui_signals.
Proof.
  unfold signal_sections.
  cbn [Spec.without_links nav_links meta_description app].
  destruct (nav_links website_data) as [|link links]; [reflexivity|].
  destruct (filter is_relevant (firstn 30 (link :: links))); reflexivity.
Qed.

(** C8, amended.  When exactly three of the first thirty navigation
    links hold a relevance keyword, the signals section opens with the
    navigation line listing those three in their order, followed by the
    lines that do not come from the links; the links after the thirtieth
    have no part in it. *)
Theorem C8_navigation_three_of_first_thirty
        (website_data : WebsiteData) (ui_signals : option UISignals)
        (l1 l2 l3 : string) :
  filter is_relevant (firstn 30 (nav_links website_data)) = [l1; l2; l3] ->
  signal_sections website_data ui_signals
  = ("NAVIGATION LINKS DETECTED: " ^^ l1 ^^ ", " ^^ l2 ^^ ", " ^^ l3)
      :: signal_sections (Spec.without_links website_data) ui_signals
  /\ build_signals_section website_data ui_signals
     = join nl (Spec.navigation_line [l1; l2; l3]
                  :: signal_sections (Spec.without_links website_data)
                       ui_signals)
  /\ (forall links,
         firstn 30 links = firstn 30 (nav_links website_data) ->
         build_signals_section
           {| text_content := text_content website_data;
              nav_links := links;
              meta_description := meta_description website_data;
              error := error website_data |} ui_signals
         = build_signals_section website_data ui_signals).
Proof.
  intros Hthree.
  assert (Hsections :
            signal_sections website_data ui_signals
            = Spec.navigation_line [l1; l2; l3]
                :: signal_sections (Spec.without_links website_data)
                     ui_signals).
  { rewrite signal_sections_navigation, Hthree. reflexivity. }
  split; [exact Hsections|]. split.
  - unfold build_signals_section. now rewrite Hsections.
  - intros links Hsame. unfold build_signals_section.
    rewrite (signal_sections_navigation website_data).
    match goal with
    | |- context [signal_sections ?wd ui_signals ] =>
        lazymatch wd with
        | Spec.without_links _ => fail
        | _ => rewrite (signal_sections_navigation wd)
        end
    end.
    cbn [nav_links]. rewrite Hsame. reflexivity.
Qed.

(** Forty links with the three relevant ones among the first thirty. *)
Lemma C8_navigation_three_of_first_thirty_witness :
  build_signals_section (Inputs.site_with_links Inputs.early_links) None
  = "NAVIGATION LINKS DETECTED: About us, Shop, Contact".
Proof.
  destruct (C8_navigation_three_of_first_thirty
              (Inputs.site_with_links Inputs.early_links) None
              "About us" "Shop" "Contact" eq_refl) as (_ & Hsection & _).
  exact Hsection.
Defined.

End PromptProofs.

(* ===================================================================== *)
(** * The signal extractor *)
(* ===================================================================== *)

Module SignalProofs.

Import Py PromptBuilder SignalExtractor.

Lemma found_filter (keep : Node -> bool) (nodes : list Node) (n : Node) :
  In n nodes -> keep n = true -> found (filter keep nodes) = true.
Proof.
  intros Hin Hkeep.
  assert (Hn : In n (filter keep nodes)) by (apply filter_In; now split).
  destruct (filter keep nodes); [destruct Hn | reflexivity].
Qed.

(** The cart loop stops at the first pattern that one of its tests
    finds, and leaves exactly one note, about that pattern. *)
Lemma cart_loop_first_match (soup : Soup) (patterns : list string)
      (result : UISignals) :
  match Spec.first_match (Spec.cart_test soup) patterns with
  | Some p =>
      exists kind,
        In kind ["cart-indicator: "; "cart-id: "; "cart-icon: "]
        /\ cart_loop soup patterns result = note_cart result (kind ^^ p)
  | None => cart_loop soup patterns result = result
  end.
Proof.
  induction patterns as [|p rest IH]; [reflexivity|].
  cbn [Spec.first_match cart_loop]. unfold Spec.cart_test at 1.
  destruct (found (find_all soup (class_passes (mentions p)))).
  { exists "cart-indicator: ". split; [now left | reflexivity]. }
  destruct (found (find_all soup (attr_passes "id" (mentions p)))).
  { exists "cart-id: ". split; [right; now left | reflexivity]. }
  cbn [orb].
  destruct (found (find_all soup _)).
  { exists "cart-icon: ". split; [right; right; now left | reflexivity]. }
  exact IH.
Qed.

(** The job loop adds at most one note, and none about a cart. *)
Lemma job_loop_notes (soup : Soup) (patterns : list string)
      (result : UISignals) :
  has_shopping_cart (job_loop soup patterns result) = has_shopping_cart result
  /\ exists notes,
       detected_elements (job_loop soup patterns result)
       = detected_elements result ++ notes
       /\ List.length notes <= 1
       /\ filter Spec.is_cart_note notes = [].
Proof.
  induction patterns as [|p rest IH]; cbn [job_loop].
  - split; [reflexivity|]. exists []. rewrite app_nil_r. auto.
  - destruct (found _).
    { split; [reflexivity|]. eexists. split; [reflexivity|]. auto. }
    destruct (found _).
    { split; [reflexivity|]. eexists. split; [reflexivity|]. auto. }
    exact IH.
Qed.

(** C9.  On a page with an element of class [add-to-cart-btn], whatever
    else the page holds, [extract_ui_signals] reports a shopping cart
    and leaves exactly one cart note; the note names [cart], the first
    pattern of the ordered list that the page matches, and none of the
    later patterns that match as well. *)
Theorem C9_cart_short_circuit
        (str_of_tag : Node -> string) (soup : Soup) (visual_check : string)
        (name : string) (attrs : list (string * string))
        (children : list Node) :
  In (Tag name attrs children) (descendants soup) ->
  attr "class" attrs = Some "add-to-cart-btn" ->
  let result := extract_ui_signals str_of_tag soup visual_check in
  has_shopping_cart result = true
  /\ filter Spec.is_cart_note (detected_elements result)
     = ["cart-indicator: cart"]
  /\ Spec.first_match (Spec.cart_test soup) cart_patterns = Some "cart"
  /\ Spec.cart_test soup "add-to-cart" = true.
Proof.
  intros Hin Hclass.
  assert (Hpasses : forall pattern,
             mentions pattern (Some "add-to-cart-btn") = true ->
             found (find_all soup (class_passes (mentions pattern))) = true).
  { intros pattern Hmentions. unfold find_all.
    apply (found_filter _ _ _ Hin).
    cbn [class_passes]. rewrite Hclass.
    change (split "add-to-cart-btn") with ["add-to-cart-btn"].
    cbn [existsb]. now rewrite Hmentions. }
  assert (Hcart : cart_loop soup cart_patterns
                    {| has_shopping_cart := false;
                       has_job_board := false;
                       detected_elements := [];
                       custom_check_result := "" |}
                  = {| has_shopping_cart := true;
                       has_job_board := false;
                       detected_elements := ["cart-indicator: cart"];
                       custom_check_result := "" |}).
  { unfold cart_patterns. cbn [cart_loop].
    now rewrite (Hpasses "cart" eq_refl). }
  cbv zeta. unfold extract_ui_signals. rewrite Hcart.
  match goal with
  | |- context [job_loop soup job_patterns ?r] =>
      destruct (job_loop_notes soup job_patterns r)
        as (Hshop & notes & Hnotes & _ & Hnone)
  end.
  assert (Hfirst : Spec.first_match (Spec.cart_test soup) cart_patterns
                   = Some "cart").
  { unfold cart_patterns. cbn [Spec.first_match]. unfold Spec.cart_test at 1.
    now rewrite (Hpasses "cart" eq_refl). }
  assert (Hlater : Spec.cart_test soup "add-to-cart" = true).
  { unfold Spec.cart_test. now rewrite (Hpasses "add-to-cart" eq_refl). }
  destruct (truthy (strip visual_check));
    cbn [has_shopping_cart detected_elements] in *;
    rewrite Hshop, Hnotes, filter_app, Hnone;
    repeat split; assumption.
Qed.

(** The page whose only hint of a shop is the class of a button. *)
Lemma C9_cart_short_circuit_witness :
  let result :=
    extract_ui_signals Inputs.silent Inputs.button_page "shopping cart icon" in
  has_shopping_cart result = true
  /\ filter Spec.is_cart_note (detected_elements result)
     = ["cart-indicator: cart"]
  /\ Spec.first_match (Spec.cart_test Inputs.button_page) cart_patterns
     = Some "cart"
  /\ Spec.cart_test Inputs.button_page "add-to-cart" = true.
Proof.
  apply (C9_cart_short_circuit Inputs.silent Inputs.button_page
           "shopping cart icon" "button" [("class", "add-to-cart-btn")]
           [Text "Buy"]).
  - vm_compute. tauto.
  - reflexivity.
Defined.

End SignalProofs.

(* ===================================================================== *)
(** * The failure text and the retry *)
(* ===================================================================== *)

Module FailureProofs.

Import Py PromptBuilder Descriptions.

Lemma error_mask_true (cell : option string) :
  RetryFailed.error_mask cell = true <-> cell = Some website_failure.
Proof.
  unfold RetryFailed.error_mask. split.
  - apply FeedbackProofs.cell_eqb_some.
  - intros ->. reflexivity.
Qed.

(** The positions [failed_from] answers are those of the cells that
    hold the failure text. *)
Lemma failed_from_spec (column : list (option string)) (start i : nat) :
  In i (RetryFailed.failed_from start column)
  <-> start <= i /\ nth_error column (i - start) = Some (Some website_failure).
Proof.
  revert start. induction column as [|cell rest IH]; intros start.
  - cbn [RetryFailed.failed_from In]. split; [tauto|].
    intros [_ H]. destruct (i - start); discriminate.
  - cbn [RetryFailed.failed_from].
    assert (Hrest : In i (RetryFailed.failed_from (S start) rest)
                    <-> start < i
                        /\ nth_error (cell :: rest) (i - start)
                           = Some (Some website_failure)).
    { rewrite IH. split; intros [Hlt Hnth]; (split; [lia|]).
      - replace (i - start) with (S (i - S start)) by lia. exact Hnth.
      - replace (i - start) with (S (i - S start)) in Hnth by lia.
        exact Hnth. }
    destruct (RetryFailed.error_mask cell) eqn:Hmask.
    + apply error_mask_true in Hmask. subst cell. cbn [In].
      rewrite Hrest. split.
      * intros [<- | [Hlt Hnth]]; [|split; [lia | exact Hnth]].
        split; [lia|]. now rewrite Nat.sub_diag.
      * intros [Hle Hnth].
        destruct (Nat.eq_dec start i) as [Heq | Hne]; [now left | right].
        split; [lia | exact Hnth].
    + rewrite Hrest. split.
      * intros [Hlt Hnth]. split; [lia | exact Hnth].
      * intros [Hle Hnth]. split; [|exact Hnth].
        destruct (Nat.eq_dec start i) as [<- | Hne]; [|lia].
        rewrite Nat.sub_diag in Hnth. cbn [nth_error] in Hnth.
        injection Hnth as ->. discriminate.
Qed.

(** C10.  When no model is configured, or the website data carries an
    error, [generate_ai_description] answers the text [The Company's
    website does not work] and nothing else happens: no prompt is built
    and the model is not called.  The rows [retry_failed] selects are
    exactly those whose description is this very text. *)
Theorem C10_failure_text_is_retry_sentinel
        (model : option Model) (website_data : WebsiteData)
        (ui_signals : option UISignals) (instructions visual_check : string)
        (training_examples : list Example)
        (mistake_patterns : list MistakePattern) :
  model = None
  \/ (exists e, error website_data = Some e /\ e <> "") ->
  let answer :=
    generate_ai_description model website_data ui_signals instructions
      visual_check training_examples mistake_patterns in
  answer = ("The Company's website does not work", [])
  /\ (forall cell,
         RetryFailed.error_mask cell = true <-> cell = Some (fst answer))
  /\ (forall column i,
         In i (RetryFailed.failed_indices column)
         <-> nth_error column i = Some (Some (fst answer))).
Proof.
  intros Hfails.
  assert (Hanswer :
            generate_ai_description model website_data ui_signals instructions
              visual_check training_examples mistake_patterns
            = (website_failure, [])).
  { unfold generate_ai_description.
    destruct Hfails as [-> | (e & He & Hnonempty)]; [reflexivity|].
    destruct model; [|reflexivity].
    unfold has_error. rewrite He.
    destruct e; [now elim Hnonempty | reflexivity]. }
  cbv zeta. rewrite Hanswer. cbn [fst].
  split; [reflexivity|]. split.
  - apply error_mask_true.
  - intros column i. unfold RetryFailed.failed_indices.
    rewrite failed_from_spec, Nat.sub_0_r. split; [tauto|].
    intros H. split; [lia | exact H].
Qed.

(** A failed scrape, and a table whose second row holds the failure
    text. *)
Lemma C10_failure_text_is_retry_sentinel_witness :
  let failed_site :=
    {| text_content := ""; nav_links := []; meta_description := "";
       error := Some "Scraping Error: timed out" |} in
  let answer :=
    generate_ai_description (Some (fun _ => Generated "unused")) failed_site
      None "Analyze retail companies" "" [] [] in
  answer = ("The Company's website does not work", [])
  /\ RetryFailed.failed_indices
       [Some "Acme sells anvils."; Some (fst answer); None] = [1].
Proof.
  intros failed_site answer.
  destruct (C10_failure_text_is_retry_sentinel
              (Some (fun _ => Generated "unused")) failed_site None
              "Analyze retail companies" "" [] [])
    as (Hanswer & _ & _).
  - right. exists "Scraping Error: timed out". split; [reflexivity|discriminate].
  - split; [exact Hanswer|]. vm_compute. reflexivity.
Defined.

End FailureProofs.

(* ===================================================================== *)
(** * More on the instructions and the identity *)
(* ===================================================================== *)

Module InstructionFacts.

Import Py PyFacts IdentityProofs.

Lemma lower_char_idempotent (c : ascii) :
  lower_char (lower_char c) = lower_char c.
Proof. destruct c as [[] [] [] [] [] [] [] []]; reflexivity. Qed.

Lemma lower_idempotent (s : string) : lower (lower s) = lower s.
Proof.
  induction s as [|c s IH]; [reflexivity|].
  cbn [lower]. now rewrite lower_char_idempotent, IH.
Qed.

Lemma lower_append (a b : string) : lower (a ^^ b) = lower a ^^ lower b.
Proof.
  induction a as [|c a IH]; [reflexivity|].
  cbn [lower String.append]. now rewrite IH.
Qed.

Lemma replace_blank_append (a b : string) :
  PromptBuilder.replace_blank (a ^^ b)
  = PromptBuilder.replace_blank a ^^ PromptBuilder.replace_blank b.
Proof.
  induction a as [|c a IH]; [reflexivity|].
  cbn [PromptBuilder.replace_blank String.append]. now rewrite IH.
Qed.

Lemma replace_blank_no_space (s : string) :
  Behaviour.no_space s = true -> PromptBuilder.replace_blank s = s.
Proof.
  induction s as [|c s IH]; [reflexivity|].
  cbn [Behaviour.no_space PromptBuilder.replace_blank].
  intros H. apply andb_true_iff in H. destruct H as [Hc Hs].
  rewrite (IH Hs).
  destruct (Ascii.eqb c " ") eqn:Hblank; [|reflexivity].
  apply Ascii.eqb_eq in Hblank. subst c. discriminate.
Qed.

(** A token holds no whitespace. *)
Lemma tokens_no_space (s : string) :
  Forall (fun w => Behaviour.no_space w = true) (Spec.tokens s).
Proof.
  induction s as [|c s IH]; [constructor|].
  rewrite tokens_unfold. destruct (isspace c) eqn:Hc; [exact IH|].
  assert (Hone : Behaviour.no_space (String c "") = true)
    by (cbn; now rewrite Hc).
  destruct s as [|c' s']; [now repeat constructor|].
  destruct (isspace c'); [now constructor|].
  destruct (Spec.tokens (String c' s')) as [|w ws];
    [now repeat constructor|].
  inversion IH as [|? ? Hw Hws]; subst. constructor; [|exact Hws].
  cbn [Behaviour.no_space]. now rewrite Hc, Hw.
Qed.

(** The tokens of the lowercased text are the lowercased tokens. *)
Lemma tokens_lower (s : string) :
  Spec.tokens (lower s) = map lower (Spec.tokens s).
Proof.
  induction s as [|c s IH]; [reflexivity|].
  destruct s as [|c' s'].
  - cbn [lower]. rewrite !tokens_unfold, isspace_lower_char.
    destruct (isspace c); reflexivity.
  - change (lower (String c (String c' s')))
      with (String (lower_char c) (String (lower_char c') (lower s'))).
    rewrite !tokens_step, !isspace_lower_char.
    change (String (lower_char c') (lower s')) with (lower (String c' s')).
    rewrite IH.
    destruct (isspace c); [reflexivity|].
    destruct (isspace c'); [reflexivity|].
    destruct (Spec.tokens (String c' s')); reflexivity.
Qed.

Lemma in_firstn {A : Type} (n : nat) (l : list A) (x : A) :
  In x (firstn n l) -> In x l.
Proof.
  revert n. induction l as [|y l IH]; intros [|n]; cbn [firstn In]; try tauto.
  intros [-> | Hin]; [now left | right; now apply (IH n)].
Qed.

Lemma plain_append (a b : string) : Behaviour.plain a -> Behaviour.plain b -> Behaviour.plain (a ^^ b).
Proof.
  unfold Behaviour.plain. intros [Ha1 Ha2] [Hb1 Hb2]. split.
  - now rewrite lower_append, Ha1, Hb1.
  - now rewrite replace_blank_append, Ha2, Hb2.
Qed.

Lemma survivors_plain (text w : string) :
  In w (Spec.survivors text) -> Behaviour.plain w.
Proof.
  unfold Spec.survivors. rewrite filter_In, <- lower_spec. intros [Hin _].
  assert (Htok : In w (Spec.tokens (lower text))).
  { now apply (in_firstn 20). }
  split.
  - rewrite tokens_lower in Htok. apply in_map_iff in Htok.
    destruct Htok as (w0 & <- & _). apply lower_idempotent.
  - apply replace_blank_no_space.
    pose proof (tokens_no_space (lower text)) as Hall.
    rewrite Forall_forall in Hall. now apply Hall.
Qed.

Lemma identity_plain (text : string) : Behaviour.plain (Spec.identity text).
Proof.
  unfold Spec.identity.
  pose proof (survivors_plain text) as Hplain.
  assert (Hsep : Behaviour.plain "_") by (split; reflexivity).
  destruct (Spec.survivors text) as [|t1 [|t2 [|t3 rest]]]; cbn [firstn].
  - split; reflexivity.
  - apply Hplain. now left.
  - repeat apply plain_append; try exact Hsep; apply Hplain; cbn; tauto.
  - repeat apply plain_append; try exact Hsep; apply Hplain; cbn; tauto.
Qed.


(** X2.  The path under which a generation run looks for the examples
    of an identity is the path under which the feedback processor saves
    them: the lowercasing and the replacement of blanks that
    [load_training_examples] applies change no identity that
    [extract_benchmark_name] derives. *)
Theorem identity_path_round_trip (text : string) :
  PromptBuilder.specific_file (Descriptions.extract_benchmark_name text)
  = FeedbackProcessor.training_file_of
      (Descriptions.extract_benchmark_name text).
Proof.
  rewrite extract_benchmark_name_identity.
  destruct (identity_plain text) as [Hlower Hblank].
  unfold PromptBuilder.specific_file, FeedbackProcessor.training_file_of.
  now rewrite Hlower, Hblank.
Qed.

(** ** [load_instructions] *)

Lemma rstrip_idempotent (s : string) : rstrip (rstrip s) = rstrip s.
Proof.
  induction s as [|c s IH]; [reflexivity|].
  cbn [rstrip]. destruct (rstrip s) as [|c2 r2] eqn:Hr.
  - destruct (isspace c) eqn:Hc; [reflexivity|].
    cbn [rstrip]. now rewrite Hc.
  - cbn [rstrip]. cbn [rstrip] in IH. rewrite IH. reflexivity.
Qed.

Lemma lstrip_head (s : string) :
  lstrip s = "" \/ exists c r, lstrip s = String c r /\ isspace c = false.
Proof.
  induction s as [|c s IH]; [now left|].
  cbn [lstrip]. destruct (isspace c) eqn:Hc; [exact IH|].
  right. now exists c, s.
Qed.

Lemma strip_idempotent (s : string) : strip (strip s) = strip s.
Proof.
  unfold strip.
  destruct (lstrip_head s) as [Hempty | (c & r & Hs & Hc)].
  - rewrite Hempty. reflexivity.
  - rewrite Hs.
    assert (Hhead : exists r', rstrip (String c r) = String c r').
    { cbn [rstrip]. destruct (rstrip r); [rewrite Hc|]; eauto. }
    destruct Hhead as (r' & Hr). rewrite Hr.
    cbn [lstrip]. rewrite Hc, <- Hr. apply rstrip_idempotent.
Qed.

Lemma single_line_lstrip (s : string) :
  Spec.single_line s = true -> Spec.single_line (lstrip s) = true.
Proof.
  induction s as [|c s IH]; [reflexivity|].
  intros H. cbn [lstrip]. destruct (isspace c); [|exact H].
  cbn [Spec.single_line] in H. apply andb_true_iff in H. now apply IH.
Qed.

Lemma single_line_rstrip (s : string) :
  Spec.single_line s = true -> Spec.single_line (rstrip s) = true.
Proof.
  induction s as [|c s IH]; [reflexivity|].
  cbn [Spec.single_line]. intros H. apply andb_true_iff in H.
  destruct H as [Hc Hs]. specialize (IH Hs). cbn [rstrip].
  destruct (rstrip s) as [|c2 r2].
  - destruct (isspace c); [reflexivity|]. cbn. now rewrite Hc.
  - cbn [Spec.single_line] in IH |- *. now rewrite Hc, IH.
Qed.

Lemma lazy_dots_single_line (s g : string) (n : nat) :
  Descriptions.lazy_dots s = Some (g, n) -> Spec.single_line g = true.
Proof.
  revert g n. induction s as [|c s IH]; intros g n; [discriminate|].
  cbn [Descriptions.lazy_dots].
  destruct (Descriptions.is_newline c) eqn:Hc; [discriminate|].
  destruct s as [|c' s'].
  - intros [= <- _]. cbn. now rewrite Hc.
  - destruct (Descriptions.is_newline c').
    + intros [= <- _]. cbn. now rewrite Hc.
    + destruct (Descriptions.lazy_dots (String c' s')) as [[g' n']|];
        [|discriminate].
      intros [= <- _]. cbn [Spec.single_line]. rewrite Hc.
      now rewrite (IH g' n' eq_refl).
Qed.

Lemma ws_star_single_line (s g : string) (n : nat) :
  Descriptions.ws_star s = Some (g, n) -> Spec.single_line g = true.
Proof.
  revert g n. induction s as [|c s IH]; intros g n.
  - discriminate.
  - cbn [Descriptions.ws_star]. destruct (isspace c).
    + destruct (Descriptions.ws_star s) as [[g' n']|].
      * intros [= <- _]. now apply (IH g' n').
      * apply lazy_dots_single_line.
    + apply lazy_dots_single_line.
Qed.

Lemma literal_ic_single_line (lit s g : string) (n : nat) :
  Descriptions.literal_ic lit s Descriptions.ws_star = Some (g, n) ->
  Spec.single_line g = true.
Proof.
  revert s g n. induction lit as [|p lit IH]; intros s g n.
  - apply ws_star_single_line.
  - cbn [Descriptions.literal_ic]. destruct s as [|c s]; [discriminate|].
    destruct (Ascii.eqb _ _); [|discriminate].
    destruct (Descriptions.literal_ic lit s Descriptions.ws_star)
      as [[g' n']|] eqn:Hrec; [|discriminate].
    intros [= <- _]. now apply (IH s g' n').
Qed.

Lemma re_search_single_line (s g : string) :
  Descriptions.re_search s = Some g -> Spec.single_line g = true.
Proof.
  induction s as [|c s IH]; cbn [Descriptions.re_search].
  - destruct (Descriptions.match_here "") as [[g' n']|] eqn:Hm;
      [|discriminate].
    intros [= <-]. now apply (literal_ic_single_line _ _ _ _ Hm).
  - destruct (Descriptions.match_here (String c s)) as [[g' n']|] eqn:Hm;
      [|exact IH].
    intros [= <-]. now apply (literal_ic_single_line _ _ _ _ Hm).
Qed.

(** X3.  Whatever the file holds, [load_instructions] answers
    instructions and a visual check that neither start nor end with
    whitespace, and a visual check that fits on one line; a file that
    does not exist gives two empty texts. *)
Theorem load_instructions_trimmed (file : option string) :
  let instructions := fst (Descriptions.load_instructions file) in
  let visual_check := snd (Descriptions.load_instructions file) in
  Behaviour.trimmed instructions
  /\ Behaviour.trimmed visual_check
  /\ Spec.single_line visual_check = true
  /\ (file = None -> instructions = "" /\ visual_check = "").
Proof.
  unfold Behaviour.trimmed, Descriptions.load_instructions.
  destruct file as [content|]; [|cbn; repeat split; reflexivity].
  destruct (Descriptions.re_search content) as [g|] eqn:Hsearch; cbn [fst snd].
  - repeat split; try apply strip_idempotent; try discriminate.
    unfold strip. apply single_line_rstrip, single_line_lstrip.
    now apply (re_search_single_line content).
  - repeat split; try apply strip_idempotent; try discriminate.
Qed.

(** ** The identity of the two runs *)

(** X1.  When the instructions file holds no visual-check directive,
    the generation run and the feedback run derive the same benchmark
    identity from it. *)
Theorem same_identity_without_directive (content : string) :
  Descriptions.re_search content = None ->
  Descriptions.extract_benchmark_name
    (fst (Descriptions.load_instructions (Some content)))
  = FeedbackProcessor.extract_benchmark_name_from_file (Some content).
Proof.
  intros Hnone. rewrite extract_benchmark_name_from_file_raw.
  unfold Descriptions.load_instructions. rewrite Hnone. cbn [fst].
  unfold Descriptions.extract_benchmark_name, Descriptions.key_words_of.
  now rewrite !split_tokens, tokens_lower_strip.
Qed.

Lemma same_identity_without_directive_witness :
  Descriptions.extract_benchmark_name
    (fst (Descriptions.load_instructions
            (Some "  Analyze retail companies ")))
  = FeedbackProcessor.extract_benchmark_name_from_file
      (Some "  Analyze retail companies ").
Proof.
  apply (same_identity_without_directive "  Analyze retail companies ").
  vm_compute. reflexivity.
Defined.

Lemma load_instructions_trimmed_witness :
  fst (Descriptions.load_instructions None) = ""
  /\ snd (Descriptions.load_instructions None) = "".
Proof.
  destruct (load_instructions_trimmed None) as (_ & _ & _ & Hmissing).
  apply Hmissing. reflexivity.
Defined.

(** ** A directive on the first line *)

Lemma lazy_dots_step (c c' : ascii) (s : string) :
  Descriptions.lazy_dots (String c (String c' s))
  = if Descriptions.is_newline c then None
    else if Descriptions.is_newline c' then Some (String c "", 2)
         else match Descriptions.lazy_dots (String c' s) with
              | Some (g, n) => Some (String c g, S n)
              | None => None
              end.
Proof. reflexivity. Qed.

Lemma lazy_dots_line (d rest : string) :
  d <> "" ->
  Spec.single_line d = true ->
  Descriptions.lazy_dots (d ^^ PromptBuilder.nl ^^ rest)
  = Some (d, S (String.length d)).
Proof.
  induction d as [|c d IH]; [intros H; now elim H|].
  intros _ Hline. cbn [Spec.single_line] in Hline.
  apply andb_true_iff in Hline. destruct Hline as [Hc Hd].
  apply negb_true_iff in Hc.
  destruct d as [|c' d'].
  - change (String c "" ^^ PromptBuilder.nl ^^ rest)
      with (String c (String "010" rest)).
    rewrite lazy_dots_step, Hc. reflexivity.
  - change (String c (String c' d') ^^ PromptBuilder.nl ^^ rest)
      with (String c (String c' (d' ^^ PromptBuilder.nl ^^ rest))).
    rewrite lazy_dots_step, Hc.
    assert (Hc' : Descriptions.is_newline c' = false).
    { cbn [Spec.single_line] in Hd. apply andb_true_iff in Hd.
      now apply negb_true_iff. }
    rewrite Hc'.
    change (String c' (d' ^^ PromptBuilder.nl ^^ rest))
      with (String c' d' ^^ PromptBuilder.nl ^^ rest).
    rewrite IH by (discriminate || exact Hd). reflexivity.
Qed.

Lemma re_sub_absent (s : string) :
  Descriptions.re_search s = None -> Descriptions.re_sub s = s.
Proof.
  unfold Descriptions.re_sub. induction s as [|c s IH]; [reflexivity|].
  cbn [Descriptions.re_search Descriptions.re_sub_from].
  destruct (Descriptions.match_here (String c s)) as [[g n]|];
    [discriminate|].
  intros H. now rewrite (IH H).
Qed.

Lemma re_sub_from_skip (a s : string) :
  Descriptions.re_sub_from (String.length a) (a ^^ s)
  = Descriptions.re_sub_from 0 s.
Proof. induction a as [|c a IH]; [reflexivity | exact IH]. Qed.

Lemma literal_ic_self (lit s : string)
      (k : string -> option (string * nat)) :
  Descriptions.literal_ic lit (lit ^^ s) k
  = match k s with
    | Some (g, n) => Some (g, String.length lit + n)
    | None => None
    end.
Proof.
  induction lit as [|p lit IH].
  - cbn. destruct (k s) as [[g n]|]; reflexivity.
  - cbn [Descriptions.literal_ic String.append String.length].
    rewrite Ascii.eqb_refl, IH.
    destruct (k s) as [[g n]|]; reflexivity.
Qed.

(** X25.  A file that opens with the line [VISUAL_CHECK: d], where [d]
    starts with a character that is not whitespace, followed by text
    without another directive, is split in two: the text, trimmed, as
    instructions, and [d], trimmed, as visual check. *)
Theorem directive_on_first_line (c : ascii) (d rest : string) :
  isspace c = false ->
  Spec.single_line (String c d) = true ->
  Descriptions.re_search rest = None ->
  Descriptions.load_instructions
    (Some ("VISUAL_CHECK: " ^^ String c d ^^ PromptBuilder.nl ^^ rest))
  = (strip rest, strip (String c d)).
Proof.
  intros Hc Hline Hrest.
  assert (Hws : Descriptions.ws_star
                  (String " " (String c d ^^ PromptBuilder.nl ^^ rest))
                = Some (String c d, S (S (String.length (String c d))))).
  { change (String c d ^^ PromptBuilder.nl ^^ rest)
      with (String c (d ^^ PromptBuilder.nl ^^ rest)).
    cbn [Descriptions.ws_star].
    change (isspace " ") with true. cbv iota. rewrite Hc.
    change (String c (d ^^ PromptBuilder.nl ^^ rest))
      with (String c d ^^ PromptBuilder.nl ^^ rest).
    rewrite lazy_dots_line by (discriminate || exact Hline).
    reflexivity. }
  assert (Hhere : Descriptions.match_here
                    ("VISUAL_CHECK: " ^^ String c d ^^ PromptBuilder.nl ^^ rest)
                  = Some (String c d,
                          13 + S (S (String.length (String c d))))).
  { unfold Descriptions.match_here.
    change ("VISUAL_CHECK: " ^^ String c d ^^ PromptBuilder.nl ^^ rest)
      with ("VISUAL_CHECK:"
            ^^ String " " (String c d ^^ PromptBuilder.nl ^^ rest)).
    rewrite literal_ic_self, Hws. reflexivity. }
  unfold Descriptions.load_instructions.
  assert (Hsearch : Descriptions.re_search
                      ("VISUAL_CHECK: " ^^ String c d
                       ^^ PromptBuilder.nl ^^ rest)
                    = Some (String c d)).
  { change ("VISUAL_CHECK: " ^^ String c d ^^ PromptBuilder.nl ^^ rest)
      with (String "V" ("ISUAL_CHECK: " ^^ String c d
                        ^^ PromptBuilder.nl ^^ rest)) at 1.
    cbn [Descriptions.re_search].
    change (String "V" ("ISUAL_CHECK: " ^^ String c d
                        ^^ PromptBuilder.nl ^^ rest))
      with ("VISUAL_CHECK: " ^^ String c d ^^ PromptBuilder.nl ^^ rest).
    now rewrite Hhere. }
  rewrite Hsearch. f_equal.
  f_equal. unfold Descriptions.re_sub.
  change ("VISUAL_CHECK: " ^^ String c d ^^ PromptBuilder.nl ^^ rest)
    with (String "V" ("ISUAL_CHECK: " ^^ String c d
                      ^^ PromptBuilder.nl ^^ rest)) at 1.
  cbn [Descriptions.re_sub_from].
  change (String "V" ("ISUAL_CHECK: " ^^ String c d
                      ^^ PromptBuilder.nl ^^ rest))
    with ("VISUAL_CHECK: " ^^ String c d ^^ PromptBuilder.nl ^^ rest).
  rewrite Hhere.
  replace ("ISUAL_CHECK: " ^^ String c d ^^ PromptBuilder.nl ^^ rest)
    with (("ISUAL_CHECK: " ^^ String c d ^^ PromptBuilder.nl) ^^ rest)
    by (now rewrite !append_assoc).
  replace (Nat.pred (13 + S (S (String.length (String c d)))))
    with (String.length ("ISUAL_CHECK: " ^^ String c d ^^ PromptBuilder.nl)).
  - rewrite re_sub_from_skip. now apply re_sub_absent.
  - rewrite !length_append. cbn [String.length PromptBuilder.nl]. lia.
Qed.

Lemma directive_on_first_line_witness :
  Descriptions.load_instructions
    (Some ("VISUAL_CHECK: " ^^ "shopping cart icon" ^^ PromptBuilder.nl
           ^^ "Analyze retail companies"))
  = ("Analyze retail companies", "shopping cart icon").
Proof.
  apply (directive_on_first_line "s" "hopping cart icon"
           "Analyze retail companies"); reflexivity.
Defined.

End InstructionFacts.
(* ===================================================================== *)
(** * More on the feedback loop *)
(* ===================================================================== *)

Module FeedbackFacts.

Import Py FeedbackProcessor FeedbackProofs.

(** A run over a table that holds a correction, spelled out. *)
Lemma process_feedback_unfold (clock : nat -> string) (fs : Files)
      (df : list Row) :
  output_file fs = Some df ->
  filter has_correction df <> [] ->
  process_feedback clock fs
  = match process_rows clock (read_instructions (instructions_file fs))
            {| training_data := training_store fs;
               feedback_log := feedback_log_file fs;
               new_examples := 0;
               ticks := 0 |}
            (filter has_correction df) with
    | None => (fs, Raised)
    | Some st =>
        ({| output_file := output_file fs;
            instructions_file := instructions_file fs;
            training_files :=
              save_training
                (training_file_of
                   (extract_benchmark_name_from_file (instructions_file fs)))
                (training_data st) (training_files fs);
            feedback_log_file := feedback_log st |},
         Saved (new_examples st))
    end.
Proof.
  intros Hdf Hsome. unfold process_feedback, training_store.
  destruct (output_file fs) as [df0|]; [|discriminate].
  injection Hdf as ->.
  destruct (filter has_correction df); [now elim Hsome | reflexivity].
Qed.

Lemma raises_spec (row : Row) :
  Behaviour.raises row = true
  <-> AI_Description row = None \/ Your_Correction row = None.
Proof.
  unfold Behaviour.raises.
  destruct (AI_Description row), (Your_Correction row);
    split; intros H; try reflexivity; try discriminate; auto;
    destruct H; discriminate.
Qed.

(** X5.  A correction on a row that holds no description makes the
    whole run fail: nothing is saved, not even the records of the rows
    handled before it. *)
Theorem exception_saves_nothing (clock : nat -> string) (fs : Files)
        (df : list Row) (row : Row) :
  output_file fs = Some df ->
  In row df ->
  has_correction row = true ->
  AI_Description row = None ->
  process_feedback clock fs = (fs, Raised).
Proof.
  intros Hdf Hin Hcorr Hai.
  assert (Hrow : In row (filter has_correction df))
    by (apply filter_In; now split).
  rewrite (process_feedback_unfold clock fs df Hdf)
    by (intros Hnil; rewrite Hnil in Hrow; destruct Hrow).
  match goal with
  | |- context [process_rows ?c ?i ?s ?l] =>
      destruct (process_rows c i s l) as [st|] eqn:Hrows
  end; [|reflexivity].
  exfalso.
  assert (Hnone : process_rows clock (read_instructions (instructions_file fs))
                    {| training_data := training_store fs;
                       feedback_log := feedback_log_file fs;
                       new_examples := 0; ticks := 0 |}
                    (filter has_correction df) = None).
  { apply process_rows_raises. exists row. split; [exact Hrow | now left]. }
  congruence.
Qed.

Lemma exception_saves_nothing_witness :
  let blank := Inputs.undescribed_row in
  let fs := Inputs.fresh_files "Analyze retail companies"
              [Inputs.acme_row_1; blank] in
  process_feedback Inputs.noon fs = (fs, Raised).
Proof.
  intros blank fs.
  apply (exception_saves_nothing Inputs.noon fs
           [Inputs.acme_row_1; blank] blank);
    [reflexivity | right; left; reflexivity | reflexivity | reflexivity].
Defined.

(** ** What a run appends *)

Section Account.

Variable clock : nat -> string.
Variable instructions : string.

(** One iteration, accounted for. *)
Lemma process_row_account (st st1 : LoopState) (row : Row) :
  process_row clock instructions st row = Some st1 ->
  exists added logged,
    training_data st1 = training_data st ++ added
    /\ feedback_log st1 = feedback_log st ++ logged
    /\ new_examples st1 = new_examples st + List.length added
    /\ ticks st1 = ticks st + List.length logged
    /\ List.length added <= List.length logged
    /\ map (fun e => Behaviour.told (record_fields e)) logged
       = map Behaviour.told_by_row (filter Behaviour.differs [row])
    /\ map (fun e => timestamp (record_fields e)) logged
       = map clock (seq (ticks st) (List.length logged))
    /\ Forall (fun e => benchmark_context (record_fields e)
                        = Spec.context_of instructions) logged
    /\ Forall (fun t => In t (map record_fields logged)) added.
Proof.
  unfold process_row, Behaviour.differs. rewrite context_of_slice.
  cbn [filter].
  destruct (AI_Description row) as [ai_desc|] eqn:Hai; [|discriminate].
  destruct (Your_Correction row) as [human_desc|] eqn:Hhuman; [|discriminate].
  destruct (String.eqb (strip ai_desc) (strip human_desc)).
  - intros [= <-]. exists [], []. cbn [negb map List.length seq].
    rewrite !app_nil_r, !Nat.add_0_r. repeat split; auto.
  - intros [= <-]. cbn [training_data feedback_log new_examples ticks negb].
    match goal with
    | |- context [feedback_log st ++ [?e]] => set (entry := e)
    end.
    destruct (negb (is_duplicate _ _ _)).
    + exists [record_fields entry], [entry].
      cbn [map List.length seq]. unfold Behaviour.told, Behaviour.told_by_row.
      rewrite Hai, Hhuman. cbn [record_fields entry url html_snippet
        ai_description human_description timestamp benchmark_context].
      repeat split; auto; try lia.
      repeat constructor.
    + exists [], [entry].
      cbn [map List.length seq]. unfold Behaviour.told, Behaviour.told_by_row.
      rewrite Hai, Hhuman. cbn [record_fields entry url html_snippet
        ai_description human_description timestamp benchmark_context].
      rewrite app_nil_r, Nat.add_0_r. repeat split; auto; try lia.
Qed.

(** The loop, accounted for: the records added to the training data,
    the entries added to the log, and how the counters move. *)
Lemma process_rows_account (rows : list Row) (st st' : LoopState) :
  process_rows clock instructions st rows = Some st' ->
  exists added logged,
    training_data st' = training_data st ++ added
    /\ feedback_log st' = feedback_log st ++ logged
    /\ new_examples st' = new_examples st + List.length added
    /\ ticks st' = ticks st + List.length logged
    /\ List.length added <= List.length logged
    /\ map (fun e => Behaviour.told (record_fields e)) logged
       = map Behaviour.told_by_row (filter Behaviour.differs rows)
    /\ map (fun e => timestamp (record_fields e)) logged
       = map clock (seq (ticks st) (List.length logged))
    /\ Forall (fun e => benchmark_context (record_fields e)
                        = Spec.context_of instructions) logged
    /\ Forall (fun t => In t (map record_fields logged)) added.
Proof.
  revert st. induction rows as [|row rows IH]; intros st; cbn [process_rows].
  - intros [= <-]. exists [], []. cbn [map List.length seq filter].
    rewrite !app_nil_r, !Nat.add_0_r. repeat split; auto.
  - destruct (process_row clock instructions st row) as [st1|] eqn:Hrow;
      [|discriminate].
    intros Hrest.
    destruct (process_row_account _ _ _ Hrow)
      as (a1 & l1 & Ha1 & Hl1 & Hn1 & Ht1 & Hle1 & Htold1 & Hts1 & Hc1 & Hin1).
    destruct (IH _ Hrest)
      as (a2 & l2 & Ha2 & Hl2 & Hn2 & Ht2 & Hle2 & Htold2 & Hts2 & Hc2 & Hin2).
    exists (a1 ++ a2), (l1 ++ l2).
    rewrite !length_app, !map_app.
    split; [now rewrite Ha2, Ha1, app_assoc|].
    split; [now rewrite Hl2, Hl1, app_assoc|].
    split; [lia|]. split; [lia|]. split; [lia|].
    split.
    { rewrite Htold1, Htold2. cbn [filter].
      destruct (Behaviour.differs row); reflexivity. }
    split.
    { rewrite seq_app, map_app, Hts1, Hts2, Ht1. reflexivity. }
    split; [apply Forall_app; now split|].
    apply Forall_app. split.
    + eapply Forall_impl; [|exact Hin1].
      intros t Ht. apply in_or_app. now left.
    + eapply Forall_impl; [|exact Hin2].
      intros t Ht. apply in_or_app. now right.
Qed.

End Account.

Lemma length_slice_to (n : nat) (s : string) :
  String.length (slice_to n s) <= n.
Proof.
  revert s. induction n as [|n IH]; intros [|c s]; cbn; try lia.
  specialize (IH s). lia.
Qed.

Lemma differs_spec (row : Row) : Behaviour.differs row = Spec.differs row.
Proof.
  unfold Behaviour.differs, Spec.differs.
  destruct (AI_Description row); [|reflexivity].
  destruct (Your_Correction row); [|reflexivity].
  now rewrite !PyFacts.strip_trim.
Qed.

Lemma differing_corrections (df : list Row) :
  filter Spec.differs (filter Spec.is_correction df)
  = filter Behaviour.differs (filter has_correction df).
Proof.
  rewrite (filter_ext Spec.is_correction has_correction is_correction_has).
  apply filter_ext. intros row. symmetry. apply differs_spec.
Qed.

(** X8.  A run that saves appends to the log, in the order of the
    table, one entry for each correction that differs from its
    description once trimmed, with the url, the snippet and the two
    texts of its row as they are in the table, the k-th entry stamped
    with the k-th reading of the clock.  The count it prints is the
    number of records it appended to the training store, each of them
    the record of one of the new log entries. *)
Theorem run_account (clock : nat -> string) (fs fs' : Files)
        (df : list Row) (n : nat) :
  output_file fs = Some df ->
  process_feedback clock fs = (fs', Saved n) ->
  exists added logged,
    Spec.store_of fs' = Spec.store_of fs ++ added
    /\ feedback_log_file fs' = feedback_log_file fs ++ logged
    /\ n = List.length added
    /\ n <= List.length logged
    /\ map (fun e => Behaviour.told (record_fields e)) logged
       = map Behaviour.told_by_row
           (filter Spec.differs (filter Spec.is_correction df))
    /\ map (fun e => timestamp (record_fields e)) logged
       = map clock (seq 0 (List.length logged))
    /\ Forall (fun t => In t (map record_fields logged)) added.
Proof.
  intros Hdf Hrun. rewrite differing_corrections.
  assert (Hsome : filter has_correction df <> []).
  { intros Hnil. unfold process_feedback in Hrun.
    rewrite Hdf, Hnil in Hrun. discriminate. }
  rewrite (process_feedback_unfold clock fs df Hdf Hsome) in Hrun.
  match type of Hrun with
  | context [process_rows ?c ?i ?s ?l] =>
      destruct (process_rows c i s l) as [st|] eqn:Hrows
  end; [|discriminate].
  injection Hrun as <- <-.
  destruct (process_rows_account _ _ _ _ _ Hrows)
    as (added & logged & Ha & Hl & Hn & _ & Hle & Htold & Hts & _ & Hin).
  cbn [training_data feedback_log new_examples ticks] in *.
  exists added, logged.
  rewrite <- !training_store_store_of, training_store_saved.
  cbn [feedback_log_file].
  repeat split; auto. lia.
Qed.

(** Three corrections, the second one echoing its description up to
    whitespace: two entries are logged and one record is filed. *)
Lemma run_account_witness :
  let fs := Inputs.fresh_files "Analyze retail companies"
              [Inputs.acme_row_1; Inputs.echo_row; Inputs.acme_row_2] in
  exists added logged,
    Spec.store_of (fst (process_feedback Inputs.noon fs))
    = Spec.store_of fs ++ added
    /\ feedback_log_file (fst (process_feedback Inputs.noon fs))
       = feedback_log_file fs ++ logged
    /\ 1 = List.length added
    /\ 1 <= List.length logged
    /\ map (fun e => Behaviour.told (record_fields e)) logged
       = map Behaviour.told_by_row [Inputs.acme_row_1; Inputs.acme_row_2]
    /\ map (fun e => timestamp (record_fields e)) logged
       = map Inputs.noon (seq 0 (List.length logged))
    /\ Forall (fun t => In t (map record_fields logged)) added.
Proof.
  intros fs.
  apply (run_account Inputs.noon fs (fst (process_feedback Inputs.noon fs))
           [Inputs.acme_row_1; Inputs.echo_row; Inputs.acme_row_2] 1);
    reflexivity.
Defined.

(** X9.  Every record a run appends to a training store carries, as
    benchmark context, the first 200 characters of the content of the
    instructions file once trimmed (the empty text without a file):
    never more than 200 characters, whatever the length of the file. *)
Theorem appended_context_bounded (clock : nat -> string) (fs : Files)
        (path : string) :
  exists added,
    training_files (fst (process_feedback clock fs)) path
    = training_files fs path ++ added
    /\ Forall (fun t =>
                 benchmark_context t
                 = match instructions_file fs with
                   | Some content => Spec.first_chars 200 (Spec.trim content)
                   | None => ""
                   end
                 /\ String.length (benchmark_context t) <= 200) added.
Proof.
  change (match instructions_file fs with
          | Some content => Spec.first_chars 200 (Spec.trim content)
          | None => ""
          end) with (Spec.context_of_file (instructions_file fs)).
  assert (Hnone : exists added,
             training_files fs path = training_files fs path ++ added
             /\ Forall (fun t =>
                          benchmark_context t
                          = Spec.context_of_file (instructions_file fs)
                          /\ String.length (benchmark_context t) <= 200)
                       added)
    by (exists []; rewrite app_nil_r; auto).
  destruct (output_file fs) as [df|] eqn:Hdf.
  2:{ unfold process_feedback. rewrite Hdf. exact Hnone. }
  pose proof (process_feedback_stores clock fs df Hdf) as Hstores.
  cbv zeta in Hstores.
  destruct (process_rows _ _ _ _) as [st|] eqn:Hrows.
  2:{ destruct Hstores as [Hfiles _]. rewrite Hfiles. exact Hnone. }
  destruct Hstores as [Hfiles _]. rewrite Hfiles.
  destruct (String.eqb path _) eqn:Hpath; [|exact Hnone].
  apply String.eqb_eq in Hpath. subst path.
  apply process_rows_added in Hrows.
  destruct Hrows as (added & Hadded & Hall). cbn [training_data] in Hadded.
  exists added. split; [exact Hadded|].
  eapply Forall_impl; [|exact Hall].
  intros t Ht. cbn beta in Ht. rewrite Ht, context_of_file_read.
  split; [reflexivity|].
  rewrite <- context_of_file_read, <- context_of_slice.
  apply length_slice_to.
Qed.

(** ** Running the processor again *)

Lemma is_duplicate_no_url (context : string) (data : list TrainingRecord) :
  is_duplicate None context data = false.
Proof.
  unfold is_duplicate. induction data as [|t data IH]; [reflexivity|].
  cbn [existsb]. rewrite IH. destruct (url t); reflexivity.
Qed.

Lemma process_rows_counts_no_url (clock : nat -> string)
      (instructions : string) (rows : list Row) (st st' : LoopState) :
  process_rows clock instructions st rows = Some st' ->
  new_examples st
  + List.length (filter (fun r => Behaviour.differs r
                                  && negb (Behaviour.has_url r)) rows)
  <= new_examples st'.
Proof.
  revert st. induction rows as [|row rows IH]; intros st; cbn [process_rows].
  - intros [= <-]. cbn. lia.
  - destruct (process_row clock instructions st row) as [st1|] eqn:Hrow;
      [|discriminate].
    intros Hrest. specialize (IH _ Hrest). cbn [filter].
    unfold process_row in Hrow. rewrite context_of_slice in Hrow.
    destruct (AI_Description row) as [ai_desc|] eqn:Hai; [|discriminate].
    destruct (Your_Correction row) as [human_desc|] eqn:Hhuman;
      [|discriminate].
    assert (Hdiffers : Behaviour.differs row
                       = negb (String.eqb (strip ai_desc) (strip human_desc)))
      by (unfold Behaviour.differs; now rewrite Hai, Hhuman).
    assert (Hurl : Behaviour.has_url row
                   = match URL row with Some _ => true | None => false end)
      by reflexivity.
    rewrite Hdiffers, Hurl.
    destruct (String.eqb (strip ai_desc) (strip human_desc)).
    + injection Hrow as <-. cbn [negb andb]. exact IH.
    + injection Hrow as <-. cbn [new_examples negb andb] in IH |- *.
      destruct (URL row).
      * cbn [negb].
        match type of IH with
        | context [if ?b then _ else _] => destruct b
        end; lia.
      * rewrite is_duplicate_no_url in IH. cbn [negb List.length] in IH |- *.
        lia.
Qed.

(** X7.  A differing correction on a row without url is never taken
    for a duplicate: every run that saves files it anew, whatever the
    training store already holds, and counts it among the new
    examples. *)
Theorem rows_without_url_filed_anew (clock : nat -> string) (fs fs' : Files)
        (df : list Row) (n : nat) :
  output_file fs = Some df ->
  process_feedback clock fs = (fs', Saved n) ->
  List.length
    (filter (fun r => Behaviour.differs r && negb (Behaviour.has_url r))
            (filter has_correction df))
  <= n.
Proof.
  intros Hdf Hrun.
  assert (Hsome : filter has_correction df <> []).
  { intros Hnil. unfold process_feedback in Hrun.
    rewrite Hdf, Hnil in Hrun. discriminate. }
  rewrite (process_feedback_unfold clock fs df Hdf Hsome) in Hrun.
  match type of Hrun with
  | context [process_rows ?c ?i ?s ?l] =>
      destruct (process_rows c i s l) as [st|] eqn:Hrows
  end; [|discriminate].
  injection Hrun as _ <-.
  apply process_rows_counts_no_url in Hrows. exact Hrows.
Qed.

(** The same row, filed by a first run and filed again by a second. *)
Lemma rows_without_url_filed_anew_witness :
  let first := Inputs.fresh_files "Analyze retail companies"
                 [Inputs.nameless_row] in
  let again := fst (process_feedback Inputs.noon first) in
  snd (process_feedback Inputs.noon again) = Saved 1
  /\ List.length
       (filter (fun r => Behaviour.differs r && negb (Behaviour.has_url r))
               (filter has_correction [Inputs.nameless_row]))
     <= 1.
Proof.
  intros first again. split; [reflexivity|].
  apply (rows_without_url_filed_anew Inputs.noon again
           (fst (process_feedback Inputs.noon again)) [Inputs.nameless_row] 1);
    reflexivity.
Defined.

(** After the loop, every row with a url that differs finds a record of
    its pair in the training data. *)
Lemma process_rows_covers (clock : nat -> string) (instructions : string)
      (rows : list Row) (st st' : LoopState) (row : Row) (u : string) :
  process_rows clock instructions st rows = Some st' ->
  In row rows ->
  Behaviour.differs row = true ->
  URL row = Some u ->
  is_duplicate (Some u) (Spec.context_of instructions) (training_data st')
  = true.
Proof.
  intros Hrows Hin Hdiffers Hurl.
  rewrite is_duplicate_count.
  destruct (process_rows_effect clock instructions u rows st st' Hrows)
    as (Hcount & _).
  rewrite Hcount.
  assert (Hfor : In row (filter (Spec.differing_for u) rows)).
  { apply filter_In. split; [exact Hin|].
    unfold Spec.differing_for, Spec.differs. rewrite Hurl, url_is_refl.
    unfold Behaviour.differs in Hdiffers.
    destruct (AI_Description row); [|discriminate].
    destruct (Your_Correction row); [|discriminate].
    now rewrite <- !PyFacts.strip_trim. }
  destruct (filter (Spec.differing_for u) rows); [destruct Hfor|].
  unfold Spec.bump. destruct (Spec.count _ _ _ =? 0) eqn:Hz; [reflexivity|].
  now rewrite Hz.
Qed.

(** A loop over rows that are all filed already adds no record. *)
Lemma process_rows_quiet (clock : nat -> string) (instructions : string)
      (rows : list Row) (st : LoopState) :
  (forall row, In row rows ->
     Behaviour.raises row = false
     /\ (Behaviour.differs row = true ->
         is_duplicate (URL row) (Spec.context_of instructions)
                      (training_data st) = true)) ->
  exists st',
    process_rows clock instructions st rows = Some st'
    /\ training_data st' = training_data st
    /\ new_examples st' = new_examples st.
Proof.
  revert st. induction rows as [|row rows IH]; intros st Hall.
  - exists st. now repeat split.
  - cbn [process_rows].
    destruct (Hall row (or_introl eq_refl)) as [Hraises Hdup].
    unfold Behaviour.raises in Hraises. unfold Behaviour.differs in Hdup.
    unfold process_row.
    destruct (AI_Description row) as [ai_desc|]; [|discriminate].
    destruct (Your_Correction row) as [human_desc|]; [|discriminate].
    destruct (String.eqb (strip ai_desc) (strip human_desc)).
    + apply IH. intros r Hr. apply Hall. now right.
    + rewrite context_of_slice.
      cbn [benchmark_context]. rewrite (Hdup eq_refl). cbn [negb].
      match goal with
      | |- context [process_rows _ _ ?s rows] =>
          destruct (IH s) as (st' & Hrows & Hdata & Hcount)
      end.
      * intros r Hr. cbn [training_data]. apply Hall. now right.
      * exists st'. now repeat split.
Qed.

(** X6.  Processing the same table again, over the stores the first
    run left and the same instructions, adds nothing to any training
    store when every corrected row has a url: the second run counts no
    new example. *)
Theorem rerun_adds_nothing (clock1 clock2 : nat -> string) (fs : Files)
        (df : list Row) :
  output_file fs = Some df ->
  (forall row, In row df -> has_correction row = true ->
               Behaviour.has_url row = true) ->
  snd (process_feedback clock1 fs) <> Raised ->
  let fs1 := fst (process_feedback clock1 fs) in
  (forall path,
      training_files (fst (process_feedback clock2 fs1)) path
      = training_files fs1 path)
  /\ (filter has_correction df <> [] ->
      snd (process_feedback clock2 fs1) = Saved 0).
Proof.
  intros Hdf Hurls Hok.
  destruct (filter has_correction df) as [|r0 rs] eqn:Hcorr.
  { cbv zeta. unfold process_feedback. rewrite Hdf, Hcorr. cbn [fst].
    rewrite Hdf, Hcorr. cbn [fst]. split; [reflexivity | now intros H]. }
  assert (Hsome : filter has_correction df <> [])
    by (rewrite Hcorr; discriminate).
  rewrite <- Hcorr in *. clear r0 rs Hcorr.
  rewrite (process_feedback_unfold clock1 fs df Hdf Hsome) in Hok |- *.
  match type of Hok with
  | context [process_rows ?c ?i ?s ?l] =>
      destruct (process_rows c i s l) as [st1|] eqn:Hrows
  end; [|now elim Hok].
  cbn [fst]. clear Hok.
  match goal with
  | |- context [process_feedback clock2 ?f] => set (fs1 := f)
  end.
  assert (Hdf1 : output_file fs1 = Some df) by exact Hdf.
  rewrite (process_feedback_unfold clock2 fs1 df Hdf1 Hsome).
  assert (Hstore : training_store fs1 = training_data st1)
    by apply training_store_saved.
  rewrite Hstore.
  change (instructions_file fs1) with (instructions_file fs).
  match goal with
  | |- context [process_rows clock2 ?i ?s ?l] =>
      destruct (process_rows_quiet clock2 i l s) as (st2 & Hrows2 & Hdata & Hnew)
  end.
  { intros row Hrow. cbn [training_data]. split.
    - destruct (Behaviour.raises row) eqn:Hr; [|reflexivity].
      apply raises_spec in Hr.
      assert (Hnone : process_rows clock1
                        (read_instructions (instructions_file fs))
                        {| training_data := training_store fs;
                           feedback_log := feedback_log_file fs;
                           new_examples := 0; ticks := 0 |}
                        (filter has_correction df) = None)
        by (apply process_rows_raises; now exists row).
      congruence.
    - intros Hdiffers.
      apply filter_In in Hrow as Hrow'. destruct Hrow' as [Hin Hhas].
      specialize (Hurls row Hin Hhas). unfold Behaviour.has_url in Hurls.
      destruct (URL row) as [u|] eqn:Hu; [|discriminate].
      now apply (process_rows_covers clock1 _ _ _ _ row u Hrows). }
  rewrite Hrows2. cbn [fst snd training_files].
  cbn [new_examples training_data] in Hdata, Hnew. rewrite Hdata, Hnew.
  split; [|reflexivity].
  intros path. unfold fs1. cbn [training_files]. unfold save_training.
  destruct (String.eqb path _); reflexivity.
Qed.

Lemma rerun_adds_nothing_witness :
  let fs := Inputs.fresh_files "Analyze retail companies"
              [Inputs.acme_row_1; Inputs.echo_row; Inputs.acme_row_2] in
  let fs1 := fst (process_feedback Inputs.noon fs) in
  snd (process_feedback Inputs.noon fs1) = Saved 0.
Proof.
  intros fs fs1.
  apply (rerun_adds_nothing Inputs.noon Inputs.noon fs
           [Inputs.acme_row_1; Inputs.echo_row; Inputs.acme_row_2]).
  - reflexivity.
  - intros row [<- | [<- | [<- | []]]] _; reflexivity.
  - vm_compute. discriminate.
  - vm_compute. discriminate.
Defined.

End FeedbackFacts.

(* ===================================================================== *)
(** * More on the prompt *)
(* ===================================================================== *)

Module PromptFacts.

Import Py PyFacts PromptBuilder.

(** ** Occurrences *)

Lemma prefix_append (n t : string) : String.prefix n (n ^^ t) = true.
Proof.
  induction n as [|c n IH]; [destruct t; reflexivity|].
  cbn. destruct (ascii_dec c c) as [_|Hne]; [exact IH | now elim Hne].
Qed.

Lemma prefix_split (n s : string) :
  String.prefix n s = true -> exists t, s = n ^^ t.
Proof.
  revert s. induction n as [|c n IH]; intros s H.
  - now exists s.
  - destruct s as [|x s]; [discriminate|]. cbn in H.
    destruct (ascii_dec c x) as [->|]; [|discriminate].
    destruct (IH s H) as (t & ->). now exists t.
Qed.

(** [needle in s] says that [s] is some text, the needle, some text. *)
Lemma contains_iff (n s : string) :
  contains n s = true <-> exists a b, s = a ^^ n ^^ b.
Proof.
  split.
  - induction s as [|x s IH]; cbn [contains]; intros H.
    + rewrite orb_false_r in H. destruct (prefix_split _ _ H) as (t & Ht).
      now exists "", t.
    + apply orb_true_iff in H. destruct H as [H | H].
      * destruct (prefix_split _ _ H) as (t & Ht). now exists "", t.
      * destruct (IH H) as (a & b & ->). now exists (String x a), b.
  - intros (a & b & ->). induction a as [|x a IH].
    + cbn [String.append]. destruct (n ^^ b) eqn:Hnb; cbn [contains];
        rewrite <- Hnb, prefix_append; reflexivity.
    + cbn [String.append contains]. rewrite IH. apply orb_true_r.
Qed.

Lemma contains_here (n t : string) : contains n (n ^^ t) = true.
Proof. apply contains_iff. now exists "", t. Qed.

Lemma contains_append_r (n a b : string) :
  contains n b = true -> contains n (a ^^ b) = true.
Proof.
  rewrite !contains_iff. intros (x & y & ->).
  exists (a ^^ x), y. now rewrite append_assoc.
Qed.

Lemma contains_append_l (n a b : string) :
  contains n a = true -> contains n (a ^^ b) = true.
Proof.
  rewrite !contains_iff. intros (x & y & ->).
  exists x, (y ^^ b). now rewrite !append_assoc.
Qed.

Lemma contains_trans (a b c : string) :
  contains a b = true -> contains b c = true -> contains a c = true.
Proof.
  rewrite !contains_iff. intros (x & y & ->) (x' & y' & ->).
  exists (x' ^^ x), (y ^^ y'). now rewrite !append_assoc.
Qed.

(** X10.  Whatever the inputs, the prompt holds the instructions and
    the website text, whole and unchanged. *)
Theorem prompt_holds_instructions_and_text
        (website_data : WebsiteData) (instructions visual_check : string)
        (training_examples : list Example)
        (mistake_patterns : list MistakePattern)
        (ui_signals : option UISignals) :
  let prompt :=
    build_prompt website_data instructions visual_check training_examples
      mistake_patterns ui_signals in
  contains instructions prompt = true
  /\ contains (text_content website_data) prompt = true.
Proof.
  cbv zeta. unfold build_prompt, assemble.
  split; repeat first [ apply contains_here | apply contains_append_r ].
Qed.

(** ** The examples and the mistake patterns *)

Lemma examples_loop_entries (examples : list Example) (i : nat)
      (section : string) :
  examples_loop i examples section
  = section ^^ Behaviour.example_entries i examples.
Proof.
  revert i section. induction examples as [|ex rest IH]; intros i section.
  - cbn. now rewrite append_nil_r.
  - cbn [examples_loop Behaviour.example_entries].
    now rewrite IH, append_assoc.
Qed.

Lemma mistakes_loop_entries (patterns : list MistakePattern)
      (section : string) :
  mistakes_loop patterns section
  = section ^^ Behaviour.mistake_entries patterns.
Proof.
  revert section. induction patterns as [|p rest IH]; intros section.
  - cbn. now rewrite append_nil_r.
  - cbn [mistakes_loop Behaviour.mistake_entries].
    now rewrite IH, append_assoc.
Qed.

Lemma example_entries_hold (examples : list Example) (i k : nat)
      (ex : Example) :
  nth_error examples k = Some ex ->
  contains (example_entry (i + k) ex) (Behaviour.example_entries i examples)
  = true.
Proof.
  revert i k. induction examples as [|e rest IH]; intros i [|k];
    cbn [nth_error]; try discriminate.
  - intros [= ->]. rewrite Nat.add_0_r. cbn [Behaviour.example_entries].
    apply contains_here.
  - intros Hk. cbn [Behaviour.example_entries]. apply contains_append_r.
    replace (i + S k) with (S i + k) by lia. now apply IH.
Qed.

Lemma mistake_entries_hold (patterns : list MistakePattern)
      (p : MistakePattern) :
  In p patterns ->
  contains (mistake_entry p) (Behaviour.mistake_entries patterns) = true.
Proof.
  induction patterns as [|q rest IH]; [intros []|].
  cbn [Behaviour.mistake_entries]. intros [-> | Hin].
  - apply contains_here.
  - apply contains_append_r. now apply IH.
Qed.

Lemma section_in_prompt (part : string)
      (website_data : WebsiteData) (instructions visual_check : string)
      (training_examples : list Example)
      (mistake_patterns : list MistakePattern)
      (ui_signals : option UISignals) :
  contains part (build_examples_section training_examples) = true
  \/ contains part (build_mistakes_section mistake_patterns) = true ->
  contains part
    (build_prompt website_data instructions visual_check training_examples
       mistake_patterns ui_signals) = true.
Proof.
  unfold build_prompt, assemble. intros [H | H].
  - do 11 apply contains_append_r. now apply contains_append_l.
  - do 13 apply contains_append_r. now apply contains_append_l.
Qed.


(** X11.  With training examples, the prompt holds the header of the
    reference examples and, for the example at position [k], its entry
    numbered [k + 1]: the context it was written under, the first 150
    characters of its snippet and its approved description. *)
Theorem prompt_holds_each_example
        (website_data : WebsiteData) (instructions visual_check : string)
        (training_examples : list Example)
        (mistake_patterns : list MistakePattern)
        (ui_signals : option UISignals) (k : nat) (ex : Example) :
  nth_error training_examples k = Some ex ->
  let prompt :=
    build_prompt website_data instructions visual_check training_examples
      mistake_patterns ui_signals in
  contains examples_header prompt = true
  /\ contains (example_entry (S k) ex) prompt = true.
Proof.
  intros Hk. cbv zeta.
  assert (Hsection : build_examples_section training_examples
                     = examples_header
                       ^^ Behaviour.example_entries 1 training_examples).
  { unfold build_examples_section.
    destruct training_examples; [destruct k; discriminate|].
    apply examples_loop_entries. }
  split; apply section_in_prompt; left; rewrite Hsection.
  - apply contains_here.
  - apply contains_append_r. apply (example_entries_hold _ 1 k ex Hk).
Qed.

Lemma prompt_holds_each_example_witness :
  let ex := {| ex_benchmark_context := Some "Analyze retail companies";
               ex_html_snippet := Some "Anvils since 1920";
               ex_content_snippet := None;
               ex_human_description := Some "Acme manufactures anvils.";
               ex_description := None |} in
  let prompt :=
    build_prompt (Inputs.site_with_links []) "Analyze retail companies" ""
      [ex] [] None in
  contains examples_header prompt = true
  /\ contains (example_entry 1 ex) prompt = true.
Proof.
  intros ex.
  apply (prompt_holds_each_example (Inputs.site_with_links [])
           "Analyze retail companies" "" [ex] [] None 0 ex).
  reflexivity.
Defined.

(** X12.  With mistake patterns, the prompt holds the header of the
    mistakes to avoid and the entry of every pattern: the pattern, the
    wrong conclusion and the correct one. *)
Theorem prompt_holds_each_mistake
        (website_data : WebsiteData) (instructions visual_check : string)
        (training_examples : list Example)
        (mistake_patterns : list MistakePattern)
        (ui_signals : option UISignals) (p : MistakePattern) :
  In p mistake_patterns ->
  let prompt :=
    build_prompt website_data instructions visual_check training_examples
      mistake_patterns ui_signals in
  contains mistakes_header prompt = true
  /\ contains (mistake_entry p) prompt = true.
Proof.
  intros Hin. cbv zeta.
  assert (Hsection : build_mistakes_section mistake_patterns
                     = mistakes_header
                       ^^ Behaviour.mistake_entries mistake_patterns).
  { unfold build_mistakes_section.
    destruct mistake_patterns; [destruct Hin|].
    apply mistakes_loop_entries. }
  split; apply section_in_prompt; right; rewrite Hsection.
  - apply contains_here.
  - apply contains_append_r. now apply mistake_entries_hold.
Qed.

Lemma prompt_holds_each_mistake_witness :
  let p := {| pattern := "free shipping";
              wrong_conclusion := "the company is a retailer";
              correct_conclusion := "look for a shop before concluding" |} in
  let prompt :=
    build_prompt (Inputs.site_with_links []) "Analyze retail companies" ""
      [] [p] None in
  contains mistakes_header prompt = true
  /\ contains (mistake_entry p) prompt = true.
Proof.
  intros p.
  apply (prompt_holds_each_mistake (Inputs.site_with_links [])
           "Analyze retail companies" "" [] [p] None p).
  left. reflexivity.
Defined.

(** ** The signals section *)

(** X13.  The navigation line of the signals section lists at most 15
    links, each holding a relevance keyword, taken in their order from
    the first 30 navigation links; the parts of the section that follow
    it are those of the same site without its links. *)
Theorem navigation_line_capped (website_data : WebsiteData)
        (ui_signals : option UISignals) :
  exists listed,
    List.length listed <= 15
    /\ Forall (fun link => is_relevant link = true) listed
    /\ Spec.drawn_from listed (firstn 30 (nav_links website_data))
    /\ signal_sections website_data ui_signals
       = (match listed with
          | [] => []
          | _ => [Spec.navigation_line listed]
          end)
         ++ signal_sections (Spec.without_links website_data) ui_signals.
Proof.
  exists (firstn 15 (filter is_relevant (firstn 30 (nav_links website_data)))).
  assert (Hsections := PromptProofs.signal_sections_navigation
                         website_data ui_signals).
  split; [apply firstn_le_length|]. split.
  { apply Forall_forall. intros link Hin.
    apply InstructionFacts.in_firstn in Hin.
    apply filter_In in Hin. tauto. }
  split.
  { eapply IdentityProofs.drawn_from_trans;
      [apply IdentityProofs.drawn_from_firstn
      | apply IdentityProofs.drawn_from_filter]. }
  rewrite Hsections.
  destruct (filter is_relevant (firstn 30 (nav_links website_data)));
    reflexivity.
Qed.

End PromptFacts.

(* ===================================================================== *)
(** * From a correction to the next prompt *)
(* ===================================================================== *)

Module LearningLoop.

Import Py FeedbackProcessor FeedbackProofs PromptBuilder.













End LearningLoop.
(* ===================================================================== *)
(** * More on the signal extractor *)
(* ===================================================================== *)

Module SignalFacts.

Import Py PromptBuilder SignalExtractor SignalProofs.

(** The job loop stops at the first pattern that one of its tests
    finds, and leaves exactly one note, about that pattern. *)
Lemma job_loop_first_match (soup : Soup) (patterns : list string)
      (result : UISignals) :
  match Spec.first_match (Behaviour.job_test soup) patterns with
  | Some p =>
      exists kind,
        In kind ["job-board: "; "job-mention: "]
        /\ job_loop soup patterns result = note_job result (kind ^^ p)
  | None => job_loop soup patterns result = result
  end.
Proof.
  induction patterns as [|p rest IH]; [reflexivity|].
  cbn [Spec.first_match job_loop]. unfold Behaviour.job_test at 1.
  destruct (found (find_all soup _)).
  { exists "job-board: ". split; [now left | reflexivity]. }
  cbn [orb].
  destruct (found (find_all soup _)).
  { exists "job-mention: ". split; [right; now left | reflexivity]. }
  exact IH.
Qed.

(** X15.  The flags and the notes of [extract_ui_signals] always
    agree.  The cart search reports a cart exactly when some cart
    pattern is found in a class, an id or an icon of the page, and then
    leaves one note naming the first such pattern of its list; the job
    search does the same with its own patterns; and the detected
    elements are these notes, the cart note first: never more than
    two. *)
Theorem flags_agree_with_notes
        (str_of_tag : Node -> string) (soup : Soup) (visual_check : string) :
  let result := extract_ui_signals str_of_tag soup visual_check in
  exists cart_notes job_notes,
    detected_elements result = cart_notes ++ job_notes
    /\ match Spec.first_match (Spec.cart_test soup) cart_patterns with
       | Some p =>
           has_shopping_cart result = true
           /\ exists kind,
                In kind ["cart-indicator: "; "cart-id: "; "cart-icon: "]
                /\ cart_notes = [kind ^^ p]
       | None => has_shopping_cart result = false /\ cart_notes = []
       end
    /\ match Spec.first_match (Behaviour.job_test soup) job_patterns with
       | Some p =>
           has_job_board result = true
           /\ exists kind,
                In kind ["job-board: "; "job-mention: "]
                /\ job_notes = [kind ^^ p]
       | None => has_job_board result = false /\ job_notes = []
       end.
Proof.
  cbv zeta. unfold extract_ui_signals.
  set (empty := {| has_shopping_cart := false; has_job_board := false;
                   detected_elements := []; custom_check_result := "" |}).
  pose proof (cart_loop_first_match soup cart_patterns empty) as Hcart.
  pose proof (job_loop_first_match soup job_patterns
                (cart_loop soup cart_patterns empty)) as Hjob.
  destruct (Spec.first_match (Spec.cart_test soup) cart_patterns) as [p|];
    destruct (Spec.first_match (Behaviour.job_test soup) job_patterns)
      as [q|].
  - destruct Hcart as (kind & Hkind & Hc). destruct Hjob as (kind' & Hkind' & Hj).
    rewrite Hj, Hc. exists [kind ^^ p], [kind' ^^ q].
    destruct (truthy (strip visual_check));
      cbn [has_shopping_cart has_job_board detected_elements note_job
           note_cart empty app];
      repeat split; eauto.
  - destruct Hcart as (kind & Hkind & Hc).
    rewrite Hjob, Hc. exists [kind ^^ p], [].
    destruct (truthy (strip visual_check));
      cbn [has_shopping_cart has_job_board detected_elements note_job
           note_cart empty app];
      repeat split; eauto.
  - destruct Hjob as (kind' & Hkind' & Hj).
    rewrite Hj, Hcart. exists [], [kind' ^^ q].
    destruct (truthy (strip visual_check));
      cbn [has_shopping_cart has_job_board detected_elements note_job
           note_cart empty app];
      repeat split; eauto.
  - rewrite Hjob, Hcart. exists [], [].
    destruct (truthy (strip visual_check));
      cbn [has_shopping_cart has_job_board detected_elements empty app];
      repeat split; eauto.
Qed.

(** X16.  The custom check answers something whenever it is asked:
    the result is empty exactly when the visual check is blank. *)
Theorem custom_check_answers_when_asked
        (str_of_tag : Node -> string) (soup : Soup) (visual_check : string) :
  let result := extract_ui_signals str_of_tag soup visual_check in
  custom_check_result result = ""
  <-> strip visual_check = "".
Proof.
  cbv zeta. unfold extract_ui_signals.
  destruct (strip visual_check) as [|c rest] eqn:Hvc; cbn [truthy is_empty negb].
  - split; [reflexivity|]. intros _.
    set (empty := {| has_shopping_cart := false; has_job_board := false;
                     detected_elements := []; custom_check_result := "" |}).
    pose proof (cart_loop_first_match soup cart_patterns empty) as Hcart.
    pose proof (job_loop_first_match soup job_patterns
                  (cart_loop soup cart_patterns empty)) as Hjob.
    destruct (Spec.first_match (Spec.cart_test soup) cart_patterns);
      destruct (Spec.first_match (Behaviour.job_test soup) job_patterns);
      repeat match goal with
             | H : exists _, _ |- _ => destruct H as (? & _ & H)
             end;
      rewrite Hjob, ?Hcart; reflexivity.
  - cbn [custom_check_result]. split; [|discriminate].
    intros Hempty. exfalso. revert Hempty.
    unfold process_custom_visual_check. cbv zeta.
    repeat match goal with
           | |- context [if ?b then _ else _] =>
               match type of b with bool => destruct b end
           end; intros Hempty; vm_compute in Hempty; discriminate Hempty.
Qed.

(** X17.  The custom check never finds a shopping cart that the cart
    search has missed: when its result says that a shopping cart element
    was detected, the cart flag is set and the cart note names [cart]. *)
Theorem custom_cart_finding_sets_flag
        (str_of_tag : Node -> string) (soup : Soup) (visual_check : string) :
  let result := extract_ui_signals str_of_tag soup visual_check in
  contains "Shopping cart element detected" (custom_check_result result)
  = true ->
  has_shopping_cart result = true
  /\ In "cart-indicator: cart" (detected_elements result).
Proof.
  cbv zeta.
  destruct (found (find_all soup (class_passes (mentions "cart")))) eqn:Hfound.
  - intros _.
    assert (Hcart : cart_loop soup cart_patterns
                      {| has_shopping_cart := false;
                         has_job_board := false;
                         detected_elements := [];
                         custom_check_result := "" |}
                    = {| has_shopping_cart := true;
                         has_job_board := false;
                         detected_elements := ["cart-indicator: cart"];
                         custom_check_result := "" |}).
    { unfold cart_patterns. cbn [cart_loop]. now rewrite Hfound. }
    unfold extract_ui_signals. rewrite Hcart.
    match goal with
    | |- context [job_loop soup job_patterns ?r] =>
        destruct (job_loop_notes soup job_patterns r)
          as (Hshop & notes & Hnotes & _)
    end.
    cbn [has_shopping_cart detected_elements] in Hshop, Hnotes.
    destruct (truthy (strip visual_check));
      cbn [has_shopping_cart detected_elements];
      rewrite Hshop, Hnotes; split; try reflexivity; now left.
  - unfold extract_ui_signals.
    destruct (truthy (strip visual_check)); cbn [custom_check_result].
    + unfold process_custom_visual_check. cbv zeta. rewrite Hfound.
      repeat match goal with
             | |- context [if ?b then _ else _] =>
                 match type of b with bool => destruct b end
             end; intros H; vm_compute in H; discriminate H.
    + set (empty := {| has_shopping_cart := false; has_job_board := false;
                       detected_elements := []; custom_check_result := "" |}).
      pose proof (cart_loop_first_match soup cart_patterns empty) as Hcart.
      pose proof (job_loop_first_match soup job_patterns
                    (cart_loop soup cart_patterns empty)) as Hjob.
      destruct (Spec.first_match (Spec.cart_test soup) cart_patterns);
        destruct (Spec.first_match (Behaviour.job_test soup) job_patterns);
        repeat match goal with
               | H : exists _, _ |- _ => destruct H as (? & _ & H)
               end;
        rewrite Hjob, ?Hcart; cbn; discriminate.
Qed.

Lemma custom_cart_finding_sets_flag_witness :
  let result :=
    extract_ui_signals Inputs.silent Inputs.button_page "shopping cart icon" in
  has_shopping_cart result = true
  /\ In "cart-indicator: cart" (detected_elements result).
Proof.
  apply (custom_cart_finding_sets_flag Inputs.silent Inputs.button_page
           "shopping cart icon").
  vm_compute. reflexivity.
Defined.

End SignalFacts.

(* ===================================================================== *)
(** * The scraper: candidate urls and navigation links *)
(* ===================================================================== *)

Module ScraperFacts.

Import Py PyFacts PromptBuilder SignalExtractor TextScraper.

(** ** The urls tried *)

Lemma replace_absent (old new s : string) :
  contains old s = false -> PyMore.replace old new s = s.
Proof.
  unfold PyMore.replace. induction s as [|c s IH]; [reflexivity|].
  cbn [contains PyMore.replace_from]. intros H.
  apply orb_false_iff in H. destruct H as [Hhere Hlater].
  rewrite Hhere, (IH Hlater). reflexivity.
Qed.

Lemma has_scheme_split (url : string) :
  Behaviour.has_scheme url = true ->
  (exists t, url = "http://" ^^ t) \/ (exists t, url = "https://" ^^ t).
Proof.
  unfold Behaviour.has_scheme, PyMore.startswith. intros H.
  apply orb_true_iff in H.
  destruct H as [H | H]; apply PromptFacts.prefix_split in H; auto.
Qed.

Lemma prefix_empty (t : string) : String.prefix "" t = true.
Proof. destruct t; reflexivity. Qed.

Lemma replace_https_head (t : string) :
  PyMore.replace "https://" "http://" ("https://" ^^ t)
  = "http://" ^^ PyMore.replace "https://" "http://" t.
Proof. unfold PyMore.replace. cbn. now rewrite prefix_empty. Qed.

Lemma replace_separator_https (t : string) :
  PyMore.replace "://" "://www." ("https://" ^^ t)
  = "https://www." ^^ PyMore.replace "://" "://www." t.
Proof. unfold PyMore.replace. cbn. now rewrite prefix_empty. Qed.

Lemma replace_separator_http (t : string) :
  PyMore.replace "://" "://www." ("http://" ^^ t)
  = "http://www." ^^ PyMore.replace "://" "://www." t.
Proof. unfold PyMore.replace. cbn. now rewrite prefix_empty. Qed.

Lemma has_scheme_http (t : string) :
  Behaviour.has_scheme ("http://" ^^ t) = true.
Proof.
  unfold Behaviour.has_scheme, PyMore.startswith.
  now rewrite PromptFacts.prefix_append.
Qed.

Lemma has_scheme_https (t : string) :
  Behaviour.has_scheme ("https://" ^^ t) = true.
Proof.
  unfold Behaviour.has_scheme, PyMore.startswith.
  rewrite (PromptFacts.prefix_append "https://"). apply orb_true_r.
Qed.

(** The candidates for a url that carries a scheme already. *)
Lemma candidates_with_scheme (url : string) :
  Behaviour.has_scheme url = true ->
  Behaviour.has_scheme (PyMore.replace "://" "://www." url) = true
  /\ (PyMore.startswith "https://" url = true ->
      Behaviour.has_scheme (PyMore.replace "https://" "http://" url) = true).
Proof.
  intros H. destruct (has_scheme_split url H) as [(t & ->) | (t & ->)].
  - rewrite replace_separator_http. split.
    + apply (has_scheme_http ("www." ^^ _)).
    + unfold PyMore.startswith. cbn. discriminate.
  - rewrite replace_separator_https, replace_https_head. split.
    + apply (has_scheme_https ("www." ^^ _)).
    + intros _. apply has_scheme_http.
Qed.

(** X18.  [scrape_website_text] only requests urls that carry a scheme:
    the url itself, with [https://] put before it when it has none, then
    at most two variants of it.  For a bare host without [www.] the
    candidates are, in this order, the https url, the http url and the
    https url of the [www.] host. *)
Theorem urls_to_try_carry_scheme (original_url : string) :
  let urls := urls_to_try original_url in
  Forall (fun url => Behaviour.has_scheme url = true) urls
  /\ 1 <= List.length urls <= 3
  /\ hd_error urls
     = Some (if Behaviour.has_scheme original_url then original_url
             else "https://" ^^ original_url)
  /\ (contains "://" original_url = false ->
      contains "www." original_url = false ->
      urls = ["https://" ^^ original_url;
              "http://" ^^ original_url;
              "https://www." ^^ original_url]).
Proof.
  cbv zeta. unfold urls_to_try.
  fold (Behaviour.has_scheme original_url).
  set (url := if Behaviour.has_scheme original_url then original_url
              else "https://" ^^ original_url).
  assert (Hscheme : Behaviour.has_scheme url = true).
  { unfold url. destruct (Behaviour.has_scheme original_url) eqn:H;
      [exact H | apply has_scheme_https]. }
  destruct (candidates_with_scheme url Hscheme) as [Hwww Hhttp].
  split; [|split; [|split]].
  - apply Forall_app. split; [now repeat constructor|].
    apply Forall_app. split.
    + destruct (PyMore.startswith "https://" url) eqn:Hs; [|constructor].
      repeat constructor. now apply Hhttp.
    + destruct (negb (contains "www." url)); now repeat constructor.
  - destruct (PyMore.startswith "https://" url),
             (negb (contains "www." url)); cbn; lia.
  - reflexivity.
  - intros Hbare Hnowww.
    assert (Hnone : Behaviour.has_scheme original_url = false).
    { destruct (Behaviour.has_scheme original_url) eqn:H; [|reflexivity].
      assert (Hin : contains "://" original_url = true).
      { destruct (has_scheme_split _ H) as [(t & ->) | (t & ->)];
          apply PromptFacts.contains_iff;
          [exists "http", t | exists "https", t]; reflexivity. }
      congruence. }
    unfold url. rewrite Hnone.
    assert (Hhttps : contains "https://" original_url = false).
    { destruct (contains "https://" original_url) eqn:H; [|reflexivity].
      assert (Hin : contains "://" original_url = true).
      { eapply PromptFacts.contains_trans; [|exact H].
        apply PromptFacts.contains_iff. now exists "https", "". }
      congruence. }
    assert (H1 : PyMore.startswith "https://" ("https://" ^^ original_url)
                 = true) by apply PromptFacts.prefix_append.
    assert (H2 : contains "www." ("https://" ^^ original_url) = false)
      by (cbn; exact Hnowww).
    assert (H3 : PyMore.replace "https://" "http://"
                   ("https://" ^^ original_url)
                 = "http://" ^^ original_url).
    { rewrite replace_https_head.
      now rewrite (replace_absent _ _ _ Hhttps). }
    assert (H4 : PyMore.replace "://" "://www."
                   ("https://" ^^ original_url)
                 = "https://www." ^^ original_url).
    { rewrite replace_separator_https.
      now rewrite (replace_absent _ _ _ Hbare). }
    rewrite H1, H2, H3, H4. reflexivity.
Qed.

(** ** The navigation links *)

Lemma mem_false_not_in (x : string) (l : list string) :
  mem x l = false -> ~ In x l.
Proof.
  unfold mem. intros H Hin.
  assert (Htrue : existsb (String.eqb x) l = true).
  { apply existsb_exists. exists x. split; [exact Hin|].
    apply String.eqb_refl. }
  congruence.
Qed.

Lemma passes_kept (t : string) :
  truthy t && (String.length t <? 50) = true -> Behaviour.kept t.
Proof.
  intros H. apply andb_true_iff in H. destruct H as [Ht Hlen]. split.
  - intros ->. discriminate.
  - now apply Nat.ltb_lt.
Qed.

Lemma nav_links_loop_kept (links : list Node) (acc : list string) :
  Forall Behaviour.kept acc -> Forall Behaviour.kept (nav_links_loop links acc).
Proof.
  revert acc. induction links as [|link rest IH]; intros acc Hacc;
    cbn [nav_links_loop]; [exact Hacc|].
  destruct (truthy _ && _) eqn:Hpass; [|now apply IH].
  apply IH. apply Forall_app. split; [exact Hacc|].
  constructor; [now apply passes_kept | constructor].
Qed.

Lemma menu_links_loop_kept (links : list Node) (acc : list string) :
  Forall Behaviour.kept acc -> Forall Behaviour.kept (menu_links_loop links acc).
Proof.
  revert acc. induction links as [|link rest IH]; intros acc Hacc;
    cbn [menu_links_loop]; [exact Hacc|].
  destruct (truthy _ && _ && _) eqn:Hpass; [|now apply IH].
  apply andb_true_iff in Hpass. destruct Hpass as [Hpass _].
  apply IH. apply Forall_app. split; [exact Hacc|].
  constructor; [now apply passes_kept | constructor].
Qed.

Lemma over_elements_kept (loop : list Node -> list string -> list string)
      (elements : list Node) (acc : list string) :
  (forall links l, Forall Behaviour.kept l -> Forall Behaviour.kept (loop links l)) ->
  Forall Behaviour.kept acc -> Forall Behaviour.kept (over_elements loop elements acc).
Proof.
  intros Hloop. revert acc.
  induction elements as [|e rest IH]; intros acc Hacc;
    cbn [over_elements]; [exact Hacc|].
  apply IH. now apply Hloop.
Qed.

Lemma over_menu_classes_kept (soup : Soup) (classes : list string)
      (acc : list string) :
  Forall Behaviour.kept acc -> Forall Behaviour.kept (over_menu_classes soup classes acc).
Proof.
  revert acc. induction classes as [|cls rest IH]; intros acc Hacc;
    cbn [over_menu_classes]; [exact Hacc|].
  apply IH. apply over_elements_kept; [apply menu_links_loop_kept | exact Hacc].
Qed.

(** X19.  Every navigation link that [extract_nav_links] collects is a
    non-empty text of fewer than 50 characters. *)
Theorem nav_links_short_and_non_empty (soup : Soup) :
  Forall (fun t => t <> "" /\ String.length t < 50) (extract_nav_links soup).
Proof.
  unfold extract_nav_links.
  apply over_menu_classes_kept.
  apply over_elements_kept; [apply nav_links_loop_kept | constructor].
Qed.

(** ** The links of the menus *)

Lemma mem_true_in (x : string) (l : list string) :
  mem x l = true -> In x l.
Proof.
  unfold mem. intros H. apply existsb_exists in H.
  destruct H as (y & Hin & Hy). apply String.eqb_eq in Hy. now subst y.
Qed.

Lemma link_texts_app (a b : list Node) :
  Behaviour.link_texts (a ++ b)
  = Behaviour.link_texts a ++ Behaviour.link_texts b.
Proof.
  unfold Behaviour.link_texts.
  now rewrite flat_map_app, map_app, filter_app.
Qed.

Lemma link_texts_one (element : Node) :
  Behaviour.link_texts [element]
  = filter (fun t => truthy t && (String.length t <? 50))
           (map get_text_strip (anchors_below element)).
Proof.
  unfold Behaviour.link_texts. cbn [flat_map]. now rewrite app_nil_r.
Qed.

(** The loop over the links of a navigation element appends the texts
    it accepts. *)
Lemma nav_links_loop_texts (links : list Node) (acc : list string) :
  nav_links_loop links acc
  = acc ++ filter (fun t => truthy t && (String.length t <? 50))
                  (map get_text_strip links).
Proof.
  revert acc. induction links as [|link rest IH]; intros acc;
    cbn [nav_links_loop map filter]; [now rewrite app_nil_r|].
  destruct (truthy _ && _); rewrite IH; [|reflexivity].
  now rewrite <- app_assoc.
Qed.

Lemma over_nav_elements_texts (elements : list Node) (acc : list string) :
  over_elements nav_links_loop elements acc
  = acc ++ Behaviour.link_texts elements.
Proof.
  revert acc. induction elements as [|e rest IH]; intros acc;
    cbn [over_elements]; [now rewrite app_nil_r|].
  rewrite IH, nav_links_loop_texts.
  change (e :: rest) with ([e] ++ rest).
  now rewrite link_texts_app, link_texts_one, app_assoc.
Qed.

Lemma first_occurrences_app (seen a b : list string) :
  Behaviour.first_occurrences seen (a ++ b)
  = Behaviour.first_occurrences seen a
    ++ Behaviour.first_occurrences
         (seen ++ Behaviour.first_occurrences seen a) b.
Proof.
  revert seen. induction a as [|t a IH]; intros seen;
    cbn [app Behaviour.first_occurrences]; [now rewrite app_nil_r|].
  destruct (mem t seen); [apply IH|].
  rewrite IH. cbn [app]. now rewrite <- app_assoc.
Qed.

(** The loop over the links of a menu appends the texts it accepts, at
    their first occurrence, when they were not collected before. *)
Lemma menu_links_loop_texts (links : list Node) (acc : list string) :
  menu_links_loop links acc
  = acc ++ Behaviour.first_occurrences acc
             (filter (fun t => truthy t && (String.length t <? 50))
                     (map get_text_strip links)).
Proof.
  revert acc. induction links as [|link rest IH]; intros acc;
    cbn [menu_links_loop map filter]; [now rewrite app_nil_r|].
  destruct (truthy _ && _); cbn [andb Behaviour.first_occurrences];
    [|apply IH].
  destruct (mem (get_text_strip link) acc); cbn [negb]; rewrite IH;
    [reflexivity|].
  now rewrite <- app_assoc.
Qed.

Lemma over_menus_texts (menus : list Node) (acc : list string) :
  over_elements menu_links_loop menus acc
  = acc ++ Behaviour.first_occurrences acc (Behaviour.link_texts menus).
Proof.
  revert acc. induction menus as [|m rest IH]; intros acc;
    cbn [over_elements]; [now rewrite app_nil_r|].
  rewrite IH, menu_links_loop_texts.
  change (m :: rest) with ([m] ++ rest).
  rewrite link_texts_app, first_occurrences_app, link_texts_one.
  now rewrite app_assoc.
Qed.

Lemma over_menu_classes_texts (soup : Soup) (classes : list string)
      (acc : list string) :
  over_menu_classes soup classes acc
  = acc ++ Behaviour.first_occurrences acc
             (Behaviour.link_texts
                (flat_map
                   (fun cls => find_all soup (class_passes (mentions cls)))
                   classes)).
Proof.
  revert acc. induction classes as [|cls rest IH]; intros acc;
    cbn [over_menu_classes flat_map]; [now rewrite app_nil_r|].
  rewrite IH, over_menus_texts, link_texts_app, first_occurrences_app.
  now rewrite app_assoc.
Qed.

Lemma first_occurrences_in (seen found : list string) (x : string) :
  In x (Behaviour.first_occurrences seen found)
  <-> In x found /\ ~ In x seen.
Proof.
  revert seen. induction found as [|t rest IH]; intros seen;
    cbn [Behaviour.first_occurrences In]; [tauto|].
  destruct (mem t seen) eqn:Hseen.
  - apply mem_true_in in Hseen. rewrite IH. split.
    + tauto.
    + intros [[<- | Hin] Hnew]; [now elim Hnew | tauto].
  - apply mem_false_not_in in Hseen. cbn [In]. rewrite IH. split.
    + intros [<- | [Hin Hnew]]; [tauto|].
      split; [tauto|]. intros Hx. apply Hnew, in_or_app. now left.
    + intros [[<- | Hin] Hnew]; [tauto|].
      destruct (string_dec t x) as [<- | Hother]; [tauto|].
      right. split; [exact Hin|]. intros Hx.
      apply in_app_or in Hx. destruct Hx as [Hx | [Hx | []]]; tauto.
Qed.

Lemma first_occurrences_nodup (seen found : list string) :
  NoDup (Behaviour.first_occurrences seen found).
Proof.
  revert seen. induction found as [|t rest IH]; intros seen;
    cbn [Behaviour.first_occurrences]; [constructor|].
  destruct (mem t seen); [apply IH|].
  constructor; [|apply IH].
  rewrite first_occurrences_in. intros [_ Hnew].
  apply Hnew, in_or_app. right. now left.
Qed.

Lemma first_occurrences_drawn (seen found : list string) :
  Spec.drawn_from (Behaviour.first_occurrences seen found) found.
Proof.
  revert seen. induction found as [|t rest IH]; intros seen;
    cbn [Behaviour.first_occurrences]; [constructor|].
  destruct (mem t seen); constructor; apply IH.
Qed.

(** X20.  [extract_nav_links] answers the link texts of the [nav] and
    [header] elements, as often as they occur there, followed by the
    link texts found through the menu classes that are not among them,
    each once, at its first occurrence and in the order it is found. *)
Theorem menu_links_collected_once (soup : Soup) :
  let nav_part := Behaviour.nav_texts soup in
  let found := Behaviour.menu_texts soup in
  let menu_part := Behaviour.first_occurrences nav_part found in
  extract_nav_links soup = nav_part ++ menu_part
  /\ NoDup menu_part
  /\ (forall t, In t menu_part <-> In t found /\ ~ In t nav_part)
  /\ Spec.drawn_from menu_part found.
Proof.
  cbv zeta. split; [|split; [|split]].
  - unfold extract_nav_links.
    rewrite over_menu_classes_texts, over_nav_elements_texts.
    reflexivity.
  - apply first_occurrences_nodup.
  - intros t. apply first_occurrences_in.
  - apply first_occurrences_drawn.
Qed.

Lemma urls_to_try_carry_scheme_witness :
  urls_to_try "acme.com"
  = ["https://acme.com"; "http://acme.com"; "https://www.acme.com"].
Proof.
  destruct (urls_to_try_carry_scheme "acme.com") as (_ & _ & _ & Hbare).
  apply Hbare; reflexivity.
Defined.

(** A page whose menu repeats a link of its navigation and holds another
    link twice. *)
Lemma menu_links_collected_once_witness :
  let page :=
    [Tag "nav" [] [Tag "a" [] [Text " Shop "]];
     Tag "ul" [("class", "main-menu")]
       [Tag "a" [] [Text "Shop"]; Tag "a" [] [Text "About"];
        Tag "a" [] [Text "About"]]] in
  extract_nav_links page = ["Shop"] ++ ["About"]
  /\ NoDup ["About"]
  /\ (forall t, In t ["About"]
                <-> In t ["Shop"; "About"; "About"] /\ ~ In t ["Shop"])
  /\ Spec.drawn_from ["About"] ["Shop"; "About"; "About"].
Proof.
  intros page. exact (menu_links_collected_once page).
Defined.

End ScraperFacts.

(* ===================================================================== *)
(** * Failures: how they are recorded, rewritten and retried *)
(* ===================================================================== *)

Module FailureFacts.

Import Py PromptBuilder Descriptions.

Lemma mask_scraping_error (e : string) :
  FixErrors.mask (Some (TextScraper.scraping_error e)) = true.
Proof.
  cbn [FixErrors.mask]. apply PromptFacts.contains_iff.
  exists "Scraping ", (": " ^^ e). reflexivity.
Qed.

Lemma mask_generation_error (e : string) :
  FixErrors.mask (Some ("AI Generation Error: " ^^ e)) = true.
Proof.
  cbn [FixErrors.mask]. apply PromptFacts.contains_iff.
  exists "AI Generation ", (": " ^^ e). reflexivity.
Qed.

(** X21.  In the main loop a scrape that failed is written to the table
    as the scraper's own error text: no prompt is built, the model is
    not called, and the text is not the one [retry_failed] looks for.
    [fix_errors] rewrites it when it is a scraping error, and leaves
    [No URL provided] as it is. *)
Theorem scrape_failure_recorded_as_is
        (model : option Model) (website_data : WebsiteData)
        (fetched : option UISignals) (instructions visual_check : string)
        (training_examples : list Example)
        (mistake_patterns : list MistakePattern) (e : string) :
  error website_data = Some e ->
  e = TextScraper.no_url_error
  \/ (exists x, e = TextScraper.scraping_error x) ->
  let result :=
    MainLoop.process_company model website_data fetched instructions
      visual_check training_examples mistake_patterns in
  MainLoop.analysis result = e
  /\ MainLoop.events result = []
  /\ RetryFailed.error_mask (Some (MainLoop.analysis result)) = false
  /\ (FixErrors.mask (Some (MainLoop.analysis result)) = true
      <-> e <> TextScraper.no_url_error).
Proof.
  intros Herror Hshape. cbv zeta.
  assert (Hhas : has_error website_data = true).
  { unfold has_error. rewrite Herror.
    destruct Hshape as [-> | (x & ->)]; reflexivity. }
  unfold MainLoop.process_company. rewrite Hhas, Herror.
  cbn [negb andb MainLoop.analysis MainLoop.events fst snd].
  split; [reflexivity|]. split; [reflexivity|].
  destruct Hshape as [-> | (x & ->)].
  - split; [reflexivity|]. split; [discriminate | intros H; now elim H].
  - split; [reflexivity|]. split; [discriminate|].
    intros _. apply mask_scraping_error.
Qed.

Lemma scrape_failure_recorded_as_is_witness :
  let result :=
    MainLoop.process_company None (TextScraper.failed_result "timed out")
      None "Analyze retail companies" "" [] [] in
  MainLoop.analysis result = "Scraping Error: timed out"
  /\ MainLoop.events result = []
  /\ RetryFailed.error_mask (Some (MainLoop.analysis result)) = false
  /\ (FixErrors.mask (Some (MainLoop.analysis result)) = true
      <-> "Scraping Error: timed out" <> TextScraper.no_url_error).
Proof.
  apply (scrape_failure_recorded_as_is None
           (TextScraper.failed_result "timed out") None
           "Analyze retail companies" "" [] [] "Scraping Error: timed out").
  - reflexivity.
  - right. exists "timed out". reflexivity.
Defined.

(** X22.  In the main loop a call of the model that raises is written
    to the table as [AI Generation Error: ...]: a text that
    [retry_failed] does not select, and that [fix_errors] rewrites. *)
Theorem model_failure_recorded_as_error
        (m : Model) (website_data : WebsiteData)
        (fetched : option UISignals) (instructions visual_check : string)
        (training_examples : list Example)
        (mistake_patterns : list MistakePattern) (e : string) :
  has_error website_data = false ->
  (forall prompt, m prompt = Failure e) ->
  let result :=
    MainLoop.process_company (Some m) website_data fetched instructions
      visual_check training_examples mistake_patterns in
  MainLoop.analysis result = "AI Generation Error: " ^^ e
  /\ RetryFailed.error_mask (Some (MainLoop.analysis result)) = false
  /\ FixErrors.mask (Some (MainLoop.analysis result)) = true.
Proof.
  intros Hok Hfails. cbv zeta.
  unfold MainLoop.process_company, generate_ai_description.
  rewrite Hok. cbn [negb]. rewrite Hfails.
  cbn [MainLoop.analysis fst].
  split; [reflexivity|]. split; [reflexivity | apply mask_generation_error].
Qed.

Lemma model_failure_recorded_as_error_witness :
  let result :=
    MainLoop.process_company (Some (fun _ => Failure "quota exceeded"))
      (Inputs.site_with_links []) None "Analyze retail companies" "" [] [] in
  MainLoop.analysis result = "AI Generation Error: quota exceeded"
  /\ RetryFailed.error_mask (Some (MainLoop.analysis result)) = false
  /\ FixErrors.mask (Some (MainLoop.analysis result)) = true.
Proof.
  apply (model_failure_recorded_as_error (fun _ => Failure "quota exceeded")
           (Inputs.site_with_links []) None "Analyze retail companies" ""
           [] [] "quota exceeded");
    reflexivity.
Defined.

(** ** [fix_errors] *)

Lemma fix_cell_clean (cell : option string) :
  FixErrors.mask
    (if FixErrors.mask cell then Some "The Company's website does not work"
     else cell) = false.
Proof. destruct (FixErrors.mask cell) eqn:H; [reflexivity | exact H]. Qed.

(** X23.  [fix_errors] keeps the length of the column, leaves no cell
    that holds [Error], and changes nothing when run again; after it,
    [retry_failed] selects exactly the rows that held the failure text
    or a text with [Error] in it. *)
Theorem fix_errors_normalises (column : list (option string)) :
  List.length (FixErrors.fix_errors column) = List.length column
  /\ Forall (fun cell => FixErrors.mask cell = false)
            (FixErrors.fix_errors column)
  /\ FixErrors.fix_errors (FixErrors.fix_errors column)
     = FixErrors.fix_errors column
  /\ (forall i,
         In i (RetryFailed.failed_indices (FixErrors.fix_errors column))
         <-> exists cell,
               nth_error column i = Some cell
               /\ (cell = Some website_failure
                   \/ FixErrors.mask cell = true)).
Proof.
  unfold FixErrors.fix_errors.
  split; [apply length_map|]. split; [|split].
  - apply Forall_forall. intros cell Hin. apply in_map_iff in Hin.
    destruct Hin as (c & <- & _). apply fix_cell_clean.
  - rewrite map_map. apply map_ext. intros cell.
    now rewrite fix_cell_clean.
  - intros i. unfold RetryFailed.failed_indices.
    rewrite FailureProofs.failed_from_spec, Nat.sub_0_r, nth_error_map.
    destruct (nth_error column i) as [cell|]; cbn [option_map].
    + split.
      * intros [_ H]. exists cell. split; [reflexivity|].
        destruct (FixErrors.mask cell); [now right | left; congruence].
      * intros (c & [= <-] & H). split; [lia|].
        destruct (FixErrors.mask cell) eqn:Hmask; [reflexivity|].
        destruct H as [-> | H]; [reflexivity | discriminate].
    + split; [intros [_ H]; discriminate | intros (c & H & _); discriminate].
Qed.

(** ** The retry loop *)

Lemma length_set_row (idx : nat) (row : RetryLoop.OutRow)
      (df : list RetryLoop.OutRow) :
  List.length (RetryLoop.set_row idx row df) = List.length df.
Proof.
  revert idx. induction df as [|r df IH]; intros [|k];
    cbn [RetryLoop.set_row List.length]; try reflexivity.
  now rewrite IH.
Qed.

Lemma nth_error_set_row_other (idx j : nat) (row : RetryLoop.OutRow)
      (df : list RetryLoop.OutRow) :
  j <> idx ->
  nth_error (RetryLoop.set_row idx row df) j = nth_error df j.
Proof.
  revert idx j. induction df as [|r df IH]; intros [|k] [|j] Hne;
    cbn [RetryLoop.set_row nth_error]; try reflexivity.
  - now elim Hne.
  - apply IH. lia.
Qed.

Lemma nth_error_set_row_cases (idx j : nat) (row r' : RetryLoop.OutRow)
      (df : list RetryLoop.OutRow) :
  nth_error (RetryLoop.set_row idx row df) j = Some r' ->
  r' = row \/ nth_error df j = Some r'.
Proof.
  revert idx j. induction df as [|r df IH]; intros [|k] [|j];
    cbn [RetryLoop.set_row nth_error]; try discriminate; auto.
  - intros [= <-]. now left.
  - apply IH.
Qed.

Lemma urls_set_row (idx : nat) (row row' : RetryLoop.OutRow)
      (df : list RetryLoop.OutRow) :
  nth_error df idx = Some row ->
  RetryLoop.out_URL row' = RetryLoop.out_URL row ->
  map RetryLoop.out_URL (RetryLoop.set_row idx row' df)
  = map RetryLoop.out_URL df.
Proof.
  revert idx. induction df as [|r df IH]; intros [|k];
    cbn [RetryLoop.set_row nth_error map]; try discriminate.
  - intros [= ->] ->. reflexivity.
  - intros Hk Hurl. now rewrite (IH k Hk Hurl).
Qed.

Section Retry.

Variable scrape : nat -> option string -> WebsiteData.
Variable model : nat -> Model.
Variables instructions visual_check : string.
Variable training_examples : list Example.
Variable mistake_patterns : list MistakePattern.

(** What the loop keeps, whatever the services answer. *)
Lemma retry_loop_keeps (indices : list nat) (i : nat)
      (df : list RetryLoop.OutRow) (fixed : nat) :
  let result :=
    RetryLoop.retry_loop scrape model instructions visual_check
      training_examples mistake_patterns i indices df fixed in
  List.length (fst result) = List.length df
  /\ map RetryLoop.out_URL (fst result) = map RetryLoop.out_URL df
  /\ (forall j, ~ In j indices -> nth_error (fst result) j = nth_error df j)
  /\ (forall j row,
         nth_error (fst result) j = Some row ->
         nth_error df j = Some row
         \/ exists k prompt text,
              model k prompt = Generated text
              /\ RetryLoop.out_AI_Description row = Some (strip text))
  /\ fixed <= snd result <= fixed + List.length indices.
Proof.
  cbv zeta. revert i df fixed.
  induction indices as [|idx rest IH]; intros i df fixed.
  - cbn. repeat split; auto; lia.
  - cbn [RetryLoop.retry_loop].
    assert (Hskip : forall fixed',
               fixed' = fixed ->
               let result :=
                 RetryLoop.retry_loop scrape model instructions visual_check
                   training_examples mistake_patterns (S i) rest df fixed' in
               List.length (fst result) = List.length df
               /\ map RetryLoop.out_URL (fst result)
                  = map RetryLoop.out_URL df
               /\ (forall j, ~ In j (idx :: rest) ->
                     nth_error (fst result) j = nth_error df j)
               /\ (forall j row,
                      nth_error (fst result) j = Some row ->
                      nth_error df j = Some row
                      \/ exists k prompt text,
                           model k prompt = Generated text
                           /\ RetryLoop.out_AI_Description row
                              = Some (strip text))
               /\ fixed <= snd result
                  <= fixed + List.length (idx :: rest)).
    { intros fixed' ->. cbv zeta.
      destruct (IH (S i) df fixed) as (Hlen & Hurls & Hother & Hrows & Hfix).
      repeat split; auto; cbn [List.length]; try lia.
      intros j Hj. apply Hother. intros Hin. apply Hj. now right. }
    destruct (nth_error df idx) as [row|] eqn:Hrow; [|now apply Hskip].
    destruct (has_error (scrape i (RetryLoop.out_URL row)));
      [now apply Hskip|].
    match goal with
    | |- context [model i ?p] => destruct (model i p) as [text|e] eqn:Hmodel
    end; [|now apply Hskip].
    match goal with
    | |- context [RetryLoop.set_row idx ?r df] => set (row' := r)
    end.
    destruct (IH (S i) (RetryLoop.set_row idx row' df) (S fixed))
      as (Hlen & Hurls & Hother & Hrows & Hfix).
    split; [now rewrite Hlen, length_set_row|].
    split; [rewrite Hurls; now apply (urls_set_row idx row row')|].
    split.
    { intros j Hj. rewrite Hother by (intros Hin; apply Hj; now right).
      apply nth_error_set_row_other. intros ->. apply Hj. now left. }
    split.
    { intros j r Hr. destruct (Hrows j r Hr) as [Hset | Hanswer];
        [|now right].
      destruct (nth_error_set_row_cases _ _ _ _ _ Hset) as [-> | Hold];
        [right | now left].
      eexists i, _, text. split; [exact Hmodel | reflexivity]. }
    cbn [List.length]. lia.
Qed.

(** X24.  Whatever the scraper and the model answer, [retry_failed]
    keeps the number of rows and their urls, leaves every row whose
    description is not the failure text exactly as it was, and rewrites
    a row only with a trimmed answer of the model; the count of fixed
    rows it reports is at most the number of rows that had failed. *)
Theorem retry_touches_only_failed (df : list RetryLoop.OutRow) :
  let result :=
    RetryLoop.retry_failed scrape model instructions visual_check
      training_examples mistake_patterns df in
  List.length (fst result) = List.length df
  /\ map RetryLoop.out_URL (fst result) = map RetryLoop.out_URL df
  /\ (forall j row,
         nth_error df j = Some row ->
         RetryLoop.out_AI_Description row <> Some website_failure ->
         nth_error (fst result) j = Some row)
  /\ (forall j row,
         nth_error (fst result) j = Some row ->
         nth_error df j = Some row
         \/ exists k prompt text,
              model k prompt = Generated text
              /\ RetryLoop.out_AI_Description row = Some (strip text))
  /\ match snd result with
     | Some fixed =>
         fixed <= List.length
                    (RetryFailed.failed_indices (Behaviour.descriptions_of df))
     | None =>
         fst result = df
         /\ RetryFailed.failed_indices (Behaviour.descriptions_of df) = []
     end.
Proof.
  cbv zeta. unfold RetryLoop.retry_failed.
  fold (Behaviour.descriptions_of df).
  destruct (RetryFailed.failed_indices (Behaviour.descriptions_of df))
    as [|idx rest] eqn:Hfailed.
  - cbn [fst snd]. repeat split; auto.
  - rewrite <- Hfailed.
    pose proof (retry_loop_keeps
                  (RetryFailed.failed_indices (Behaviour.descriptions_of df))
                  0 df 0) as Hkeeps.
    cbv zeta in Hkeeps.
    destruct (RetryLoop.retry_loop _ _ _ _ _ _ _ _ _ _) as [df' fixed].
    cbn [fst snd] in Hkeeps |- *.
    destruct Hkeeps as (Hlen & Hurls & Hother & Hrows & Hfix).
    repeat split; auto; try lia.
    intros j row Hj Hgood. rewrite Hother; [exact Hj|].
    unfold RetryFailed.failed_indices.
    rewrite FailureProofs.failed_from_spec, Nat.sub_0_r.
    unfold Behaviour.descriptions_of. rewrite nth_error_map, Hj.
    cbn [option_map]. intros [_ [= H]]. now apply Hgood.
Qed.

End Retry.

(** A table of three rows, the second failed, retried with a scraper
    and a model that both answer. *)
Lemma retry_touches_only_failed_witness :
  let good := RetryLoop.mkOutRow (Some "acme.com")
                (Some "Acme sells anvils.") (Some "Anvils") (Some "Shop") in
  let failed := RetryLoop.mkOutRow (Some "echo.org")
                  (Some "The Company's website does not work") None None in
  let result :=
    RetryLoop.retry_failed (fun _ _ => Inputs.site_with_links ["About"])
      (fun _ _ => Generated " Echo hosts podcasts. ")
      "Analyze retail companies" "" [] [] [good; failed; good] in
  nth_error (fst result) 0 = Some good
  /\ snd result = Some 1.
Proof.
  intros good failed result.
  destruct (retry_touches_only_failed
              (fun _ _ => Inputs.site_with_links ["About"])
              (fun _ _ => Generated " Echo hosts podcasts. ")
              "Analyze retail companies" "" [] [] [good; failed; good])
    as (_ & _ & Hgood & _ & _).
  split; [|reflexivity].
  apply (Hgood 0 good); [reflexivity | discriminate].
Defined.

End FailureFacts.

(* ===================================================================== *)
(** * The text kept for the model *)
(* ===================================================================== *)

Module CleaningFacts.

Import Py PyFacts TextCleaning.

(** ** Two blanks in a row *)

Lemma double_blank_cons (c : ascii) (s : string) :
  double_blank (String c s)
  = (is_blank c && starts_blank s) || double_blank s.
Proof. destruct s; cbn; [now rewrite andb_false_r | reflexivity]. Qed.

Lemma prefix_two_blanks (c : ascii) (s : string) :
  String.prefix "  " (String c s) = is_blank c && starts_blank s.
Proof.
  unfold is_blank. cbn [String.prefix].
  destruct (ascii_dec " " c) as [<- | Hc].
  - cbn [Ascii.eqb Bool.eqb andb]. destruct s as [|c2 s]; [reflexivity|].
    cbn [String.prefix starts_blank]. unfold is_blank.
    destruct (ascii_dec " " c2) as [<- | Hc2].
    + destruct s; reflexivity.
    + symmetry. apply Ascii.eqb_neq. congruence.
  - assert (Hb : Ascii.eqb c " " = false) by (apply Ascii.eqb_neq; congruence).
    now rewrite Hb.
Qed.

(** [ "  " in s ] is [double_blank s]. *)
Lemma contains_two_blanks (s : string) :
  contains "  " s = double_blank s.
Proof.
  induction s as [|c s IH]; [reflexivity|].
  cbn [contains]. now rewrite prefix_two_blanks, IH, double_blank_cons.
Qed.

Lemma starts_blank_append (a b : string) :
  starts_blank (a ^^ b)
  = match a with EmptyString => starts_blank b | _ => starts_blank a end.
Proof. destruct a; reflexivity. Qed.

Lemma ends_blank_cons (c : ascii) (s : string) :
  ends_blank (String c s)
  = match s with EmptyString => is_blank c | _ => ends_blank s end.
Proof. destruct s; reflexivity. Qed.

Lemma ends_blank_snoc (s : string) (c : ascii) :
  ends_blank (s ^^ String c "") = is_blank c.
Proof.
  induction s as [|x s IH]; [reflexivity|].
  change (String x s ^^ String c "") with (String x (s ^^ String c "")).
  rewrite ends_blank_cons, IH. destruct s; reflexivity.
Qed.

Lemma double_blank_append (a b : string) :
  double_blank (a ^^ b)
  = double_blank a || double_blank b || (ends_blank a && starts_blank b).
Proof.
  induction a as [|c a IH]; [cbn; now rewrite orb_false_r|].
  change (String c a ^^ b) with (String c (a ^^ b)).
  rewrite !double_blank_cons, IH, starts_blank_append, ends_blank_cons.
  destruct a as [|c2 a].
  - cbn. destruct (is_blank c), (starts_blank b), (double_blank b);
      reflexivity.
  - destruct (is_blank c), (starts_blank (String c2 a)),
             (double_blank (String c2 a)), (double_blank b),
             (ends_blank (String c2 a)), (starts_blank b); reflexivity.
Qed.

Lemma blank_is_space (c : ascii) : is_blank c = true -> isspace c = true.
Proof. unfold is_blank. intros H. apply Ascii.eqb_eq in H. now subst. Qed.

(** ** The pieces between two blanks *)

Lemma split_on_pieces (s : string) (skip : nat) (cur : string) :
  double_blank cur = false ->
  ends_blank cur = false \/ (skip = 0 /\ starts_blank s = false) ->
  Forall (fun piece => double_blank piece = false)
         (split_on_from skip "  " cur s).
Proof.
  revert skip cur. induction s as [|c s IH]; intros skip cur Hcur Hend.
  - repeat constructor. exact Hcur.
  - cbn [split_on_from]. destruct skip as [|k].
    + rewrite prefix_two_blanks.
      destruct (is_blank c && starts_blank s) eqn:Hsep.
      * constructor; [exact Hcur|]. apply IH; [reflexivity | now left].
      * apply IH.
        -- rewrite double_blank_append, Hcur. cbn [double_blank starts_blank].
           destruct Hend as [-> | [_ Hs]]; [reflexivity|].
           cbn [starts_blank] in Hs. rewrite Hs. now rewrite andb_false_r.
        -- rewrite ends_blank_snoc.
           apply andb_false_iff in Hsep. destruct Hsep as [Hc | Hs];
             [now left | right; now split].
    + apply IH; [exact Hcur|]. left.
      destruct Hend as [H | [H _]]; [exact H | discriminate].
Qed.

(** ** Trimming *)

Lemma double_blank_tail (c : ascii) (s : string) :
  double_blank (String c s) = false -> double_blank s = false.
Proof.
  rewrite double_blank_cons. intros H. apply orb_false_iff in H. tauto.
Qed.

Lemma double_blank_lstrip (s : string) :
  double_blank s = false -> double_blank (lstrip s) = false.
Proof.
  induction s as [|c s IH]; [reflexivity|].
  intros H. cbn [lstrip]. destruct (isspace c); [|exact H].
  apply IH. now apply (double_blank_tail c).
Qed.

Lemma double_blank_rstrip (s : string) :
  double_blank s = false -> double_blank (rstrip s) = false.
Proof.
  induction s as [|c s IH]; [reflexivity|].
  intros H. cbn [rstrip].
  destruct (rstrip s) as [|c2 r2] eqn:Hr.
  - destruct (isspace c); reflexivity.
  - destruct (IdentityProofs.rstrip_head _ _ _ Hr) as (s' & ->).
    rewrite double_blank_cons in H |- *.
    apply orb_false_iff in H. destruct H as [Hhead Htail].
    cbn [starts_blank] in Hhead |- *. rewrite Hhead.
    now apply IH.
Qed.

Lemma ends_blank_rstrip (s : string) : ends_blank (rstrip s) = false.
Proof.
  induction s as [|c s IH]; [reflexivity|].
  cbn [rstrip]. destruct (rstrip s) as [|c2 r2].
  - destruct (isspace c) eqn:Hc; [reflexivity|].
    cbn. destruct (is_blank c) eqn:Hb; [|reflexivity].
    apply blank_is_space in Hb. congruence.
  - rewrite ends_blank_cons. exact IH.
Qed.

Lemma starts_blank_strip (s : string) : starts_blank (strip s) = false.
Proof.
  unfold strip.
  destruct (InstructionFacts.lstrip_head s) as [-> | (c & r & -> & Hc)];
    [reflexivity|].
  assert (Hhead : exists r', rstrip (String c r) = String c r').
  { cbn [rstrip]. destruct (rstrip r); [rewrite Hc|]; eauto. }
  destruct Hhead as (r' & ->). cbn.
  destruct (is_blank c) eqn:Hb; [|reflexivity].
  apply blank_is_space in Hb. congruence.
Qed.

Lemma strip_tidy (s : string) :
  double_blank s = false -> tidy (strip s).
Proof.
  intros H. unfold tidy, strip. split; [|split].
  - now apply double_blank_rstrip, double_blank_lstrip.
  - apply starts_blank_strip.
  - apply ends_blank_rstrip.
Qed.

(** ** Joining *)

Lemma join_tidy (chunks : list string) :
  Forall (fun chunk => tidy chunk /\ chunk <> "") chunks ->
  double_blank (join " " chunks) = false
  /\ starts_blank (join " " chunks) = false.
Proof.
  induction 1 as [|x rest [(Hdb & Hsb & Heb) Hne] Hrest IH];
    [now split|].
  destruct rest as [|y rest']; [now split|].
  change (join " " (x :: y :: rest'))
    with (x ^^ " " ^^ join " " (y :: rest')).
  destruct IH as [IHdb IHsb]. split.
  - rewrite double_blank_append, Hdb, Heb.
    change (" " ^^ join " " (y :: rest'))
      with (String " " (join " " (y :: rest'))).
    rewrite double_blank_cons, IHdb, IHsb. reflexivity.
  - rewrite starts_blank_append. destruct x; [now elim Hne | exact Hsb].
Qed.

(** ** Cutting *)

Lemma starts_blank_slice (n : nat) (s : string) :
  starts_blank s = false -> starts_blank (slice_to n s) = false.
Proof. destruct n, s; cbn; auto. Qed.

Lemma double_blank_slice (n : nat) (s : string) :
  double_blank s = false -> double_blank (slice_to n s) = false.
Proof.
  revert s. induction n as [|n IH]; intros [|c s] H; try reflexivity.
  cbn [slice_to]. rewrite double_blank_cons in H |- *.
  apply orb_false_iff in H. destruct H as [Hhead Htail].
  rewrite (IH s Htail), orb_false_r.
  apply andb_false_iff in Hhead. apply andb_false_iff.
  destruct Hhead as [Hc | Hs]; [now left | right].
  now apply starts_blank_slice.
Qed.

(** ** Characters *)

Section Characters.

Variable p : ascii -> bool.

Lemma all_chars_append (a b : string) :
  all_chars p (a ^^ b) = all_chars p a && all_chars p b.
Proof.
  induction a as [|c a IH]; [reflexivity|].
  cbn [String.append all_chars]. now rewrite IH, andb_assoc.
Qed.

Lemma all_chars_lstrip (s : string) :
  all_chars p s = true -> all_chars p (lstrip s) = true.
Proof.
  induction s as [|c s IH]; [reflexivity|].
  intros H. cbn [lstrip]. destruct (isspace c); [|exact H].
  cbn [all_chars] in H. apply andb_true_iff in H. now apply IH.
Qed.

Lemma all_chars_rstrip (s : string) :
  all_chars p s = true -> all_chars p (rstrip s) = true.
Proof.
  induction s as [|c s IH]; [reflexivity|].
  cbn [all_chars]. intros H. apply andb_true_iff in H.
  destruct H as [Hc Hs]. specialize (IH Hs). cbn [rstrip].
  destruct (rstrip s) as [|c2 r2].
  - destruct (isspace c); [reflexivity|]. cbn. now rewrite Hc.
  - cbn [all_chars] in IH |- *. now rewrite Hc, IH.
Qed.

Lemma all_chars_strip (s : string) :
  all_chars p s = true -> all_chars p (strip s) = true.
Proof. intros H. now apply all_chars_rstrip, all_chars_lstrip. Qed.

Lemma all_chars_slice (n : nat) (s : string) :
  all_chars p s = true -> all_chars p (slice_to n s) = true.
Proof.
  revert s. induction n as [|n IH]; intros [|c s] H; try reflexivity.
  cbn [slice_to all_chars] in H |- *. apply andb_true_iff in H.
  destruct H as [Hc Hs]. now rewrite Hc, (IH s Hs).
Qed.

Lemma all_chars_join (sep : string) (l : list string) :
  all_chars p sep = true ->
  Forall (fun x => all_chars p x = true) l ->
  all_chars p (join sep l) = true.
Proof.
  intros Hsep. induction 1 as [|x rest Hx Hrest IH]; [reflexivity|].
  destruct rest as [|y rest']; [exact Hx|].
  change (join sep (x :: y :: rest')) with (x ^^ sep ^^ join sep (y :: rest')).
  now rewrite !all_chars_append, Hx, Hsep, IH.
Qed.

Lemma split_on_chars (sep s : string) (skip : nat) (cur : string) :
  all_chars p cur = true ->
  all_chars p s = true ->
  Forall (fun piece => all_chars p piece = true)
         (split_on_from skip sep cur s).
Proof.
  revert skip cur. induction s as [|c s IH]; intros skip cur Hcur Hs.
  - now repeat constructor.
  - cbn [all_chars] in Hs. apply andb_true_iff in Hs.
    destruct Hs as [Hc Hs]. cbn [split_on_from]. destruct skip as [|k].
    + destruct (String.prefix sep (String c s)).
      * constructor; [exact Hcur | now apply IH].
      * apply IH; [|exact Hs].
        rewrite all_chars_append, Hcur. cbn. now rewrite Hc.
    + now apply IH.
Qed.

End Characters.

(** The lines of [splitlines] hold no character at which it cuts. *)
Lemma splitlines_no_break (n : nat) (s cur : string) :
  String.length s <= n ->
  all_chars (fun c => negb (is_line_break c)) cur = true ->
  Forall (fun line => all_chars (fun c => negb (is_line_break c)) line = true)
         (splitlines_from cur s).
Proof.
  revert s cur. induction n as [|n IH]; intros s cur Hlen Hcur.
  - destruct s; [|cbn in Hlen; lia].
    cbn. destruct (is_empty cur); now repeat constructor.
  - destruct s as [|c s].
    + cbn. destruct (is_empty cur); now repeat constructor.
    + cbn [String.length] in Hlen. cbn [splitlines_from].
      destruct (is_line_break c) eqn:Hc.
      * destruct s as [|c' s']; [now repeat constructor|].
        cbn [String.length] in Hlen.
        destruct (Ascii.eqb c "013" && Ascii.eqb c' "010");
          (constructor; [exact Hcur|]); apply IH;
          cbn [String.length]; try lia; reflexivity.
      * apply IH; [lia|].
        rewrite all_chars_append, Hcur. cbn. now rewrite Hc.
Qed.

Lemma clean_chunks_tidy (lines : list string) :
  Forall (fun chunk => tidy chunk /\ chunk <> "")
         (filter truthy
            (flat_map (fun line => map strip (split_on "  " line)) lines)).
Proof.
  apply Forall_forall. intros chunk Hin.
  apply filter_In in Hin. destruct Hin as [Hin Htruthy].
  split; [|intros ->; discriminate].
  apply in_flat_map in Hin. destruct Hin as (line & _ & Hin).
  apply in_map_iff in Hin. destruct Hin as (piece & <- & Hpiece).
  apply strip_tidy.
  pose proof (split_on_pieces line 0 "" eq_refl (or_introl eq_refl)) as Hall.
  rewrite Forall_forall in Hall. now apply Hall.
Qed.

(** X26.  The text of a page that is kept for the model has at most
    [TEXT_LIMIT] (6000) characters, never two blanks in a row, no blank at its start
    and no line break, whatever the page. *)
Theorem text_content_tidy (text : string) :
  let kept := text_content_of text in
  String.length kept <= TEXT_LIMIT
  /\ contains "  " kept = false
  /\ starts_blank kept = false
  /\ all_chars (fun c => negb (is_line_break c)) kept = true.
Proof.
  cbv zeta. unfold text_content_of.
  destruct (join_tidy _ (clean_chunks_tidy (map strip (splitlines text))))
    as [Hdb Hsb].
  fold (clean_text text) in Hdb, Hsb.
  split; [apply FeedbackFacts.length_slice_to|].
  split; [rewrite contains_two_blanks; now apply double_blank_slice|].
  split; [now apply starts_blank_slice|].
  apply all_chars_slice. unfold clean_text.
  apply all_chars_join; [reflexivity|].
  apply Forall_forall. intros chunk Hin.
  apply filter_In in Hin. destruct Hin as [Hin _].
  apply in_flat_map in Hin. destruct Hin as (line & Hline & Hin).
  apply in_map_iff in Hin. destruct Hin as (piece & <- & Hpiece).
  apply all_chars_strip.
  apply in_map_iff in Hline. destruct Hline as (raw & <- & Hraw).
  assert (Hraw_ok : all_chars (fun c => negb (is_line_break c)) raw = true).
  { pose proof (splitlines_no_break (String.length text) text ""
                  (Nat.le_refl _) eq_refl) as Hall.
    rewrite Forall_forall in Hall. now apply Hall. }
  pose proof (split_on_chars (fun c => negb (is_line_break c)) "  "
                (strip raw) 0 "" eq_refl
                (all_chars_strip _ _ Hraw_ok)) as Hall.
  rewrite Forall_forall in Hall. now apply Hall.
Qed.

End CleaningFacts.

